(** * Flat-session launcher of the debug adapter

    A shallow embedding of the two revisions of the flat-session launcher
    script: [src/flatSessionLauncher.ts] (module [FlatSessionLauncher]) and
    the earlier revision of the same script (module [Part000]).

    The script multiplexes every debug session over one root connection.
    What it does is stateful and partly asynchronous (promise callbacks), so
    the embedding threads an explicit [World] through every operation: the
    fields of the [VSSessionManager], the heap of [VSDebugSession] objects,
    the heap of deferred connection handles, the microtask queue and a trace
    of the calls that leave the script. *)

From stdpp Require Import gmap strings list fin_maps.
From Stdlib Require Import ZArith.

Open Scope Z_scope.

(** ** JavaScript values *)

(** The values that occur in configurations and in protocol messages. An
    object is a finite map from property names to values, an array a list.
    Numbers that the script itself produces are integers ([seq: 0], the
    process counter). *)
#[warnings="-register-all"]
Inductive JsVal : Type :=
| JUndefined
| JNull
| JBool (b : bool)
| JNum (n : Z)
| JStr (s : string)
| JArr (items : list JsVal)
| JObj (fields : gmap string JsVal).

(** ** Numbers that count *)

(** The double nearest to the integer [x]: a double has 53 significant
    bits, and a tie goes to the even significand. (Magnitudes stay far below
    the largest double.) *)
Definition round_to_double (x : Z) : Z :=
  let e := Z.log2 (Z.abs x) - 52 in
  if decide (e ≤ 0) then x
  else
    let ulp := 2 ^ e in
    let q := x `div` ulp in
    let r := x `mod` ulp in
    if decide (2 * r < ulp) then q * ulp
    else if decide (ulp < 2 * r) then (q + 1) * ulp
    else if Z.even q then q * ulp else (q + 1) * ulp.

(** The number that [x++] stores: the double nearest to [x + 1]. For a
    double [x] that is never below [x]; [Z.max] says so for every integer.
    Up to 2^53 - 1 it is [x + 1]; at 2^53 it is 2^53 again. *)
Definition js_increment (x : Z) : Z := Z.max x (round_to_double (x + 1)).

(** How a call ends: it returns, or it throws. *)
Inductive Completion : Type := Normal | Abrupt.

(** A launch configuration is a JavaScript object. *)
Abbreviation Config := (gmap string JsVal).

(** [{ ...config, sessionId: id }]: the own properties of [config] are copied
    and then [sessionId] is written, replacing a copied one. *)
Definition spread_with_sessionId (config : Config) (id : string) : Config :=
  <["sessionId" := JStr id]> config.

(** ** Connections *)

(** Streams and the root connection are objects with an identity only. *)
Inductive Stream : Type := StreamRef (ident : nat).

(** [new MessageEmitterConnection(telemetry, logger)]. *)
Inductive MessageEmitterConnection : Type := RootRef (ident : nat).

(** [new ChildConnection(logger, telemetryReporter, rootConnection, sessionId)].
    The class is declared in [dap/flatSessionConnection]; a connection is
    represented by the two arguments that this script chooses. The optional
    [sessionId?: string] is an [option]. *)
Module ChildConnection.
Record t : Type := mk {
  parentConnection : MessageEmitterConnection;
  sessionId : option string
}.
End ChildConnection.

#[global] Instance Stream_eq_dec : EqDecision Stream.
Proof. solve_decision. Defined.
#[global] Instance MessageEmitterConnection_eq_dec :
  EqDecision MessageEmitterConnection.
Proof. solve_decision. Defined.
#[global] Instance ChildConnection_eq_dec : EqDecision ChildConnection.t.
Proof. solve_decision. Defined.

(** The description of a child target handed to the launcher; the script
    reads [target.id()] and [target.name()] only. *)
Module Target.
Record t : Type := mk { id : string; name : string }.
End Target.

(** ** Promises and microtasks *)

(** Every promise that the script keeps is a promise of a connection. The
    promises returned by [.then] are never stored, so each is represented by
    the callback that waits on it.

    [DapProcess pid n] is the callback
    [dap => { dap.process({ systemProcessId: pid, name: n }) }]. *)
Inductive DapCont : Type :=
| DapProcess (systemProcessId : Z) (name : string).

(** The callbacks that the script attaches to a promise of a connection:
    [ThenDap k] is [.then(x => x.dap()).then(k)] and [ThenSend msg] is
    [.then(conn => conn._send(msg))]. *)
Inductive Cont : Type :=
| ThenDap (k : DapCont)
| ThenSend (msg : JsVal).

(** Modelled from the spec: [dap()] of [dap/connection], which is not among
    the sources. The protocol interface of a connection is available with
    the connection and sends on it, so it is named by its connection. *)
Definition dap (x : ChildConnection.t) : ChildConnection.t := x.

(** A microtask: a callback together with the value it is called on. *)
Inductive Job : Type :=
| JConn (c : ChildConnection.t) (k : Cont)
| JDap (c : ChildConnection.t) (k : DapCont).

Inductive PromiseState : Type :=
| Pending (reactions : list Cont)
| Fulfilled (c : ChildConnection.t).

(** ** Session objects *)

(** [class VSDebugSession]: [childConnection] is a reference into the heap
    of promises. *)
Module VSDebugSession.
Record t : Type := mk {
  id : string;
  _name : string;
  childConnection : nat;
  mockProcessId : Z
}.
End VSDebugSession.

(** The [Session] objects of the session manager: the [VSDebugSession] they
    wrap (a reference into the heap of session objects), the configuration
    and strategy they were created with, and their [connection], whose type
    [K] differs between the two revisions. *)
Module Session.
Record t (K S : Type) : Type := mk {
  debugSession : nat;
  config : Config;
  strategy : S;
  connection : K
}.
Arguments mk {K S}.
Arguments debugSession {K S}.
Arguments config {K S}.
Arguments strategy {K S}.
Arguments connection {K S}.
End Session.

(** ** Observable calls *)

(** The calls that leave the script, in the order they happen.
    [EvCreateSession] and [EvResolve] mark the entry of [createSession] and
    a call of a deferred handle's [resolve]. *)
Inductive Event (S : Type) : Type :=
| EvInit (root : MessageEmitterConnection) (inputStream outputStream : Stream)
| EvCreateSession (sessionId : option string) (name : string) (config : Config)
| EvCreateNewSession (debugSession : nat) (config : Config) (strategy : S)
| EvResolve (handle : nat) (c : ChildConnection.t)
| EvSend (c : ChildConnection.t) (msg : JsVal)
| EvProcess (c : ChildConnection.t) (systemProcessId : Z) (name : string).
Arguments EvInit {S}.
Arguments EvCreateSession {S}.
Arguments EvCreateNewSession {S}.
Arguments EvResolve {S}.
Arguments EvSend {S}.
Arguments EvProcess {S}.

(** ** The world *)

(** The two fields of [VSSessionManager] that the script reads and writes,
    the sessions registered with the session manager, and the runtime.
    [mockProcessId] is a JavaScript number that starts at 1 and is only ever
    incremented: an integer-valued double. *)
Record World (K S : Type) : Type := mkWorld {
  mockProcessId : Z;
  rootConnection : MessageEmitterConnection;
  sessions : list (Session.t K S);
  objects : list VSDebugSession.t;
  promises : list PromiseState;
  jobs : list Job;
  trace : list (Event S)
}.
Arguments mkWorld {K S}.
Arguments mockProcessId {K S}.
Arguments rootConnection {K S}.
Arguments sessions {K S}.
Arguments objects {K S}.
Arguments promises {K S}.
Arguments jobs {K S}.
Arguments trace {K S}.

Section Runtime.
Context {K S : Type}.
Implicit Types (w : World K S) (c : ChildConnection.t).

Definition set_mockProcessId (n : Z) w : World K S :=
  mkWorld n (rootConnection w) (sessions w) (objects w) (promises w)
    (jobs w) (trace w).

Definition set_sessions (ss : list (Session.t K S)) w : World K S :=
  mkWorld (mockProcessId w) (rootConnection w) ss (objects w) (promises w)
    (jobs w) (trace w).

Definition set_objects (os : list VSDebugSession.t) w : World K S :=
  mkWorld (mockProcessId w) (rootConnection w) (sessions w) os (promises w)
    (jobs w) (trace w).

Definition set_promises (ps : list PromiseState) w : World K S :=
  mkWorld (mockProcessId w) (rootConnection w) (sessions w) (objects w) ps
    (jobs w) (trace w).

Definition set_jobs (js : list Job) w : World K S :=
  mkWorld (mockProcessId w) (rootConnection w) (sessions w) (objects w)
    (promises w) js (trace w).

Definition emit (e : Event S) w : World K S :=
  mkWorld (mockProcessId w) (rootConnection w) (sessions w) (objects w)
    (promises w) (jobs w) (trace w ++ [e]).

(** [new VSDebugSession(id, name, childConnection, mockProcessId)]: the new
    object is allocated at the end of the heap and its reference returned. *)
Definition new_VSDebugSession (o : VSDebugSession.t) w : nat * World K S :=
  (length (objects w), set_objects (objects w ++ [o]) w).

(** Modelled from the spec: [getDeferred] of [common/promiseUtil], which is
    not among the sources. A Deferred Connection Handle is a promise together
    with its [resolve]; it starts pending, with nobody waiting on it. *)
Definition getDeferred w : nat * World K S :=
  (length (promises w), set_promises (promises w ++ [Pending []]) w).

(** [deferred.resolve(c)]. A pending promise is fulfilled and one microtask
    per waiting callback is queued, in the order the callbacks were attached;
    a promise that is already fulfilled ignores the call. *)
Definition resolve (d : nat) c w : World K S :=
  let w := emit (EvResolve d c) w in
  match promises w !! d with
  | Some (Pending ks) =>
      set_jobs (jobs w ++ (JConn c <$> ks))
        (set_promises (<[d := Fulfilled c]> (promises w)) w)
  | _ => w
  end.

(** [promise.then(k)]: the callback waits while the promise is pending, and
    is queued as a microtask at once when it is fulfilled. *)
Definition then_ (d : nat) (k : Cont) w : World K S :=
  match promises w !! d with
  | Some (Pending ks) => set_promises (<[d := Pending (ks ++ [k])]> (promises w)) w
  | Some (Fulfilled c) => set_jobs (jobs w ++ [JConn c k]) w
  | None => w
  end.

(** Running one microtask. [x => x.dap()] hands the connection's protocol
    interface to the next callback of the chain, which becomes a microtask of
    its own; the two other callbacks call out. *)
Definition run_job (j : Job) w : World K S :=
  match j with
  | JConn c (ThenDap k) => set_jobs (jobs w ++ [JDap (dap c) k]) w
  | JConn c (ThenSend msg) => emit (EvSend c msg) w
  | JDap c (DapProcess pid n) => emit (EvProcess c pid n) w
  end.

(** The microtask queue is first in, first out. *)
Definition tick w : World K S :=
  match jobs w with
  | [] => w
  | j :: js => run_job j (set_jobs js w)
  end.

Fixpoint run_jobs (fuel : nat) w : World K S :=
  match fuel with
  | O => w
  | Datatypes.S fuel => run_jobs fuel (tick w)
  end.

End Runtime.

(** ** The Session Launch Protocol message *)

(** The object literal
    [{ seq: 0, command: 'attachedChildSession', type: 'request',
       arguments: { config: childAttachConfig } }],
    its properties written in the order of the source; both revisions contain
    the same literal. *)
Definition attachedChildSession (childAttachConfig : Config) : JsVal :=
  JObj (<["arguments" := JObj {["config" := JObj childAttachConfig]}]>
       (<["type" := JStr "request"]>
       (<["command" := JStr "attachedChildSession"]>
       {["seq" := JNum 0]}))).

(** ** [src/flatSessionLauncher.ts] *)

Module FlatSessionLauncher.

(** [class VSConnectionStrategy]. *)
Module VSConnectionStrategy.
Record t : Type := mk {
  rootConnection : MessageEmitterConnection;
  sessionId : option string
}.

(** [getConnection(telemetryReporter, logger)]. *)
Definition getConnection (strat : t) : ChildConnection.t :=
  ChildConnection.mk (rootConnection strat) (sessionId strat).
End VSConnectionStrategy.

(** A session's [connection] is the connection itself. *)
Abbreviation W := (World ChildConnection.t VSConnectionStrategy.t).
Abbreviation SessionT := (Session.t ChildConnection.t VSConnectionStrategy.t).

(** [set name(newName)] of the session object at reference [o]: the field is
    written, then the notification is chained on the connection promise. *)
Definition set_name (o : nat) (newName : string) (w : W) : W :=
  match objects w !! o with
  | Some this =>
      let w :=
        set_objects
          (<[o := VSDebugSession.mk (VSDebugSession.id this) newName
                    (VSDebugSession.childConnection this)
                    (VSDebugSession.mockProcessId this)]> (objects w)) w in
      then_ (VSDebugSession.childConnection this)
        (ThenDap (DapProcess (VSDebugSession.mockProcessId this) newName)) w
  | None => w
  end.

(** [get name()]. *)
Definition get_name (o : nat) (w : W) : option string :=
  VSDebugSession._name <$> objects w !! o.

(** Modelled from the spec: the session identifiers under which a Child
    Connection View is registered at the root connection. Every registered
    session has one, made by its strategy. *)
Definition registered (w : W) : list (option string) :=
  (λ s, VSConnectionStrategy.sessionId (Session.strategy s)) <$> sessions w.

(** Modelled from the spec: [SessionManager.createNewSession] of
    [sessionManager], which is not among the sources. It invokes the
    connection strategy to obtain the session's Child Connection View and
    registers the session; the new [Session] is returned. Registering a
    session identifier that is registered already is an error that aborts
    the creation of the session: the call throws ([None]) and nothing is
    registered. *)
Definition createNewSession (debugSession : nat) (config : Config)
    (connectionStrat : VSConnectionStrategy.t) (w : W)
    : option SessionT * W :=
  let w := emit (EvCreateNewSession debugSession config connectionStrat) w in
  if decide (VSConnectionStrategy.sessionId connectionStrat ∈ registered w)
  then (None, w)
  else
    let newSession :=
      Session.mk debugSession config connectionStrat
        (VSConnectionStrategy.getConnection connectionStrat) in
    (Some newSession, set_sessions (sessions w ++ [newSession]) w).

Definition buildConnectionStrategy (sessionId : option string) (w : W)
    : VSConnectionStrategy.t :=
  VSConnectionStrategy.mk (rootConnection w) sessionId.

(** [sessionId || 'root']: [undefined] and the empty string are falsy. *)
Definition or_root (sessionId : option string) : string :=
  match sessionId with
  | Some s => if decide (s = "") then "root" else s
  | None => "root"
  end.

(** [createSession]. The arguments of [new VSDebugSession(...)], with the
    increment of the counter, are evaluated before [createNewSession] is
    called; when that call throws, the exception leaves [createSession] and
    the handle is not resolved. *)
Definition createSession (sessionId : option string) (name : string)
    (config : Config) (w : W) : Completion * W :=
  let w := emit (EvCreateSession sessionId name config) w in
  let connectionStrat := buildConnectionStrategy sessionId w in
  let '(deferredConnection, w) := getDeferred w in
  let '(o, w) :=
    new_VSDebugSession
      (VSDebugSession.mk (or_root sessionId) name deferredConnection
         (mockProcessId w)) w in
  let w := set_mockProcessId (js_increment (mockProcessId w)) w in
  let '(newSession, w) := createNewSession o config connectionStrat w in
  match newSession with
  | Some newSession =>
      (Normal, resolve deferredConnection (Session.connection newSession) w)
  | None => (Abrupt, w)
  end.

(** The callback returned by [buildVSSessionLauncher()]. An exception of
    [createSession] leaves the callback before anything is sent. *)
Definition buildVSSessionLauncher (parentSession : SessionT)
    (target : Target.t) (config : Config) (w : W) : Completion * W :=
  let childAttachConfig := spread_with_sessionId config (Target.id target) in
  let '(completion, w) :=
    createSession (Some (Target.id target)) (Target.name target)
      childAttachConfig w in
  match completion with
  | Normal =>
      (Normal,
       emit (EvSend (Session.connection parentSession)
               (attachedChildSession childAttachConfig)) w)
  | Abrupt => (Abrupt, w)
  end.

(** [new VSSessionManager(inputStream, outputStream)]; [root] is the
    connection that [new MessageEmitterConnection(...)] allocates. *)
Definition constructor (root : MessageEmitterConnection)
    (inputStream outputStream : Stream) : W :=
  let w := mkWorld 1 root [] [] [] [] [] in
  let '(completion, w) := createSession None "rootSession" ∅ w in
  match completion with
  | Normal => emit (EvInit root inputStream outputStream) w
  | Abrupt => w
  end.

(** What can happen to a manager once it is constructed: a registered
    session asks for a child, a session object is renamed, or a microtask
    runs. Whether the launcher returns or throws, the world it leaves is the
    one that goes on. *)
Inductive Op : Type :=
| OpLaunch (parent : nat) (target : Target.t) (config : Config)
| OpSetName (o : nat) (newName : string)
| OpTick.

Definition exec (w : W) (op : Op) : W :=
  match op with
  | OpLaunch parent target config =>
      match sessions w !! parent with
      | Some parentSession =>
          (buildVSSessionLauncher parentSession target config w).2
      | None => w
      end
  | OpSetName o newName => set_name o newName w
  | OpTick => tick w
  end.

Definition run (ops : list Op) (w : W) : W := foldl exec w ops.

End FlatSessionLauncher.

(** ** The earlier revision of the script *)

Module Part000.

(** [class VSConnectionStrategy], which owns the deferred handle here. *)
Module VSConnectionStrategy.
Record t : Type := mk {
  deferredChildConnection : nat;
  rootConnection : MessageEmitterConnection;
  sessionId : option string
}.

(** The constructor: [this.deferredChildConnection = getDeferred()]. *)
Definition new {K : Type} (rootConnection : MessageEmitterConnection)
    (sessionId : option string) (w : World K t) : t * World K t :=
  let '(d, w) := getDeferred w in
  (mk d rootConnection sessionId, w).

(** [init(telemetryReporter, logger)]. *)
Definition init {K : Type} (strat : t) (w : World K t) : World K t :=
  resolve (deferredChildConnection strat)
    (ChildConnection.mk (rootConnection strat) (sessionId strat)) w.

(** [getConnection()] returns the promise. *)
Definition getConnection (strat : t) : nat := deferredChildConnection strat.
End VSConnectionStrategy.

(** A session's [connection] is a promise of the connection. *)
Abbreviation W := (World nat VSConnectionStrategy.t).
Abbreviation SessionT := (Session.t nat VSConnectionStrategy.t).

(** [set name(newName)]: the notification is chained on the connection
    promise; the setter contains no other statement. *)
Definition set_name (o : nat) (newName : string) (w : W) : W :=
  match objects w !! o with
  | Some this =>
      then_ (VSDebugSession.childConnection this)
        (ThenDap (DapProcess (VSDebugSession.mockProcessId this) newName)) w
  | None => w
  end.

(** [get name()]. *)
Definition get_name (o : nat) (w : W) : option string :=
  VSDebugSession._name <$> objects w !! o.

(** Modelled from the spec: the session identifiers under which a Child
    Connection View is registered at the root connection. *)
Definition registered (w : W) : list (option string) :=
  (λ s, VSConnectionStrategy.sessionId (Session.strategy s)) <$> sessions w.

(** Modelled from the spec: [SessionManager.createNewSession] of
    [sessionManager], which is not among the sources. It supplies the
    reporting and logging handles to the connection strategy ([init]),
    takes the strategy's connection and registers the session. Registering
    a session identifier that is registered already is an error that aborts
    the creation of the session: the call throws ([None]), the strategy is
    not initialised and nothing is registered. *)
Definition createNewSession (debugSession : nat) (config : Config)
    (connectionStrat : VSConnectionStrategy.t) (w : W)
    : option SessionT * W :=
  let w := emit (EvCreateNewSession debugSession config connectionStrat) w in
  if decide (VSConnectionStrategy.sessionId connectionStrat ∈ registered w)
  then (None, w)
  else
    let w := VSConnectionStrategy.init connectionStrat w in
    let newSession :=
      Session.mk debugSession config connectionStrat
        (VSConnectionStrategy.getConnection connectionStrat) in
    (Some newSession, set_sessions (sessions w ++ [newSession]) w).

Definition buildConnectionStrategy (sessionId : option string) (w : W)
    : VSConnectionStrategy.t * W :=
  VSConnectionStrategy.new (rootConnection w) sessionId w.

(** [createSession]: the value of [createNewSession] is not used, its
    exception leaves [createSession]. *)
Definition createSession (sessionId : string) (name : string)
    (config : Config) (w : W) : Completion * W :=
  let w := emit (EvCreateSession (Some sessionId) name config) w in
  let '(connectionStrat, w) := buildConnectionStrategy (Some sessionId) w in
  let '(o, w) :=
    new_VSDebugSession
      (VSDebugSession.mk sessionId name
         (VSConnectionStrategy.getConnection connectionStrat)
         (mockProcessId w)) w in
  let w := set_mockProcessId (js_increment (mockProcessId w)) w in
  let '(newSession, w) := createNewSession o config connectionStrat w in
  match newSession with
  | Some _ => (Normal, w)
  | None => (Abrupt, w)
  end.

(** The callback returned by [buildVSSessionLauncher()]. An exception of
    [createSession] leaves the callback before [then] is called. *)
Definition buildVSSessionLauncher (parentSession : SessionT)
    (target : Target.t) (config : Config) (w : W) : Completion * W :=
  let childAttachConfig := spread_with_sessionId config (Target.id target) in
  let '(completion, w) :=
    createSession (Target.id target) (Target.name target)
      childAttachConfig w in
  match completion with
  | Normal =>
      (Normal,
       then_ (Session.connection parentSession)
         (ThenSend (attachedChildSession childAttachConfig)) w)
  | Abrupt => (Abrupt, w)
  end.

(** [new VSSessionManager(inputStream, outputStream)]. *)
Definition constructor (root : MessageEmitterConnection)
    (inputStream outputStream : Stream) : W :=
  let w := mkWorld 1 root [] [] [] [] [] in
  let '(completion, w) := createSession "" "rootSession" ∅ w in
  match completion with
  | Normal => emit (EvInit root inputStream outputStream) w
  | Abrupt => w
  end.

Inductive Op : Type :=
| OpLaunch (parent : nat) (target : Target.t) (config : Config)
| OpSetName (o : nat) (newName : string)
| OpTick.

Definition exec (w : W) (op : Op) : W :=
  match op with
  | OpLaunch parent target config =>
      match sessions w !! parent with
      | Some parentSession =>
          (buildVSSessionLauncher parentSession target config w).2
      | None => w
      end
  | OpSetName o newName => set_name o newName w
  | OpTick => tick w
  end.

Definition run (ops : list Op) (w : W) : W := foldl exec w ops.

End Part000.

(** ** What the trace shows *)

(** The messages passed to [_send], with the connection they went out on. *)
Definition sent {S : Type} (tr : list (Event S))
    : list (ChildConnection.t * JsVal) :=
  omap (λ e, match e with EvSend c msg => Some (c, msg) | _ => None end) tr.

(** The [process] notifications, with the connection they went out on. *)
Definition processes {S : Type} (tr : list (Event S))
    : list (ChildConnection.t * Z * string) :=
  omap (λ e, match e with EvProcess c pid n => Some (c, pid, n) | _ => None end)
    tr.

(** The calls of [resolve] on the handle [d]. *)
Definition resolutions {S : Type} (d : nat) (tr : list (Event S))
    : list ChildConnection.t :=
  omap (λ e, match e with
             | EvResolve d' c => if decide (d' = d) then Some c else None
             | _ => None
             end) tr.

(** ** Sample inputs *)

(** The script's own last statement,
    [new VSSessionManager(process.stdin, process.stdout)], and a child
    target as the adapter reports them. *)
Definition stdin : Stream := StreamRef 0.
Definition stdout : Stream := StreamRef 1.
Definition root0 : MessageEmitterConnection := RootRef 0.
Definition child1 : Target.t := Target.mk "child-1" "worker".

Definition flat_started : FlatSessionLauncher.W :=
  FlatSessionLauncher.constructor root0 stdin stdout.
Definition part000_started : Part000.W :=
  Part000.constructor root0 stdin stdout.

(** The root [Session] that the constructor registers in the earlier
    revision. *)
Definition part000_rootSession : Part000.SessionT :=
  Session.mk 0%nat ∅ (Part000.VSConnectionStrategy.mk 0 root0 (Some "")) 0%nat.

(** The root [Session] that the constructor of [flatSessionLauncher.ts]
    registers, and a child target whose id is the empty string. *)
Definition flat_rootSession : FlatSessionLauncher.SessionT :=
  Session.mk 0%nat ∅ (FlatSessionLauncher.VSConnectionStrategy.mk root0 None)
    (ChildConnection.mk root0 None).

(** The world inside the constructor of [flatSessionLauncher.ts] when the
    root session object has just been built: its handle is pending. *)
Definition flat_pending : FlatSessionLauncher.W :=
  mkWorld 2 root0 [] [VSDebugSession.mk "root" "rootSession" 0 1]
    [Pending []] [] [EvCreateSession None "rootSession" ∅].

(** The started managers after the root session has asked for the child
    [child1] once: the session identifier ["child-1"] is registered. *)
Definition flat_child1_launched : FlatSessionLauncher.W :=
  FlatSessionLauncher.run [FlatSessionLauncher.OpLaunch 0 child1 ∅]
    flat_started.
Definition part000_child1_launched : Part000.W :=
  Part000.run [Part000.OpLaunch 0 child1 ∅] part000_started.

(** ** Statements of the specification that are compared with the code *)

(** The root session as the specification describes it: startup leaves
    exactly one session object, named [rootSession], whose identifier is
    empty. *)
Definition root_session_without_identifier {K S : Type} (w : World K S)
    : Prop :=
  ∃ this,
    objects w = [this] ∧
    VSDebugSession.id this = "" ∧
    VSDebugSession._name this = "rootSession".

(** The session object [o] is renamed to each of [names] in turn, then its
    handle [d] is resolved with [c] and the microtasks run. *)
Definition renamed_then_resolved {K S : Type}
    (set_name : nat → string → World K S → World K S)
    (o d : nat) (c : ChildConnection.t) (names : list string)
    (w : World K S) : World K S :=
  run_jobs (2 * length names)
    (resolve d c (foldl (λ w n, set_name o n w) w names)).

(** The notification policy as the specification describes it: however
    many names were assigned, one notification, with the last name. *)
Definition one_notification_with_final_name {K S : Type}
    (set_name : nat → string → World K S → World K S)
    (o d : nat) (c : ChildConnection.t) (pid : Z) (names : list string)
    (finalName : string) (w : World K S) : Prop :=
  processes (trace (renamed_then_resolved set_name o d c names w)) =
  processes (trace w) ++ [(c, pid, finalName)].



(** The handle that a call of [createSession] creates is resolved once, as
    the specification describes it. *)
Definition Flat_created_handle_resolved_once (sessionId : option string)
    (name : string) (config : Config) (w : FlatSessionLauncher.W) : Prop :=
  let w' := (FlatSessionLauncher.createSession sessionId name config w).2 in
  ∃ conn,
    resolutions (length (promises w)) (trace w') = [conn] ∧
    promises w' !! length (promises w) = Some (Fulfilled conn).

(** Every launch sends one message on the parent's connection, as the
    specification describes it. *)
Definition Flat_launch_sends_one_message
    (parentSession : FlatSessionLauncher.SessionT) (target : Target.t)
    (config : Config) (w : FlatSessionLauncher.W) : Prop :=
  sent (trace (FlatSessionLauncher.buildVSSessionLauncher parentSession
                 target config w).2) =
  sent (trace w) ++
  [(Session.connection parentSession,
    attachedChildSession (spread_with_sessionId config (Target.id target)))].

(** The counter grows with every call of [createSession], as the
    specification describes it. *)
Definition Flat_counter_strictly_increases (sessionId : option string)
    (name : string) (config : Config) (w : FlatSessionLauncher.W) : Prop :=
  mockProcessId w <
  mockProcessId (FlatSessionLauncher.createSession sessionId name config w).2.


Definition Part000_one_root (root : MessageEmitterConnection)
    (w : Part000.W) : Prop :=
  rootConnection w = root ∧
  Forall
    (λ s,
       Part000.VSConnectionStrategy.rootConnection (Session.strategy s)
         = root ∧
       promises w !! Session.connection s =
         Some (Fulfilled
                 (ChildConnection.mk root
                    (Part000.VSConnectionStrategy.sessionId
                       (Session.strategy s)))))
    (sessions w).

(** What one microtask appends to the queue and to the trace. *)
Definition job_spawn (j : Job) : list Job :=
  match j with
  | JConn c (ThenDap k) => [JDap (dap c) k]
  | _ => []
  end.

Definition job_events {S : Type} (j : Job) : list (Event S) :=
  match j with
  | JConn c (ThenDap k) => []
  | JConn c (ThenSend msg) => [EvSend c msg]
  | JDap c (DapProcess pid n) => [EvProcess c pid n]
  end.

(** ** Invariants of a running manager *)

(** Every handle that exists has seen one call of [resolve] and holds the
    connection of that call, or has seen none and is pending; no call names
    a handle that does not exist yet. *)
Definition handles_resolved_at_most_once {K S : Type} (w : World K S)
    : Prop :=
  ∀ d : nat,
    ((d < length (promises w))%nat →
     (∃ conn, resolutions d (trace w) = [conn] ∧
              promises w !! d = Some (Fulfilled conn)) ∨
     (resolutions d (trace w) = [] ∧
      ∃ ks, promises w !! d = Some (Pending ks))) ∧
    ((length (promises w) ≤ d)%nat → resolutions d (trace w) = []).

(** The largest number that the counter reaches. *)
Definition counter_limit : Z := 2 ^ 53.

(** A manager whose counter stands at the limit, as it does once
    [counter_limit - 1] session objects have been made; its other fields are
    those of the started manager. *)
Definition flat_saturated : FlatSessionLauncher.W :=
  set_mockProcessId counter_limit flat_started.

(** The session objects carry the surrogate identifiers 1, 2, 3, ... in the
    order of their creation, up to the limit and the limit from then on, and
    the manager's counter is one ahead. *)
Definition surrogates_counted {K S : Type} (w : World K S) : Prop :=
  VSDebugSession.mockProcessId <$> objects w =
    (λ k, Z.min k counter_limit) <$>
    seqZ 1 (Z.of_nat (length (objects w))) ∧
  mockProcessId w =
    Z.min (Z.of_nat (length (objects w)) + 1) counter_limit.

(** ** Further vocabulary *)

(** The steps that a queued microtask still needs: a chain
    [.then(x => x.dap()).then(...)] needs two, every other microtask one. *)
Definition job_weight (j : Job) : nat :=
  match j with
  | JConn _ (ThenDap _) => 2
  | _ => 1
  end.

Definition queue_weight (js : list Job) : nat :=
  foldr (λ j n, (job_weight j + n)%nat) 0%nat js.

(** The messages of the queued callbacks [conn => conn._send(msg)]. *)
Definition queued_sends (js : list Job) : list JsVal :=
  omap (λ j, match j with JConn _ (ThenSend msg) => Some msg | _ => None end)
    js.

(** The announcements that a manager owes: one [attachedChildSession]
    message per registered session after the root session, with the
    configuration registered for it, in the order of registration. *)
Definition announcements {K S : Type} (w : World K S) : list JsVal :=
  (λ s, attachedChildSession (Session.config s)) <$> drop 1 (sessions w).

(** The notification that renaming the session object [r.1] to [r.2] leads
    to, when the object exists and its handle is fulfilled. *)
Definition notification {K S : Type} (w : World K S) (r : nat * string)
    : option (ChildConnection.t * Z * string) :=
  match objects w !! r.1 with
  | Some this =>
      match promises w !! VSDebugSession.childConnection this with
      | Some (Fulfilled c) =>
          Some (dap c, VSDebugSession.mockProcessId this, r.2)
      | _ => None
      end
  | None => None
  end.

(** The chain queued for a notification, its second half, and the call it
    ends in. *)
Definition chain_job (t : ChildConnection.t * Z * string) : Job :=
  JConn t.1.1 (ThenDap (DapProcess t.1.2 t.2)).

Definition dap_job (t : ChildConnection.t * Z * string) : Job :=
  JDap (dap t.1.1) (DapProcess t.1.2 t.2).

Definition process_event {S : Type} (t : ChildConnection.t * Z * string)
    : Event S :=
  EvProcess t.1.1 t.1.2 t.2.

(** Session objects, handles and sessions line up. The i-th session object
    holds the i-th handle. Registered sessions have pairwise distinct
    session identifiers and wrap pairwise distinct session objects; the
    handle of a registered session's object is fulfilled with the session's
    connection, and no other handle is fulfilled. *)
Definition Flat_aligned (w : FlatSessionLauncher.W) : Prop :=
  VSDebugSession.childConnection <$> objects w = seq 0 (length (objects w)) ∧
  length (promises w) = length (objects w) ∧
  NoDup (FlatSessionLauncher.registered w) ∧
  NoDup (Session.debugSession <$> sessions w) ∧
  Forall
    (λ s, promises w !! Session.debugSession s =
          Some (Fulfilled (Session.connection s)))
    (sessions w) ∧
  (∀ d c, promises w !! d = Some (Fulfilled c) →
          d ∈ Session.debugSession <$> sessions w).

Definition Part000_aligned (w : Part000.W) : Prop :=
  VSDebugSession.childConnection <$> objects w = seq 0 (length (objects w)) ∧
  length (promises w) = length (objects w) ∧
  NoDup (Part000.registered w) ∧
  NoDup (Session.debugSession <$> sessions w) ∧
  Forall
    (λ s,
       Session.connection s = Session.debugSession s ∧
       Part000.VSConnectionStrategy.deferredChildConnection
         (Session.strategy s) = Session.debugSession s ∧
       promises w !! Session.debugSession s =
         Some (Fulfilled
                 (ChildConnection.mk (rootConnection w)
                    (Part000.VSConnectionStrategy.sessionId
                       (Session.strategy s)))))
    (sessions w) ∧
  (∀ d c, promises w !! d = Some (Fulfilled c) →
          d ∈ Session.debugSession <$> sessions w).

(** ** The script's last statement *)

(** [+process.argv[2]], the port that the server was asked to listen on.
    The expression is kept as written and is not evaluated: whether
    [listen] accepts the number is not modelled, and a script whose [listen]
    throws never is a [Listening] process. *)
Inductive PortNumber : Type := UnaryPlus (arg : string).

(** What the script is running: a server that listens, with the managers of
    the sockets accepted so far, or one manager on the standard streams. *)
Inductive Process (K S : Type) : Type :=
| Listening (debugServerPort : PortNumber) (managers : list (World K S))
| Stdio (manager : World K S).
Arguments Listening {K S}.
Arguments Stdio {K S}.

Section Script.
Context {K S : Type}.
(** [new VSSessionManager(inputStream, outputStream)] of the revision. *)
Variable new_VSSessionManager :
  MessageEmitterConnection → Stream → Stream → World K S.

(** The callback of [net.createServer]:
    [async socket => { new VSSessionManager(socket, socket); }]. Each
    manager allocates a root connection of its own. *)
Definition connection (p : Process K S) (socket : Stream) : Process K S :=
  match p with
  | Listening port managers =>
      Listening port
        (managers ++
           [new_VSSessionManager (RootRef (length managers)) socket socket])
  | Stdio manager => Stdio manager
  end.

End Script.

(** The managers that a process has made. *)
Definition managers {K S : Type} (p : Process K S) : list (World K S) :=
  match p with
  | Listening _ ms => ms
  | Stdio m => [m]
  end.

(** * Properties *)

(** ** The runtime *)

Section RuntimeFacts.
Context {K S : Type}.
Implicit Types (w : World K S) (c : ChildConnection.t).

Lemma lookup_fresh {A} (l : list A) (x : A) : (l ++ [x]) !! length l = Some x.
Proof. by apply list_lookup_middle. Qed.

Lemma insert_fresh {A} (l : list A) (x y : A) :
  <[length l := y]> (l ++ [x]) = l ++ [y].
Proof.
  replace (length l) with (length l + 0)%nat at 1 by lia.
  by rewrite insert_app_r.
Qed.

(** Resolving a handle that was just created, with nobody waiting on it. *)
Lemma resolve_fresh c w ps :
  promises w = ps ++ [Pending []] →
  resolve (length ps) c w =
  mkWorld (mockProcessId w) (rootConnection w) (sessions w) (objects w)
    (ps ++ [Fulfilled c]) (jobs w) (trace w ++ [EvResolve (length ps) c]).
Proof.
  destruct w as [n r ss os ps' js tr]. cbn. intros ->.
  unfold resolve, set_jobs, set_promises. cbn.
  rewrite lookup_fresh. cbn. by rewrite insert_fresh, app_nil_r.
Qed.

Lemma resolve_pending d c ks w :
  promises w !! d = Some (Pending ks) →
  resolve d c w =
  mkWorld (mockProcessId w) (rootConnection w) (sessions w) (objects w)
    (<[d := Fulfilled c]> (promises w)) (jobs w ++ (JConn c <$> ks))
    (trace w ++ [EvResolve d c]).
Proof.
  intros Hd. unfold resolve.
  change (promises (emit (EvResolve d c) w)) with (promises w).
  by rewrite Hd.
Qed.

(** A fulfilled promise ignores [resolve]: the first connection stays. *)
Lemma resolve_fulfilled d c c' w :
  promises w !! d = Some (Fulfilled c) →
  resolve d c' w = emit (EvResolve d c') w.
Proof. intros Hd. unfold resolve. cbn. by rewrite Hd. Qed.

Lemma resolve_keeps_fulfilled d d' c c' w :
  promises w !! d = Some (Fulfilled c) →
  promises (resolve d' c' w) !! d = Some (Fulfilled c).
Proof.
  intros Hd. unfold resolve. cbn.
  destruct (promises w !! d') as [[ks|c'']|] eqn:Hd'; cbn; try done.
  destruct (decide (d' = d)) as [->|Hne]; [congruence|].
  by rewrite list_lookup_insert_ne.
Qed.

Lemma then_keeps_fulfilled d d' c k w :
  promises w !! d = Some (Fulfilled c) →
  promises (then_ d' k w) !! d = Some (Fulfilled c).
Proof.
  intros Hd. unfold then_.
  destruct (promises w !! d') as [[ks|c'']|] eqn:Hd'; cbn; try done.
  destruct (decide (d' = d)) as [->|Hne]; [congruence|].
  by rewrite list_lookup_insert_ne.
Qed.

Lemma then_trace d k w : trace (then_ d k w) = trace w.
Proof. unfold then_. by destruct (promises w !! d) as [[?|?]|]. Qed.

Lemma then_objects d k w : objects (then_ d k w) = objects w.
Proof. unfold then_. by destruct (promises w !! d) as [[?|?]|]. Qed.

Lemma then_mockProcessId d k w : mockProcessId (then_ d k w) = mockProcessId w.
Proof. unfold then_. by destruct (promises w !! d) as [[?|?]|]. Qed.

Lemma then_sessions d k w : sessions (then_ d k w) = sessions w.
Proof. unfold then_. by destruct (promises w !! d) as [[?|?]|]. Qed.

Lemma then_rootConnection d k w :
  rootConnection (then_ d k w) = rootConnection w.
Proof. unfold then_. by destruct (promises w !! d) as [[?|?]|]. Qed.

Lemma then_fulfilled d c k w :
  promises w !! d = Some (Fulfilled c) →
  then_ d k w = set_jobs (jobs w ++ [JConn c k]) w.
Proof. intros Hd. unfold then_. by rewrite Hd. Qed.

Lemma then_pending d ks k w :
  promises w !! d = Some (Pending ks) →
  then_ d k w = set_promises (<[d := Pending (ks ++ [k])]> (promises w)) w.
Proof. intros Hd. unfold then_. by rewrite Hd. Qed.

(** A microtask touches the queue and the trace only. *)
Lemma run_job_promises j w : promises (run_job j w) = promises w.
Proof. by destruct j as [c [[pid n]|msg]|c [pid n]]. Qed.

Lemma run_job_objects j w : objects (run_job j w) = objects w.
Proof. by destruct j as [c [[pid n]|msg]|c [pid n]]. Qed.

Lemma run_job_sessions j w : sessions (run_job j w) = sessions w.
Proof. by destruct j as [c [[pid n]|msg]|c [pid n]]. Qed.

Lemma run_job_mockProcessId j w : mockProcessId (run_job j w) = mockProcessId w.
Proof. by destruct j as [c [[pid n]|msg]|c [pid n]]. Qed.

Lemma run_job_rootConnection j w :
  rootConnection (run_job j w) = rootConnection w.
Proof. by destruct j as [c [[pid n]|msg]|c [pid n]]. Qed.

Lemma tick_promises w : promises (tick w) = promises w.
Proof. unfold tick. destruct (jobs w); [done|]. by rewrite run_job_promises. Qed.

Lemma tick_objects w : objects (tick w) = objects w.
Proof. unfold tick. destruct (jobs w); [done|]. by rewrite run_job_objects. Qed.

Lemma tick_sessions w : sessions (tick w) = sessions w.
Proof. unfold tick. destruct (jobs w); [done|]. by rewrite run_job_sessions. Qed.

Lemma tick_mockProcessId w : mockProcessId (tick w) = mockProcessId w.
Proof.
  unfold tick. destruct (jobs w); [done|]. by rewrite run_job_mockProcessId.
Qed.

Lemma tick_rootConnection w : rootConnection (tick w) = rootConnection w.
Proof.
  unfold tick. destruct (jobs w); [done|]. by rewrite run_job_rootConnection.
Qed.

Lemma run_jobs_S n w : run_jobs (Datatypes.S n) w = run_jobs n (tick w).
Proof. done. Qed.

Lemma run_jobs_add n m w : run_jobs (n + m) w = run_jobs m (run_jobs n w).
Proof. revert w. induction n as [|n IH]; intros w; [done|]. cbn. apply IH. Qed.

End RuntimeFacts.

(** ** The microtask queue *)

Section QueueFacts.
Context {K S : Type}.
Implicit Types (w : World K S) (c : ChildConnection.t) (j : Job).

Lemma sent_app (tr1 tr2 : list (Event S)) :
  sent (tr1 ++ tr2) = sent tr1 ++ sent tr2.
Proof. apply omap_app. Qed.

Lemma processes_app (tr1 tr2 : list (Event S)) :
  processes (tr1 ++ tr2) = processes tr1 ++ processes tr2.
Proof. apply omap_app. Qed.

Lemma resolutions_app d (tr1 tr2 : list (Event S)) :
  resolutions d (tr1 ++ tr2) = resolutions d tr1 ++ resolutions d tr2.
Proof. apply omap_app. Qed.

Lemma run_job_eq j w :
  run_job j w =
  mkWorld (mockProcessId w) (rootConnection w) (sessions w) (objects w)
    (promises w) (jobs w ++ job_spawn j) (trace w ++ job_events j).
Proof.
  destruct w as [n r ss os ps js tr].
  destruct j as [c [[pid m]|msg]|c [pid m]]; cbn;
    unfold set_jobs, emit; cbn; by rewrite ?app_nil_r.
Qed.

Lemma tick_cons j js w :
  jobs w = j :: js →
  jobs (tick w) = js ++ job_spawn j ∧
  trace (tick w) = trace w ++ job_events j.
Proof. intros Hj. unfold tick. rewrite Hj, run_job_eq. done. Qed.

(** The queue is first in, first out: a queued microtask reaches the head
    after as many steps as there are microtasks before it, and the trace has
    only grown by then. *)
Lemma queue_reach a j b w :
  jobs w = a ++ j :: b →
  ∃ ev b',
    jobs (run_jobs (length a) w) = j :: b ++ b' ∧
    trace (run_jobs (length a) w) = trace w ++ ev.
Proof.
  revert b w. induction a as [|j0 a IH]; intros b w Hj.
  - exists [], []. cbn. by rewrite !app_nil_r.
  - cbn [length run_jobs].
    destruct (tick_cons j0 (a ++ j :: b) w Hj) as [Hq Ht].
    rewrite <- app_assoc in Hq. cbn in Hq.
    destruct (IH _ _ Hq) as (ev & b' & Hq' & Ht').
    exists (job_events j0 ++ ev), (job_spawn j0 ++ b').
    rewrite Hq', Ht', Ht. by rewrite <- !app_assoc.
Qed.

(** A queued microtask does run: some number of steps later its events are
    the last ones of the trace. *)
Lemma queue_runs a j b w :
  jobs w = a ++ j :: b →
  ∃ ev b',
    jobs (run_jobs (Datatypes.S (length a)) w) = b ++ b' ++ job_spawn j ∧
    trace (run_jobs (Datatypes.S (length a)) w) =
      trace w ++ ev ++ job_events j.
Proof.
  intros Hj. destruct (queue_reach a j b w Hj) as (ev & b' & Hq & Ht).
  exists ev, b'.
  replace (Datatypes.S (length a)) with (length a + 1)%nat by lia.
  rewrite run_jobs_add. cbn [run_jobs].
  destruct (tick_cons _ _ _ Hq) as [Hq' Ht'].
  rewrite Hq', Ht', Ht. by rewrite <- !app_assoc.
Qed.

(** Two worlds whose queues differ by one extra microtask [x] stay in step
    until [x] reaches the head: they queue the same microtasks and send the
    same messages. *)
Lemma queue_simulation a x b (w1 w2 : World K S) :
  jobs w1 = a ++ x :: b →
  jobs w2 = a ++ b →
  sent (trace w1) = sent (trace w2) →
  ∃ b',
    jobs (run_jobs (length a) w1) = x :: b ++ b' ∧
    jobs (run_jobs (length a) w2) = b ++ b' ∧
    sent (trace (run_jobs (length a) w1)) =
      sent (trace (run_jobs (length a) w2)).
Proof.
  revert b w1 w2. induction a as [|j0 a IH]; intros b w1 w2 H1 H2 Hs.
  - exists []. cbn. by rewrite !app_nil_r.
  - cbn [length run_jobs].
    destruct (tick_cons j0 (a ++ x :: b) w1 H1) as [Hq1 Ht1].
    destruct (tick_cons j0 (a ++ b) w2 H2) as [Hq2 Ht2].
    rewrite <- app_assoc in Hq1, Hq2. cbn in Hq1.
    destruct (IH (b ++ job_spawn j0) (tick w1) (tick w2) Hq1 Hq2)
      as (b' & Hq1' & Hq2' & Hs').
    { by rewrite Ht1, Ht2, !sent_app, Hs. }
    exists (job_spawn j0 ++ b'). by rewrite Hq1', Hq2', Hs', <- !app_assoc.
Qed.

End QueueFacts.

(** ** The counter *)

Lemma round_to_double_small x :
  Z.abs x < counter_limit → round_to_double x = x.
Proof.
  intros Hx. unfold round_to_double. cbn zeta.
  rewrite decide_True; [done|].
  destruct (decide (Z.abs x = 0)) as [->|Hne]; [done|].
  assert (Z.log2 (Z.abs x) < 53); [|lia].
  apply Z.log2_lt_pow2; [lia|]. exact Hx.
Qed.

Lemma round_to_double_limit : round_to_double counter_limit = counter_limit.
Proof. reflexivity. Qed.

Lemma js_increment_below n :
  0 ≤ n < counter_limit → js_increment n = n + 1.
Proof.
  intros Hn. unfold js_increment.
  destruct (decide (n + 1 = counter_limit)) as [Heq|Hne].
  - rewrite Heq, round_to_double_limit. lia.
  - rewrite round_to_double_small; [lia|]. unfold counter_limit in *. lia.
Qed.

Lemma js_increment_limit : js_increment counter_limit = counter_limit.
Proof. reflexivity. Qed.

Lemma js_increment_ge n : n ≤ js_increment n.
Proof. apply Z.le_max_l. Qed.

(** On the numbers that the counter holds, [x++] stores the double nearest
    to [x + 1]. *)
Lemma js_increment_counter n :
  0 ≤ n ≤ counter_limit → js_increment n = round_to_double (n + 1).
Proof.
  intros Hn. destruct (decide (n = counter_limit)) as [->|Hne].
  - reflexivity.
  - rewrite js_increment_below by lia.
    destruct (decide (n + 1 = counter_limit)) as [Heq|Hne'].
    + by rewrite Heq, round_to_double_limit.
    + rewrite round_to_double_small; [done|]. unfold counter_limit in *. lia.
Qed.

Lemma js_increment_min n :
  0 ≤ n →
  js_increment (Z.min n counter_limit) = Z.min (n + 1) counter_limit.
Proof.
  intros Hn. destruct (decide (n < counter_limit)) as [Hlt|Hge].
  - rewrite Z.min_l by lia. rewrite js_increment_below by lia. lia.
  - rewrite Z.min_r by lia. rewrite js_increment_limit. lia.
Qed.

(** ** [createSession] and the launcher, as equations on the world *)

(** The session identifier is free: the session is registered, the handle
    resolved. *)
Lemma Flat_createSession_fresh sessionId name config
    (w : FlatSessionLauncher.W) :
  sessionId ∉ FlatSessionLauncher.registered w →
  FlatSessionLauncher.createSession sessionId name config w =
  let strat :=
    FlatSessionLauncher.VSConnectionStrategy.mk (rootConnection w) sessionId in
  let conn := ChildConnection.mk (rootConnection w) sessionId in
  (Normal,
   mkWorld (js_increment (mockProcessId w)) (rootConnection w)
     (sessions w ++ [Session.mk (length (objects w)) config strat conn])
     (objects w ++
        [VSDebugSession.mk (FlatSessionLauncher.or_root sessionId) name
           (length (promises w)) (mockProcessId w)])
     (promises w ++ [Fulfilled conn])
     (jobs w)
     (trace w ++
        [EvCreateSession sessionId name config;
         EvCreateNewSession (length (objects w)) config strat;
         EvResolve (length (promises w)) conn])).
Proof.
  destruct w as [n r ss os ps js tr]. intros Hfree.
  unfold FlatSessionLauncher.createSession,
    FlatSessionLauncher.createNewSession. cbn.
  rewrite decide_False by done. cbn.
  rewrite (resolve_fresh _ _ ps) by done. cbn.
  by rewrite <- !app_assoc.
Qed.

(** The session identifier is registered already: [createNewSession]
    throws; the session object and its pending handle are left behind and
    the counter has been incremented. *)
Lemma Flat_createSession_duplicate sessionId name config
    (w : FlatSessionLauncher.W) :
  sessionId ∈ FlatSessionLauncher.registered w →
  FlatSessionLauncher.createSession sessionId name config w =
  let strat :=
    FlatSessionLauncher.VSConnectionStrategy.mk (rootConnection w) sessionId in
  (Abrupt,
   mkWorld (js_increment (mockProcessId w)) (rootConnection w)
     (sessions w)
     (objects w ++
        [VSDebugSession.mk (FlatSessionLauncher.or_root sessionId) name
           (length (promises w)) (mockProcessId w)])
     (promises w ++ [Pending []])
     (jobs w)
     (trace w ++
        [EvCreateSession sessionId name config;
         EvCreateNewSession (length (objects w)) config strat])).
Proof.
  destruct w as [n r ss os ps js tr]. intros Hdup.
  unfold FlatSessionLauncher.createSession,
    FlatSessionLauncher.createNewSession. cbn.
  rewrite decide_True by done.
  unfold emit, set_mockProcessId, set_objects, new_VSDebugSession. cbn.
  by rewrite <- !app_assoc.
Qed.

Lemma Flat_launcher_eq parentSession target config
    (w : FlatSessionLauncher.W) :
  FlatSessionLauncher.buildVSSessionLauncher parentSession target config w =
  let merged := spread_with_sessionId config (Target.id target) in
  let created :=
    FlatSessionLauncher.createSession (Some (Target.id target))
      (Target.name target) merged w in
  match created.1 with
  | Normal =>
      (Normal,
       emit (EvSend (Session.connection parentSession)
               (attachedChildSession merged)) created.2)
  | Abrupt => (Abrupt, created.2)
  end.
Proof.
  unfold FlatSessionLauncher.buildVSSessionLauncher. cbn zeta.
  by destruct (FlatSessionLauncher.createSession _ _ _ w) as [[] w'].
Qed.

Lemma Part000_createSession_fresh sessionId name config (w : Part000.W) :
  Some sessionId ∉ Part000.registered w →
  Part000.createSession sessionId name config w =
  let strat :=
    Part000.VSConnectionStrategy.mk (length (promises w)) (rootConnection w)
      (Some sessionId) in
  let conn := ChildConnection.mk (rootConnection w) (Some sessionId) in
  (Normal,
   mkWorld (js_increment (mockProcessId w)) (rootConnection w)
     (sessions w ++
        [Session.mk (length (objects w)) config strat (length (promises w))])
     (objects w ++
        [VSDebugSession.mk sessionId name (length (promises w))
           (mockProcessId w)])
     (promises w ++ [Fulfilled conn])
     (jobs w)
     (trace w ++
        [EvCreateSession (Some sessionId) name config;
         EvCreateNewSession (length (objects w)) config strat;
         EvResolve (length (promises w)) conn])).
Proof.
  destruct w as [n r ss os ps js tr]. intros Hfree.
  unfold Part000.createSession, Part000.createNewSession,
    Part000.VSConnectionStrategy.init. cbn.
  rewrite decide_False by done. cbn.
  rewrite !(resolve_fresh _ _ ps) by done. cbn.
  by rewrite <- !app_assoc.
Qed.

Lemma Part000_createSession_duplicate sessionId name config (w : Part000.W) :
  Some sessionId ∈ Part000.registered w →
  Part000.createSession sessionId name config w =
  let strat :=
    Part000.VSConnectionStrategy.mk (length (promises w)) (rootConnection w)
      (Some sessionId) in
  (Abrupt,
   mkWorld (js_increment (mockProcessId w)) (rootConnection w)
     (sessions w)
     (objects w ++
        [VSDebugSession.mk sessionId name (length (promises w))
           (mockProcessId w)])
     (promises w ++ [Pending []])
     (jobs w)
     (trace w ++
        [EvCreateSession (Some sessionId) name config;
         EvCreateNewSession (length (objects w)) config strat])).
Proof.
  destruct w as [n r ss os ps js tr]. intros Hdup.
  unfold Part000.createSession, Part000.createNewSession. cbn.
  rewrite decide_True by done.
  unfold emit, set_mockProcessId, set_objects, new_VSDebugSession. cbn.
  by rewrite <- !app_assoc.
Qed.

Lemma Part000_launcher_eq parentSession target config (w : Part000.W) :
  Part000.buildVSSessionLauncher parentSession target config w =
  let merged := spread_with_sessionId config (Target.id target) in
  let created :=
    Part000.createSession (Target.id target) (Target.name target) merged w in
  match created.1 with
  | Normal =>
      (Normal,
       then_ (Session.connection parentSession)
         (ThenSend (attachedChildSession merged)) created.2)
  | Abrupt => (Abrupt, created.2)
  end.
Proof.
  unfold Part000.buildVSSessionLauncher. cbn zeta.
  by destruct (Part000.createSession _ _ _ w) as [[] w'].
Qed.

Lemma Flat_launcher_fresh parentSession target config
    (w : FlatSessionLauncher.W) :
  Some (Target.id target) ∉ FlatSessionLauncher.registered w →
  FlatSessionLauncher.buildVSSessionLauncher parentSession target config w =
  (Normal,
   emit (EvSend (Session.connection parentSession)
           (attachedChildSession
              (spread_with_sessionId config (Target.id target))))
     (FlatSessionLauncher.createSession (Some (Target.id target))
        (Target.name target)
        (spread_with_sessionId config (Target.id target)) w).2).
Proof.
  intros Hfree. rewrite Flat_launcher_eq. cbn zeta.
  by rewrite Flat_createSession_fresh.
Qed.

Lemma Flat_launcher_duplicate parentSession target config
    (w : FlatSessionLauncher.W) :
  Some (Target.id target) ∈ FlatSessionLauncher.registered w →
  FlatSessionLauncher.buildVSSessionLauncher parentSession target config w =
  FlatSessionLauncher.createSession (Some (Target.id target))
    (Target.name target) (spread_with_sessionId config (Target.id target)) w.
Proof.
  intros Hdup. rewrite Flat_launcher_eq. cbn zeta.
  by rewrite Flat_createSession_duplicate.
Qed.

Lemma Part000_launcher_fresh parentSession target config (w : Part000.W) :
  Some (Target.id target) ∉ Part000.registered w →
  Part000.buildVSSessionLauncher parentSession target config w =
  (Normal,
   then_ (Session.connection parentSession)
     (ThenSend
        (attachedChildSession
           (spread_with_sessionId config (Target.id target))))
     (Part000.createSession (Target.id target) (Target.name target)
        (spread_with_sessionId config (Target.id target)) w).2).
Proof.
  intros Hfree. rewrite Part000_launcher_eq. cbn zeta.
  by rewrite Part000_createSession_fresh.
Qed.

Lemma Part000_launcher_duplicate parentSession target config (w : Part000.W) :
  Some (Target.id target) ∈ Part000.registered w →
  Part000.buildVSSessionLauncher parentSession target config w =
  Part000.createSession (Target.id target) (Target.name target)
    (spread_with_sessionId config (Target.id target)) w.
Proof.
  intros Hdup. rewrite Part000_launcher_eq. cbn zeta.
  by rewrite Part000_createSession_duplicate.
Qed.

(** The world that the constructor leaves. *)
Lemma Flat_constructor_eq root inputStream outputStream :
  FlatSessionLauncher.constructor root inputStream outputStream =
  mkWorld 2 root
    [Session.mk 0%nat ∅
       (FlatSessionLauncher.VSConnectionStrategy.mk root None)
       (ChildConnection.mk root None)]
    [VSDebugSession.mk "root" "rootSession" 0 1]
    [Fulfilled (ChildConnection.mk root None)]
    []
    [EvCreateSession None "rootSession" ∅;
     EvCreateNewSession 0 ∅
       (FlatSessionLauncher.VSConnectionStrategy.mk root None);
     EvResolve 0 (ChildConnection.mk root None);
     EvInit root inputStream outputStream].
Proof. reflexivity. Qed.

Lemma Part000_constructor_eq root inputStream outputStream :
  Part000.constructor root inputStream outputStream =
  mkWorld 2 root
    [Session.mk 0%nat ∅ (Part000.VSConnectionStrategy.mk 0 root (Some ""))
       0%nat]
    [VSDebugSession.mk "" "rootSession" 0 1]
    [Fulfilled (ChildConnection.mk root (Some ""))]
    []
    [EvCreateSession (Some "") "rootSession" ∅;
     EvCreateNewSession 0 ∅
       (Part000.VSConnectionStrategy.mk 0 root (Some ""));
     EvResolve 0 (ChildConnection.mk root (Some ""));
     EvInit root inputStream outputStream].
Proof. reflexivity. Qed.

(** ** The Session Launch Protocol message *)

Lemma attachedChildSession_shape childAttachConfig :
  ∃ fields : gmap string JsVal,
    attachedChildSession childAttachConfig = JObj fields ∧
    dom fields = ({["seq"; "type"; "command"; "arguments"]} : gset string) ∧
    fields !! "seq" = Some (JNum 0) ∧
    fields !! "type" = Some (JStr "request") ∧
    fields !! "command" = Some (JStr "attachedChildSession") ∧
    fields !! "arguments" =
      Some (JObj {["config" := JObj childAttachConfig]}).
Proof.
  eexists. split; [reflexivity|].
  split; [|by repeat split].
  rewrite !dom_insert_L, dom_singleton_L. set_solver.
Qed.

Lemma spread_with_sessionId_lookup (config : Config) id :
  spread_with_sessionId config id !! "sessionId" = Some (JStr id).
Proof. apply lookup_insert_eq. Qed.

Lemma spread_with_sessionId_other (config : Config) id k :
  k ≠ "sessionId" → spread_with_sessionId config id !! k = config !! k.
Proof. intros Hk. unfold spread_with_sessionId. by rewrite lookup_insert_ne. Qed.

(** ** Invariants *)

Section InvariantSteps.
Context {K S : Type}.
Implicit Types (w : World K S).

Lemma resolutions_job_events d j : resolutions d (job_events (S := S) j) = [].
Proof. by destruct j as [c [[pid m]|msg]|c [pid m]]. Qed.

Lemma then_length d k w :
  length (promises (then_ d k w)) = length (promises w).
Proof.
  unfold then_. destruct (promises w !! d) as [[ks|c]|]; cbn; try done.
  by rewrite length_insert.
Qed.

Lemma then_keeps_pending d d' ks k w :
  promises w !! d = Some (Pending ks) →
  ∃ ks', promises (then_ d' k w) !! d = Some (Pending ks').
Proof.
  intros Hd. unfold then_.
  destruct (promises w !! d') as [[ks'|c]|] eqn:Hd'; cbn; eauto.
  destruct (decide (d' = d)) as [->|Hne].
  - eexists. apply list_lookup_insert_eq. by eapply lookup_lt_Some.
  - exists ks. by rewrite list_lookup_insert_ne.
Qed.

(** A step that allocates one handle and resolves it once. *)
Lemma handles_step_alloc w w' conn evs :
  handles_resolved_at_most_once w →
  promises w' = promises w ++ [Fulfilled conn] →
  trace w' = trace w ++ evs →
  (∀ d, resolutions d evs =
        if decide (d = length (promises w)) then [conn] else []) →
  handles_resolved_at_most_once w'.
Proof.
  intros Hinv Hp Ht Hev d. rewrite Hp, Ht, resolutions_app, Hev, length_app.
  cbn [length]. destruct (Hinv d) as [Hold Hnew].
  case_decide as Hd.
  - subst d. split; intros Hlt; [|lia].
    left. exists conn. rewrite Hnew by lia. by rewrite lookup_fresh.
  - rewrite app_nil_r. split; intros Hlt; [|apply Hnew; lia].
    rewrite lookup_app_l by lia. apply Hold. lia.
Qed.

(** A step that allocates one handle and leaves it pending. *)
Lemma handles_step_alloc_pending w w' evs :
  handles_resolved_at_most_once w →
  promises w' = promises w ++ [Pending []] →
  trace w' = trace w ++ evs →
  (∀ d, resolutions d evs = []) →
  handles_resolved_at_most_once w'.
Proof.
  intros Hinv Hp Ht Hev d. rewrite Hp, Ht, resolutions_app, Hev, length_app.
  rewrite app_nil_r. cbn [length]. destruct (Hinv d) as [Hold Hnew].
  split; intros Hlt; [|apply Hnew; lia].
  destruct (decide (d = length (promises w))) as [->|Hd].
  - right. rewrite Hnew by lia. rewrite lookup_fresh. eauto.
  - rewrite lookup_app_l by lia. apply Hold. lia.
Qed.

(** A step that resolves no handle. *)
Lemma handles_step_same w w' evs :
  handles_resolved_at_most_once w →
  length (promises w') = length (promises w) →
  (∀ d c, promises w !! d = Some (Fulfilled c) →
          promises w' !! d = Some (Fulfilled c)) →
  (∀ d ks, promises w !! d = Some (Pending ks) →
           ∃ ks', promises w' !! d = Some (Pending ks')) →
  trace w' = trace w ++ evs →
  (∀ d, resolutions d evs = []) →
  handles_resolved_at_most_once w'.
Proof.
  intros Hinv Hlen Hful Hpen Ht Hev d.
  rewrite Hlen, Ht, resolutions_app, Hev, app_nil_r.
  destruct (Hinv d) as [Hold Hnew]. split; [|done].
  intros Hlt. destruct (Hold Hlt) as [(c & Hr & Hl)|(Hr & ks & Hl)].
  - left. exists c. eauto.
  - right. split; [done|]. eauto.
Qed.

(** A step that leaves the handles alone. *)
Lemma handles_step_frame w w' evs :
  handles_resolved_at_most_once w →
  promises w' = promises w →
  trace w' = trace w ++ evs →
  (∀ d, resolutions d evs = []) →
  handles_resolved_at_most_once w'.
Proof.
  intros Hinv Hp. apply handles_step_same; rewrite ?Hp; eauto.
Qed.

Lemma handles_then d k w :
  handles_resolved_at_most_once w →
  handles_resolved_at_most_once (then_ d k w).
Proof.
  intros Hinv. apply (handles_step_same w _ []); try done.
  - apply then_length.
  - intros d' c. apply then_keeps_fulfilled.
  - intros d' ks. apply then_keeps_pending.
  - by rewrite then_trace, app_nil_r.
Qed.

Lemma handles_tick w :
  handles_resolved_at_most_once w → handles_resolved_at_most_once (tick w).
Proof.
  intros Hinv. destruct (jobs w) as [|j js] eqn:Hj.
  - unfold tick. by rewrite Hj.
  - apply (handles_step_frame w _ (job_events j)); try done.
    + apply tick_promises.
    + by destruct (tick_cons j js w Hj).
    + intros d. apply resolutions_job_events.
Qed.

Lemma handles_emit e w :
  (∀ d, resolutions d [e] = []) →
  handles_resolved_at_most_once w →
  handles_resolved_at_most_once (emit e w).
Proof. intros He Hinv. by apply (handles_step_frame w _ [e]). Qed.

Lemma surrogates_step_alloc w w' o :
  surrogates_counted w →
  objects w' = objects w ++ [o] →
  VSDebugSession.mockProcessId o = mockProcessId w →
  mockProcessId w' = js_increment (mockProcessId w) →
  surrogates_counted w'.
Proof.
  intros [Hids Hn] Ho Hpid Hn'. split.
  - rewrite Ho, fmap_app, Hids, length_app. cbn [length fmap list_fmap].
    replace (length (objects w) + 1)%nat
      with (Datatypes.S (length (objects w))) by lia.
    rewrite seqZ_S, fmap_app, Hpid, Hn. cbn [fmap list_fmap].
    f_equal. f_equal. f_equal. lia.
  - rewrite Hn', Hn, Ho, length_app. cbn [length].
    rewrite js_increment_min by lia. f_equal. lia.
Qed.

Lemma surrogates_step_same w w' :
  surrogates_counted w →
  VSDebugSession.mockProcessId <$> objects w' =
    VSDebugSession.mockProcessId <$> objects w →
  mockProcessId w' = mockProcessId w →
  surrogates_counted w'.
Proof.
  intros [Hids Hn] Ho Hn'. unfold surrogates_counted.
  assert (length (objects w') = length (objects w)) as Hlen.
  { by rewrite <- (length_fmap VSDebugSession.mockProcessId), Ho, length_fmap. }
  by rewrite Ho, Hn', Hlen.
Qed.

End InvariantSteps.

(** ** Invariants of [flatSessionLauncher.ts] *)

Lemma Flat_run_invariant (P : FlatSessionLauncher.W → Prop) :
  (∀ w op, P w → P (FlatSessionLauncher.exec w op)) →
  ∀ ops w, P w → P (FlatSessionLauncher.run ops w).
Proof.
  intros Hstep ops. unfold FlatSessionLauncher.run.
  induction ops as [|op ops IH]; intros w Hw; cbn; [done|].
  apply IH. by apply Hstep.
Qed.

Lemma Flat_handles_createSession sessionId name config w :
  handles_resolved_at_most_once w →
  handles_resolved_at_most_once
    (FlatSessionLauncher.createSession sessionId name config w).2.
Proof.
  intros Hinv.
  destruct (decide (sessionId ∈ FlatSessionLauncher.registered w)) as [Hd|Hd].
  - rewrite Flat_createSession_duplicate by done. cbn zeta.
    eapply handles_step_alloc_pending; [exact Hinv|reflexivity|reflexivity|].
    done.
  - rewrite Flat_createSession_fresh by done. cbn zeta.
    eapply handles_step_alloc; [exact Hinv|reflexivity|reflexivity|].
    intros d. cbn. by repeat case_decide.
Qed.

Lemma Flat_handles_set_name o newName w :
  handles_resolved_at_most_once w →
  handles_resolved_at_most_once (FlatSessionLauncher.set_name o newName w).
Proof.
  intros Hinv. unfold FlatSessionLauncher.set_name.
  destruct (objects w !! o) as [this|]; [|done]. by apply handles_then.
Qed.

Lemma Flat_handles_launcher parentSession target config w :
  handles_resolved_at_most_once w →
  handles_resolved_at_most_once
    (FlatSessionLauncher.buildVSSessionLauncher parentSession target config
       w).2.
Proof.
  intros Hinv.
  destruct (decide (Some (Target.id target)
                      ∈ FlatSessionLauncher.registered w)) as [Hd|Hd].
  - rewrite Flat_launcher_duplicate by done.
    by apply Flat_handles_createSession.
  - rewrite Flat_launcher_fresh by done. cbn zeta.
    apply handles_emit; [done|]. by apply Flat_handles_createSession.
Qed.

Lemma Flat_handles_exec w op :
  handles_resolved_at_most_once w →
  handles_resolved_at_most_once (FlatSessionLauncher.exec w op).
Proof.
  intros Hinv. destruct op as [parent target config|o newName|]; cbn.
  - destruct (sessions w !! parent) as [parentSession|]; [|done].
    by apply Flat_handles_launcher.
  - by apply Flat_handles_set_name.
  - by apply handles_tick.
Qed.

Lemma Flat_handles_started root inputStream outputStream :
  handles_resolved_at_most_once
    (FlatSessionLauncher.constructor root inputStream outputStream).
Proof.
  intros d. rewrite Flat_constructor_eq. cbn [promises trace length]. split.
  - intros Hd. left. exists (ChildConnection.mk root None).
    destruct d as [|d]; [done|lia].
  - intros Hd. destruct d as [|d]; [lia|done].
Qed.

Lemma Flat_surrogates_createSession sessionId name config w :
  surrogates_counted w →
  surrogates_counted
    (FlatSessionLauncher.createSession sessionId name config w).2.
Proof.
  intros Hinv.
  destruct (decide (sessionId ∈ FlatSessionLauncher.registered w)) as [Hd|Hd].
  - rewrite Flat_createSession_duplicate by done. cbn zeta.
    by eapply surrogates_step_alloc.
  - rewrite Flat_createSession_fresh by done. cbn zeta.
    by eapply surrogates_step_alloc.
Qed.

Lemma Flat_surrogates_set_name o newName w :
  surrogates_counted w →
  surrogates_counted (FlatSessionLauncher.set_name o newName w).
Proof.
  intros Hinv. unfold FlatSessionLauncher.set_name.
  destruct (objects w !! o) as [this|] eqn:Ho; [|done].
  eapply surrogates_step_same; [exact Hinv| |by rewrite then_mockProcessId].
  rewrite then_objects. cbn [objects set_objects].
  rewrite list_fmap_insert. apply list_insert_id.
  by rewrite list_lookup_fmap, Ho.
Qed.

Lemma Flat_surrogates_launcher parentSession target config w :
  surrogates_counted w →
  surrogates_counted
    (FlatSessionLauncher.buildVSSessionLauncher parentSession target config
       w).2.
Proof.
  intros Hinv.
  destruct (decide (Some (Target.id target)
                      ∈ FlatSessionLauncher.registered w)) as [Hd|Hd].
  - rewrite Flat_launcher_duplicate by done.
    by apply Flat_surrogates_createSession.
  - rewrite Flat_launcher_fresh by done. cbn zeta.
    eapply surrogates_step_same;
      [by apply Flat_surrogates_createSession|done|done].
Qed.

Lemma Flat_surrogates_exec w op :
  surrogates_counted w → surrogates_counted (FlatSessionLauncher.exec w op).
Proof.
  intros Hinv. destruct op as [parent target config|o newName|]; cbn.
  - destruct (sessions w !! parent) as [parentSession|]; [|done].
    by apply Flat_surrogates_launcher.
  - by apply Flat_surrogates_set_name.
  - eapply surrogates_step_same;
      [exact Hinv|by rewrite tick_objects|by rewrite tick_mockProcessId].
Qed.

Lemma Flat_surrogates_started root inputStream outputStream :
  surrogates_counted
    (FlatSessionLauncher.constructor root inputStream outputStream).
Proof. by vm_compute. Qed.

(** ** Invariants of the earlier revision *)

Lemma Part000_run_invariant (P : Part000.W → Prop) :
  (∀ w op, P w → P (Part000.exec w op)) →
  ∀ ops w, P w → P (Part000.run ops w).
Proof.
  intros Hstep ops. unfold Part000.run.
  induction ops as [|op ops IH]; intros w Hw; cbn; [done|].
  apply IH. by apply Hstep.
Qed.

Lemma Part000_handles_createSession sessionId name config w :
  handles_resolved_at_most_once w →
  handles_resolved_at_most_once
    (Part000.createSession sessionId name config w).2.
Proof.
  intros Hinv.
  destruct (decide (Some sessionId ∈ Part000.registered w)) as [Hd|Hd].
  - rewrite Part000_createSession_duplicate by done. cbn zeta.
    eapply handles_step_alloc_pending; [exact Hinv|reflexivity|reflexivity|].
    done.
  - rewrite Part000_createSession_fresh by done. cbn zeta.
    eapply handles_step_alloc; [exact Hinv|reflexivity|reflexivity|].
    intros d. cbn. by repeat case_decide.
Qed.

Lemma Part000_handles_set_name o newName w :
  handles_resolved_at_most_once w →
  handles_resolved_at_most_once (Part000.set_name o newName w).
Proof.
  intros Hinv. unfold Part000.set_name.
  destruct (objects w !! o) as [this|]; [|done]. by apply handles_then.
Qed.

Lemma Part000_handles_launcher parentSession target config w :
  handles_resolved_at_most_once w →
  handles_resolved_at_most_once
    (Part000.buildVSSessionLauncher parentSession target config w).2.
Proof.
  intros Hinv.
  destruct (decide (Some (Target.id target) ∈ Part000.registered w))
    as [Hd|Hd].
  - rewrite Part000_launcher_duplicate by done.
    by apply Part000_handles_createSession.
  - rewrite Part000_launcher_fresh by done. cbn zeta.
    by apply handles_then, Part000_handles_createSession.
Qed.

Lemma Part000_handles_exec w op :
  handles_resolved_at_most_once w →
  handles_resolved_at_most_once (Part000.exec w op).
Proof.
  intros Hinv. destruct op as [parent target config|o newName|]; cbn.
  - destruct (sessions w !! parent) as [parentSession|]; [|done].
    by apply Part000_handles_launcher.
  - by apply Part000_handles_set_name.
  - by apply handles_tick.
Qed.

Lemma Part000_handles_started root inputStream outputStream :
  handles_resolved_at_most_once
    (Part000.constructor root inputStream outputStream).
Proof.
  intros d. rewrite Part000_constructor_eq. cbn [promises trace length].
  split.
  - intros Hd. left. exists (ChildConnection.mk root (Some "")).
    destruct d as [|d]; [done|lia].
  - intros Hd. destruct d as [|d]; [lia|done].
Qed.

Lemma Part000_surrogates_createSession sessionId name config w :
  surrogates_counted w →
  surrogates_counted (Part000.createSession sessionId name config w).2.
Proof.
  intros Hinv.
  destruct (decide (Some sessionId ∈ Part000.registered w)) as [Hd|Hd].
  - rewrite Part000_createSession_duplicate by done. cbn zeta.
    by eapply surrogates_step_alloc.
  - rewrite Part000_createSession_fresh by done. cbn zeta.
    by eapply surrogates_step_alloc.
Qed.

Lemma Part000_surrogates_launcher parentSession target config w :
  surrogates_counted w →
  surrogates_counted
    (Part000.buildVSSessionLauncher parentSession target config w).2.
Proof.
  intros Hinv.
  destruct (decide (Some (Target.id target) ∈ Part000.registered w))
    as [Hd|Hd].
  - rewrite Part000_launcher_duplicate by done.
    by apply Part000_surrogates_createSession.
  - rewrite Part000_launcher_fresh by done. cbn zeta. cbn [snd].
    eapply surrogates_step_same;
      [by apply Part000_surrogates_createSession
      |by rewrite then_objects|by rewrite then_mockProcessId].
Qed.

Lemma Part000_surrogates_exec w op :
  surrogates_counted w → surrogates_counted (Part000.exec w op).
Proof.
  intros Hinv. destruct op as [parent target config|o newName|]; cbn.
  - destruct (sessions w !! parent) as [parentSession|]; [|done].
    by apply Part000_surrogates_launcher.
  - unfold Part000.set_name. destruct (objects w !! o) as [this|]; [|done].
    eapply surrogates_step_same;
      [exact Hinv|by rewrite then_objects|by rewrite then_mockProcessId].
  - eapply surrogates_step_same;
      [exact Hinv|by rewrite tick_objects|by rewrite tick_mockProcessId].
Qed.

Lemma Part000_surrogates_started root inputStream outputStream :
  surrogates_counted (Part000.constructor root inputStream outputStream).
Proof. by vm_compute. Qed.

(** ** The moment of resolution *)

(** The world in which [createSession] calls [resolve]. *)
Lemma Flat_createSession_resolve sessionId name config
    (w : FlatSessionLauncher.W) :
  sessionId ∉ FlatSessionLauncher.registered w →
  let strat :=
    FlatSessionLauncher.VSConnectionStrategy.mk (rootConnection w) sessionId in
  let conn := ChildConnection.mk (rootConnection w) sessionId in
  (FlatSessionLauncher.createSession sessionId name config w).2 =
  resolve (length (promises w)) conn
    (mkWorld (js_increment (mockProcessId w)) (rootConnection w)
       (sessions w ++ [Session.mk (length (objects w)) config strat conn])
       (objects w ++
          [VSDebugSession.mk (FlatSessionLauncher.or_root sessionId) name
             (length (promises w)) (mockProcessId w)])
       (promises w ++ [Pending []])
       (jobs w)
       (trace w ++
          [EvCreateSession sessionId name config;
           EvCreateNewSession (length (objects w)) config strat])).
Proof.
  intros Hfree. cbn zeta. rewrite Flat_createSession_fresh by done.
  rewrite (resolve_fresh _ _ (promises w)) by done. cbn.
  by rewrite <- !app_assoc.
Qed.

(** The world in which the session manager calls the strategy's [init],
    which calls [resolve]. *)
Lemma Part000_createSession_resolve sessionId name config (w : Part000.W) :
  Some sessionId ∉ Part000.registered w →
  let strat :=
    Part000.VSConnectionStrategy.mk (length (promises w)) (rootConnection w)
      (Some sessionId) in
  let conn := ChildConnection.mk (rootConnection w) (Some sessionId) in
  let w1 :=
    mkWorld (js_increment (mockProcessId w)) (rootConnection w) (sessions w)
      (objects w ++
         [VSDebugSession.mk sessionId name (length (promises w))
            (mockProcessId w)])
      (promises w ++ [Pending []])
      (jobs w)
      (trace w ++
         [EvCreateSession (Some sessionId) name config;
          EvCreateNewSession (length (objects w)) config strat]) in
  (Part000.createSession sessionId name config w).2 =
  set_sessions
    (sessions w1 ++
       [Session.mk (length (objects w)) config strat (length (promises w))])
    (resolve (length (promises w)) conn w1).
Proof.
  intros Hfree. cbn zeta. rewrite Part000_createSession_fresh by done.
  rewrite (resolve_fresh _ _ (promises w)) by done. cbn.
  by rewrite <- !app_assoc.
Qed.

(** ** One root connection, one session identifier *)



Lemma Part000_one_root_exec root w op :
  Part000_one_root root w → Part000_one_root root (Part000.exec w op).
Proof.
  intros [Hroot Hall].
  assert (∀ w' : Part000.W,
            rootConnection w' = rootConnection w →
            sessions w' = sessions w →
            (∀ d c, promises w !! d = Some (Fulfilled c) →
                    promises w' !! d = Some (Fulfilled c)) →
            Part000_one_root root w') as Hsame.
  { intros w' Hr Hs Hp. split; [by rewrite Hr|]. rewrite Hs.
    eapply Forall_impl; [exact Hall|]. intros s [Hs1 Hs2]. split; [done|].
    by apply Hp. }
  destruct op as [parent target config|o newName|]; cbn.
  - destruct (sessions w !! parent) as [parentSession|]; [|done].
    destruct (decide (Some (Target.id target) ∈ Part000.registered w))
      as [Hd|Hd].
    + rewrite Part000_launcher_duplicate, Part000_createSession_duplicate
        by done.
      apply Hsame; [done|done|]. intros d c Hl. cbn [snd promises].
      rewrite lookup_app_l; [done|]. by eapply lookup_lt_Some.
    + rewrite Part000_launcher_fresh by done. cbn zeta. cbn [snd]. split.
      * by rewrite then_rootConnection, Part000_createSession_fresh.
      * rewrite then_sessions, Part000_createSession_fresh by done.
        cbn [sessions snd]. apply Forall_app. split.
        -- eapply Forall_impl; [exact Hall|]. intros s [Hs1 Hs2].
           split; [done|]. apply then_keeps_fulfilled. cbn [promises snd].
           rewrite lookup_app_l; [done|]. by eapply lookup_lt_Some.
        -- apply Forall_singleton. cbn [Session.strategy Session.connection].
           split; [done|]. apply then_keeps_fulfilled. cbn [promises snd].
           cbn. rewrite Hroot. apply lookup_fresh.
  - unfold Part000.set_name. destruct (objects w !! o) as [this|]; [|done].
    apply Hsame; [by rewrite then_rootConnection|by rewrite then_sessions|].
    intros d c Hd. by apply then_keeps_fulfilled.
  - apply Hsame; [by rewrite tick_rootConnection|by rewrite tick_sessions|].
    intros d c Hd. by rewrite tick_promises.
Qed.

Lemma Part000_one_root_started root inputStream outputStream :
  Part000_one_root root (Part000.constructor root inputStream outputStream).
Proof. split; [done|]. by apply Forall_singleton. Qed.

(** ** Notifications of a renamed session *)

Section Notifications.
Context {K S : Type}.
Implicit Types (w : World K S) (c : ChildConnection.t).

(** The second half of the chains: each microtask emits its notification. *)
Lemma run_dap_jobs c pid ys w :
  jobs w = (λ n, JDap c (DapProcess pid n)) <$> ys →
  jobs (run_jobs (length ys) w) = [] ∧
  trace (run_jobs (length ys) w) = trace w ++ (EvProcess c pid <$> ys).
Proof.
  revert w. induction ys as [|y ys IH]; intros w Hj.
  - cbn. by rewrite app_nil_r.
  - cbn [length run_jobs]. cbn in Hj.
    destruct (tick_cons _ _ _ Hj) as [Hq Ht]. cbn in Hq, Ht.
    rewrite app_nil_r in Hq. destruct (IH _ Hq) as [Hq' Ht'].
    rewrite Hq', Ht', Ht. split; [done|]. by rewrite <- app_assoc.
Qed.

(** First the waiting callbacks [x => x.dap()] run, in order, each queueing
    the second half of its chain; then the second halves run, in the same
    order. *)
Lemma run_process_jobs c pid xs ys w :
  jobs w =
    ((λ n, JConn c (ThenDap (DapProcess pid n))) <$> xs) ++
    ((λ n, JDap c (DapProcess pid n)) <$> ys) →
  jobs (run_jobs (2 * length xs + length ys) w) = [] ∧
  trace (run_jobs (2 * length xs + length ys) w) =
    trace w ++ (EvProcess c pid <$> (ys ++ xs)).
Proof.
  revert ys w. induction xs as [|x xs IH]; intros ys w Hj.
  - cbn in Hj. cbn [length Nat.mul Nat.add]. rewrite app_nil_r.
    by apply run_dap_jobs.
  - replace (2 * length (x :: xs) + length ys)%nat
      with (Datatypes.S (2 * length xs + length (ys ++ [x])))
      by (rewrite length_app; cbn [length]; lia).
    cbn [run_jobs]. cbn in Hj.
    destruct (tick_cons _ _ _ Hj) as [Hq Ht]. cbn in Hq, Ht.
    rewrite app_nil_r in Ht.
    assert (jobs (tick w) =
              ((λ n, JConn c (ThenDap (DapProcess pid n))) <$> xs) ++
              ((λ n, JDap c (DapProcess pid n)) <$> (ys ++ [x]))) as Hq'.
    { by rewrite Hq, fmap_app, <- app_assoc. }
    destruct (IH _ _ Hq') as [Hq'' Ht''].
    rewrite Hq'', Ht'', Ht. split; [done|]. by rewrite <- app_assoc.
Qed.

(** A chain attached to a promise of a connection ends in its notification,
    once the connection is there. *)
Lemma dap_chain_runs c pid n a b w :
  jobs w = a ++ JConn c (ThenDap (DapProcess pid n)) :: b →
  ∃ N ev, trace (run_jobs N w) = trace w ++ ev ++ [EvProcess c pid n].
Proof.
  intros Hj.
  destruct (queue_runs _ _ _ _ Hj) as (ev1 & b1 & Hq1 & Ht1).
  cbn [job_spawn job_events] in Hq1, Ht1. rewrite app_nil_r in Ht1.
  rewrite app_assoc in Hq1.
  destruct (queue_runs _ _ _ _ Hq1) as (ev2 & b2 & _ & Ht2).
  cbn [job_events] in Ht2.
  exists (Datatypes.S (length a) + Datatypes.S (length (b ++ b1)))%nat,
    (ev1 ++ ev2).
  rewrite run_jobs_add, Ht2, Ht1. by rewrite <- !app_assoc.
Qed.

Lemma then_dap_fulfilled d c pid n w :
  promises w !! d = Some (Fulfilled c) →
  ∃ N ev,
    trace (run_jobs N (then_ d (ThenDap (DapProcess pid n)) w)) =
    trace w ++ ev ++ [EvProcess c pid n].
Proof.
  intros Hd. rewrite (then_fulfilled _ _ _ _ Hd).
  destruct (dap_chain_runs c pid n (jobs w) []
              (set_jobs (jobs w ++ [JConn c (ThenDap (DapProcess pid n))]) w))
    as (N & ev & Ht); [done|].
  by exists N, ev.
Qed.

Lemma then_dap_pending d c ks pid n w :
  promises w !! d = Some (Pending ks) →
  ∃ N ev,
    trace (run_jobs N (resolve d c (then_ d (ThenDap (DapProcess pid n)) w))) =
    trace w ++ ev ++ [EvProcess c pid n].
Proof.
  intros Hd. rewrite (then_pending _ _ _ _ Hd).
  set (k := ThenDap (DapProcess pid n)).
  assert (d < length (promises w))%nat as Hlt by by eapply lookup_lt_Some.
  destruct (dap_chain_runs c pid n (jobs w ++ (JConn c <$> ks)) []
              (resolve d c
                 (set_promises (<[d:=Pending (ks ++ [k])]> (promises w)) w)))
    as (N & ev & Ht).
  { unfold resolve. cbn [promises emit set_promises].
    rewrite list_lookup_insert_eq by done. cbn [jobs set_jobs].
    by rewrite fmap_app, <- app_assoc. }
  exists N, (EvResolve d c :: ev). rewrite Ht.
  unfold resolve. cbn [promises emit set_promises].
  rewrite list_lookup_insert_eq by done. cbn. by rewrite <- app_assoc.
Qed.

End Notifications.

Lemma processes_notifications {S : Type} c pid (names : list string) :
  processes (S := S) (EvProcess c pid <$> names) = (λ n, (c, pid, n)) <$> names.
Proof. induction names as [|n names IH]; [done|]. cbn. by f_equal. Qed.

(** Renaming a session whose handle is pending: every assignment adds one
    waiting callback, and nothing is queued or emitted yet. *)
Lemma Flat_renames o d pid names :
  ∀ (w : FlatSessionLauncher.W) ks this,
    objects w !! o = Some this →
    VSDebugSession.childConnection this = d →
    VSDebugSession.mockProcessId this = pid →
    promises w !! d = Some (Pending ks) →
    let w' := foldl (λ w n, FlatSessionLauncher.set_name o n w) w names in
    promises w' !! d =
      Some (Pending (ks ++ ((λ n, ThenDap (DapProcess pid n)) <$> names))) ∧
    jobs w' = jobs w ∧ trace w' = trace w.
Proof.
  induction names as [|n names IH]; intros w ks this Ho Hd Hpid Hp; cbn zeta.
  - cbn. by rewrite app_nil_r.
  - cbn [foldl].
    assert (o < length (objects w))%nat as Hlo by by eapply lookup_lt_Some.
    assert (d < length (promises w))%nat as Hld by by eapply lookup_lt_Some.
    assert (∃ w1 this',
              FlatSessionLauncher.set_name o n w = w1 ∧
              objects w1 !! o = Some this' ∧
              VSDebugSession.childConnection this' = d ∧
              VSDebugSession.mockProcessId this' = pid ∧
              promises w1 !! d
                = Some (Pending (ks ++ [ThenDap (DapProcess pid n)])) ∧
              jobs w1 = jobs w ∧ trace w1 = trace w)
      as (w1 & this' & -> & Ho1 & Hd1 & Hpid1 & Hp1 & Hj1 & Ht1).
    { unfold FlatSessionLauncher.set_name. rewrite Ho, Hd, Hpid.
      rewrite (then_pending _ ks) by done. do 2 eexists.
      split_and!; [reflexivity| | | | |done|done]; cbn.
      - by apply list_lookup_insert_eq.
      - done.
      - done.
      - by apply list_lookup_insert_eq. }
    destruct (IH w1 _ this' Ho1 Hd1 Hpid1 Hp1) as (Hp' & Hj' & Ht').
    rewrite Hp', Hj', Ht'. cbn. by rewrite <- app_assoc.
Qed.

Lemma Part000_renames o d pid names :
  ∀ (w : Part000.W) ks this,
    objects w !! o = Some this →
    VSDebugSession.childConnection this = d →
    VSDebugSession.mockProcessId this = pid →
    promises w !! d = Some (Pending ks) →
    let w' := foldl (λ w n, Part000.set_name o n w) w names in
    promises w' !! d =
      Some (Pending (ks ++ ((λ n, ThenDap (DapProcess pid n)) <$> names))) ∧
    jobs w' = jobs w ∧ trace w' = trace w.
Proof.
  induction names as [|n names IH]; intros w ks this Ho Hd Hpid Hp; cbn zeta.
  - cbn. by rewrite app_nil_r.
  - cbn [foldl].
    assert (d < length (promises w))%nat as Hld by by eapply lookup_lt_Some.
    assert (∃ w1,
              Part000.set_name o n w = w1 ∧
              objects w1 !! o = Some this ∧
              promises w1 !! d
                = Some (Pending (ks ++ [ThenDap (DapProcess pid n)])) ∧
              jobs w1 = jobs w ∧ trace w1 = trace w)
      as (w1 & -> & Ho1 & Hp1 & Hj1 & Ht1).
    { unfold Part000.set_name. rewrite Ho, Hd, Hpid.
      rewrite (then_pending _ ks) by done. eexists.
      split_and!; [reflexivity|done| |done|done]; cbn.
      by apply list_lookup_insert_eq. }
    destruct (IH w1 _ this Ho1 Hd Hpid Hp1) as (Hp' & Hj' & Ht').
    rewrite Hp', Hj', Ht'. cbn. by rewrite <- app_assoc.
Qed.

(** Resolving a pending handle on which only notification chains wait, with
    an empty queue, and running the microtasks. *)
Lemma resolve_notifications {K S : Type} d c pid names (w : World K S) :
  promises w !! d =
    Some (Pending ((λ n, ThenDap (DapProcess pid n)) <$> names)) →
  jobs w = [] →
  let w' := run_jobs (2 * length names) (resolve d c w) in
  jobs w' = [] ∧
  trace w' = trace w ++ EvResolve d c :: (EvProcess c pid <$> names).
Proof.
  intros Hp Hj. cbn zeta.
  destruct (run_process_jobs c pid names [] (resolve d c w)) as [Hq Ht].
  { rewrite (resolve_pending _ _ _ _ Hp). cbn [jobs].
    rewrite Hj, app_nil_r. cbn [app]. by rewrite <- list_fmap_compose. }
  cbn [length] in Hq, Ht. rewrite Nat.add_0_r in Hq, Ht.
  rewrite Hq, Ht. split; [done|].
  rewrite (resolve_pending _ _ _ _ Hp). cbn [trace app].
  by rewrite <- app_assoc.
Qed.

(** ** Scenarios *)

(** [flat_pending] is the world in which the constructor hands the root
    session object to the session manager. *)
Lemma flat_pending_in_constructor :
  ∃ newSession w,
    FlatSessionLauncher.createNewSession 0 ∅
      (FlatSessionLauncher.VSConnectionStrategy.mk root0 None) flat_pending =
      (Some newSession, w) ∧
    Session.connection newSession = ChildConnection.mk root0 None ∧
    flat_started =
      emit (EvInit root0 stdin stdout)
        (resolve 0 (Session.connection newSession) w).
Proof. by do 2 eexists. Qed.

(** The sample sessions are the ones the constructors register. *)
Lemma flat_rootSession_registered :
  sessions flat_started !! 0%nat = Some flat_rootSession.
Proof. reflexivity. Qed.

Lemma part000_rootSession_registered :
  sessions part000_started !! 0%nat = Some part000_rootSession.
Proof. reflexivity. Qed.

(** The root session starts with no identifier; a child ["child-1"] is
    created, and the parent connection receives [attachedChildSession] with
    [sessionId: "child-1"] in the configuration. *)
Example flat_child1_announced :
  sent (trace (FlatSessionLauncher.run
                 [FlatSessionLauncher.OpLaunch 0 child1 ∅] flat_started)) =
  [(ChildConnection.mk root0 None,
    attachedChildSession {["sessionId" := JStr "child-1"]})].
Proof. reflexivity. Qed.

Example part000_child1_announced :
  sent (trace (Part000.run
                 [Part000.OpLaunch 0 child1 ∅; Part000.OpTick]
                 part000_started)) =
  [(ChildConnection.mk root0 (Some ""),
    attachedChildSession {["sessionId" := JStr "child-1"]})].
Proof. reflexivity. Qed.

(** Before the microtask runs, the earlier revision has sent nothing. *)
Example part000_child1_not_yet_announced :
  sent (trace (Part000.run [Part000.OpLaunch 0 child1 ∅] part000_started))
  = [].
Proof. reflexivity. Qed.

(** Two children in sequence get the surrogate identifiers 2 and 3, and a
    renamed child is announced under its own connection. *)
Example flat_two_children :
  let w :=
    FlatSessionLauncher.run
      [FlatSessionLauncher.OpLaunch 0 child1 ∅;
       FlatSessionLauncher.OpLaunch 0 (Target.mk "child-2" "worker") ∅;
       FlatSessionLauncher.OpSetName 2 "service worker";
       FlatSessionLauncher.OpTick; FlatSessionLauncher.OpTick]
      flat_started in
  VSDebugSession.mockProcessId <$> objects w = [1; 2; 3] ∧
  VSDebugSession.id <$> objects w = ["root"; "child-1"; "child-2"] ∧
  FlatSessionLauncher.get_name 2 w = Some "service worker" ∧
  processes (trace w) =
    [(ChildConnection.mk root0 (Some "child-2"), 3, "service worker")].
Proof. by repeat split. Qed.

(** A second launch of [child1] is refused: the callback ends abruptly,
    nothing is sent or queued and no session is registered; the session
    object made on the way keeps a pending handle. *)
Example flat_child1_launched_again :
  let launched :=
    FlatSessionLauncher.buildVSSessionLauncher flat_rootSession child1 ∅
      flat_child1_launched in
  launched.1 = Abrupt ∧
  sent (trace launched.2) = sent (trace flat_child1_launched) ∧
  sessions launched.2 = sessions flat_child1_launched ∧
  VSDebugSession.mockProcessId <$> objects launched.2 = [1; 2; 3] ∧
  promises launched.2 !! 2%nat = Some (Pending []).
Proof. by repeat split. Qed.

Example part000_child1_launched_again :
  let launched :=
    Part000.buildVSSessionLauncher part000_rootSession child1 ∅
      part000_child1_launched in
  launched.1 = Abrupt ∧
  jobs launched.2 = jobs part000_child1_launched ∧
  sessions launched.2 = sessions part000_child1_launched ∧
  VSDebugSession.mockProcessId <$> objects launched.2 = [1; 2; 3] ∧
  promises launched.2 !! 2%nat = Some (Pending []).
Proof. by repeat split. Qed.

(** * The claims *)

(** ** C1: the launch message *)

(** C1, as stated, fails for a launch whose session identifier is registered
    already: the session manager refuses the second session, the callback
    ends there, and no message is sent. The root session asks for the child
    [child1] a second time. *)
Lemma C1_counterexample :
  ¬ Flat_launch_sends_one_message flat_rootSession child1 ∅
      flat_child1_launched.
Proof.
  unfold Flat_launch_sends_one_message. intros H.
  vm_compute in H. discriminate H.
Qed.

(** C1, amended: a launch whose session identifier is not registered yet
    sends exactly one message on the parent session's connection, the object
    [{ seq: 0, type: "request", command: "attachedChildSession",
       arguments: { config } }] whose [config] is the child configuration
    with [sessionId] injected; a launch whose identifier is registered
    already ends abruptly and sends and queues nothing. In
    [flatSessionLauncher.ts] the message goes out inside the callback; in
    the earlier revision it goes out in the microtask that the callback
    queues on the parent's connection promise, after the microtasks queued
    before it, and the connection promise of every session that a manager
    has registered is fulfilled. *)
Theorem C1_attachedChildSession_sent_once :
  (∀ parentSession target config (w : FlatSessionLauncher.W),
     let launched :=
       FlatSessionLauncher.buildVSSessionLauncher parentSession target
         config w in
     (Some (Target.id target) ∉ FlatSessionLauncher.registered w →
      launched.1 = Normal ∧
      sent (trace launched.2) =
        sent (trace w) ++
        [(Session.connection parentSession,
          attachedChildSession
            (spread_with_sessionId config (Target.id target)))] ∧
      jobs launched.2 = jobs w) ∧
     (Some (Target.id target) ∈ FlatSessionLauncher.registered w →
      launched.1 = Abrupt ∧
      sent (trace launched.2) = sent (trace w) ∧
      jobs launched.2 = jobs w)) ∧
  (∀ parentSession target config (w : Part000.W) c,
     promises w !! Session.connection parentSession = Some (Fulfilled c) →
     let launched :=
       Part000.buildVSSessionLauncher parentSession target config w in
     let n := length (jobs w) in
     (Some (Target.id target) ∉ Part000.registered w →
      launched.1 = Normal ∧
      sent (trace launched.2) = sent (trace w) ∧
      sent (trace (run_jobs (Datatypes.S n) launched.2)) =
        sent (trace (run_jobs n w)) ++
        [(c, attachedChildSession
               (spread_with_sessionId config (Target.id target)))] ∧
      jobs (run_jobs (Datatypes.S n) launched.2) = jobs (run_jobs n w)) ∧
     (Some (Target.id target) ∈ Part000.registered w →
      launched.1 = Abrupt ∧
      sent (trace launched.2) = sent (trace w) ∧
      jobs launched.2 = jobs w)) ∧
  (∀ root inputStream outputStream ops parent parentSession,
     let w :=
       Part000.run ops (Part000.constructor root inputStream outputStream) in
     sessions w !! parent = Some parentSession →
     ∃ c, promises w !! Session.connection parentSession
          = Some (Fulfilled c)) ∧
  (∀ childAttachConfig,
     ∃ fields : gmap string JsVal,
       attachedChildSession childAttachConfig = JObj fields ∧
       dom fields = ({["seq"; "type"; "command"; "arguments"]} : gset string) ∧
       fields !! "seq" = Some (JNum 0) ∧
       fields !! "type" = Some (JStr "request") ∧
       fields !! "command" = Some (JStr "attachedChildSession") ∧
       fields !! "arguments" =
         Some (JObj {["config" := JObj childAttachConfig]})) ∧
  (∀ (config : Config) id,
     spread_with_sessionId config id !! "sessionId" = Some (JStr id)).
Proof.
  split_and!.
  - intros parentSession target config w. cbn zeta. split; intros Hd.
    + rewrite Flat_launcher_fresh, Flat_createSession_fresh by done.
      cbn [fst snd trace jobs emit]. split_and!; [done| |done].
      rewrite !sent_app. cbn. by rewrite app_nil_r.
    + rewrite Flat_launcher_duplicate, Flat_createSession_duplicate by done.
      cbn [fst snd trace jobs]. split_and!; [done| |done].
      rewrite sent_app. cbn. by rewrite app_nil_r.
  - intros parentSession target config w c Hc. cbn zeta. split; intros Hd.
    + rewrite Part000_launcher_fresh by done. cbn zeta. cbn [fst snd].
      split; [done|].
      set (msg := attachedChildSession _).
      set (w1 := (Part000.createSession _ _ _ w).2).
      assert (promises w1 !! Session.connection parentSession
              = Some (Fulfilled c)) as Hc1.
      { subst w1. rewrite Part000_createSession_fresh by done. cbn.
        rewrite lookup_app_l; [done|]. by eapply lookup_lt_Some. }
      assert (sent (trace w1) = sent (trace w)) as Hs1.
      { subst w1. rewrite Part000_createSession_fresh by done.
        cbn [snd trace]. rewrite sent_app. cbn. by rewrite app_nil_r. }
      assert (jobs w1 = jobs w) as Hj1.
      { subst w1. by rewrite Part000_createSession_fresh. }
      rewrite (then_fulfilled _ _ _ _ Hc1). clearbody w1 msg.
      set (w2 := set_jobs _ w1).
      assert (jobs w2 = jobs w ++ JConn c (ThenSend msg) :: []) as Hj2.
      { subst w2. cbn. by rewrite Hj1. }
      assert (sent (trace w2) = sent (trace w)) as Hs2 by done.
      clearbody w2. split; [done|].
      destruct (queue_simulation (jobs w) (JConn c (ThenSend msg)) [] w2 w)
        as (b' & Hq2 & Hq & Hs); [done|by rewrite app_nil_r|done|].
      cbn in Hq2, Hq.
      replace (Datatypes.S (length (jobs w))) with (length (jobs w) + 1)%nat
        by lia.
      rewrite run_jobs_add. cbn [run_jobs].
      destruct (tick_cons _ _ _ Hq2) as [Hq2' Ht2'].
      rewrite Hq2', Ht2', sent_app, Hs, Hq. cbn. by rewrite app_nil_r.
    + rewrite Part000_launcher_duplicate, Part000_createSession_duplicate
        by done.
      cbn [fst snd trace jobs]. split_and!; [done| |done].
      rewrite sent_app. cbn. by rewrite app_nil_r.
  - intros root inputStream outputStream ops parent parentSession w Hparent.
    pose proof (Part000_run_invariant (Part000_one_root root)
                  (Part000_one_root_exec root) ops _
                  (Part000_one_root_started root inputStream outputStream))
      as [_ Hall].
    destruct (Forall_lookup_1 _ _ _ _ Hall Hparent) as [_ Hc]. by eexists.
  - apply attachedChildSession_shape.
  - apply spread_with_sessionId_lookup.
Qed.

(** The root session of a started manager asks for the child [child1]. *)
Lemma C1_witness :
  let launched :=
    Part000.buildVSSessionLauncher part000_rootSession child1 ∅
      part000_started in
  launched.1 = Normal ∧
  sent (trace launched.2) = sent (trace part000_started) ∧
  sent (trace (run_jobs 1 launched.2)) =
    sent (trace (run_jobs 0 part000_started)) ++
    [(ChildConnection.mk root0 (Some ""),
      attachedChildSession (spread_with_sessionId ∅ "child-1"))] ∧
  jobs (run_jobs 1 launched.2) = jobs (run_jobs 0 part000_started).
Proof.
  apply (proj1 (proj1 (proj2 C1_attachedChildSession_sent_once)
                  part000_rootSession child1 ∅ part000_started
                  (ChildConnection.mk root0 (Some "")) eq_refl)).
  apply (bool_decide_unpack _). vm_compute. exact I.
Defined.

(** ** C2: the root session *)

(** C2, as stated, fails on [flatSessionLauncher.ts]: the root session
    object's identifier is ["root"], not the empty string. *)
Lemma C2_counterexample : ¬ root_session_without_identifier flat_started.
Proof.
  intros (this & Hobjects & Hid & _).
  vm_compute in Hobjects. injection Hobjects as <-. discriminate Hid.
Qed.

(** C2, amended: startup creates exactly one session, named [rootSession],
    with the surrogate identifier 1, and its connection is the root
    connection under no session identifier: [undefined] in
    [flatSessionLauncher.ts], the empty string in the earlier revision. The
    session object's own [id] is ["root"] in [flatSessionLauncher.ts] and
    the empty string in the earlier revision. *)
Theorem C2_root_session :
  (∀ root inputStream outputStream,
     let w := FlatSessionLauncher.constructor root inputStream outputStream in
     objects w = [VSDebugSession.mk "root" "rootSession" 0 1] ∧
     sessions w =
       [Session.mk 0%nat ∅
          (FlatSessionLauncher.VSConnectionStrategy.mk root None)
          (ChildConnection.mk root None)] ∧
     promises w = [Fulfilled (ChildConnection.mk root None)] ∧
     trace w =
       [EvCreateSession None "rootSession" ∅;
        EvCreateNewSession 0 ∅
          (FlatSessionLauncher.VSConnectionStrategy.mk root None);
        EvResolve 0 (ChildConnection.mk root None);
        EvInit root inputStream outputStream]) ∧
  (∀ root inputStream outputStream,
     let w := Part000.constructor root inputStream outputStream in
     objects w = [VSDebugSession.mk "" "rootSession" 0 1] ∧
     sessions w =
       [Session.mk 0%nat ∅
          (Part000.VSConnectionStrategy.mk 0 root (Some "")) 0%nat] ∧
     promises w = [Fulfilled (ChildConnection.mk root (Some ""))] ∧
     trace w =
       [EvCreateSession (Some "") "rootSession" ∅;
        EvCreateNewSession 0 ∅
          (Part000.VSConnectionStrategy.mk 0 root (Some ""));
        EvResolve 0 (ChildConnection.mk root (Some ""));
        EvInit root inputStream outputStream]).
Proof. by split. Qed.

(** ** C3: notifications of a session renamed early *)

(** C3, as stated, fails: two assignments before the handle resolves give
    two notifications, not one with the final name. *)
Lemma C3_counterexample :
  ¬ one_notification_with_final_name FlatSessionLauncher.set_name 0 0
      (ChildConnection.mk root0 None) 1 ["first"; "second"] "second"
      flat_pending.
Proof.
  unfold one_notification_with_final_name. intros H.
  vm_compute in H. discriminate H.
Qed.

(** C3, amended: when a session's name is assigned N times while its handle
    is pending, then after the handle resolves N [process] notifications are
    emitted on the resolved connection, one per assignment and in the order
    of the assignments, each with the surrogate identifier and the name of
    its assignment; the last one carries the final name. Both revisions
    notify on every assignment. *)
Theorem C3_one_notification_per_assignment :
  (∀ o this c names (w : FlatSessionLauncher.W),
     objects w !! o = Some this →
     promises w !! VSDebugSession.childConnection this = Some (Pending []) →
     jobs w = [] →
     let w' :=
       renamed_then_resolved FlatSessionLauncher.set_name o
         (VSDebugSession.childConnection this) c names w in
     jobs w' = [] ∧
     trace w' =
       trace w ++
       EvResolve (VSDebugSession.childConnection this) c ::
       (EvProcess c (VSDebugSession.mockProcessId this) <$> names) ∧
     processes (trace w') =
       processes (trace w) ++
       ((λ n, (c, VSDebugSession.mockProcessId this, n)) <$> names)) ∧
  (∀ o this c names (w : Part000.W),
     objects w !! o = Some this →
     promises w !! VSDebugSession.childConnection this = Some (Pending []) →
     jobs w = [] →
     let w' :=
       renamed_then_resolved Part000.set_name o
         (VSDebugSession.childConnection this) c names w in
     jobs w' = [] ∧
     trace w' =
       trace w ++
       EvResolve (VSDebugSession.childConnection this) c ::
       (EvProcess c (VSDebugSession.mockProcessId this) <$> names) ∧
     processes (trace w') =
       processes (trace w) ++
       ((λ n, (c, VSDebugSession.mockProcessId this, n)) <$> names)).
Proof.
  split.
  - intros o this c names w Ho Hp Hj. cbn zeta.
    unfold renamed_then_resolved.
    destruct (Flat_renames o _ _ names w [] this Ho eq_refl eq_refl Hp)
      as (Hp' & Hj' & Ht').
    cbn [app] in Hp'. rewrite Hj in Hj'.
    destruct (resolve_notifications _ c _ _ _ Hp' Hj') as [Hq Ht].
    rewrite Hq, Ht, Ht'. split_and!; [done|done|].
    rewrite processes_app. f_equal.
    exact (processes_notifications c _ names).
  - intros o this c names w Ho Hp Hj. cbn zeta.
    unfold renamed_then_resolved.
    destruct (Part000_renames o _ _ names w [] this Ho eq_refl eq_refl Hp)
      as (Hp' & Hj' & Ht').
    cbn [app] in Hp'. rewrite Hj in Hj'.
    destruct (resolve_notifications _ c _ _ _ Hp' Hj') as [Hq Ht].
    rewrite Hq, Ht, Ht'. split_and!; [done|done|].
    rewrite processes_app. f_equal.
    exact (processes_notifications c _ names).
Qed.

(** The root session object is renamed twice while its handle is pending. *)
Lemma C3_witness :
  let w' :=
    renamed_then_resolved FlatSessionLauncher.set_name 0 0
      (ChildConnection.mk root0 None) ["first"; "second"] flat_pending in
  jobs w' = [] ∧
  trace w' =
    trace flat_pending ++
    EvResolve 0 (ChildConnection.mk root0 None) ::
    (EvProcess (ChildConnection.mk root0 None) 1 <$> ["first"; "second"]) ∧
  processes (trace w') =
    processes (trace flat_pending) ++
    ((λ n, (ChildConnection.mk root0 None, 1, n)) <$> ["first"; "second"]).
Proof.
  apply (proj1 C3_one_notification_per_assignment 0%nat
           (VSDebugSession.mk "root" "rootSession" 0 1)
           (ChildConnection.mk root0 None) ["first"; "second"] flat_pending);
    reflexivity.
Defined.

(** ** C4: the name of a session *)

(** C4: in [flatSessionLauncher.ts] the getter returns the assigned name
    after the setter has run. In the earlier revision the setter does not
    write the field: the getter returns what it returned before, for the
    started manager still ["rootSession"] after the root session was
    renamed. *)
Theorem C4_name_getter_after_setter :
  (∀ o newName (w : FlatSessionLauncher.W),
     FlatSessionLauncher.get_name o (FlatSessionLauncher.set_name o newName w)
     = (λ _, newName) <$> FlatSessionLauncher.get_name o w) ∧
  (∀ o newName (w : Part000.W),
     Part000.get_name o (Part000.set_name o newName w)
     = Part000.get_name o w) ∧
  Part000.get_name 0 (Part000.set_name 0 "renamed" part000_started)
  = Some "rootSession".
Proof.
  split_and!.
  - intros o newName w.
    unfold FlatSessionLauncher.get_name, FlatSessionLauncher.set_name.
    destruct (objects w !! o) as [this|] eqn:Ho; [|by rewrite Ho].
    rewrite then_objects. cbn [objects set_objects].
    rewrite list_lookup_insert_eq; [reflexivity|]. by eapply lookup_lt_Some.
  - intros o newName w. unfold Part000.get_name, Part000.set_name.
    destruct (objects w !! o) as [this|] eqn:Ho; [|by rewrite Ho].
    by rewrite then_objects, Ho.
  - reflexivity.
Qed.

(** ** C5: the notification of an assignment *)

(** C5: every assignment to a session's name emits, once the session's
    connection is available, a [process] notification on the resolved
    connection with the session's surrogate identifier and the assigned
    name. The setter itself emits nothing; when the handle is already
    fulfilled the notification follows after some microtask steps, and when
    it is pending it follows after the handle is resolved. *)
Theorem C5_process_notification_on_assignment :
  (∀ o this newName (w : FlatSessionLauncher.W),
     objects w !! o = Some this →
     let d := VSDebugSession.childConnection this in
     let pid := VSDebugSession.mockProcessId this in
     let w' := FlatSessionLauncher.set_name o newName w in
     trace w' = trace w ∧
     (∀ c, promises w !! d = Some (Fulfilled c) →
           ∃ N ev, trace (run_jobs N w') =
                   trace w ++ ev ++ [EvProcess c pid newName]) ∧
     (∀ c ks, promises w !! d = Some (Pending ks) →
              ∃ N ev, trace (run_jobs N (resolve d c w')) =
                      trace w ++ ev ++ [EvProcess c pid newName])) ∧
  (∀ o this newName (w : Part000.W),
     objects w !! o = Some this →
     let d := VSDebugSession.childConnection this in
     let pid := VSDebugSession.mockProcessId this in
     let w' := Part000.set_name o newName w in
     trace w' = trace w ∧
     (∀ c, promises w !! d = Some (Fulfilled c) →
           ∃ N ev, trace (run_jobs N w') =
                   trace w ++ ev ++ [EvProcess c pid newName]) ∧
     (∀ c ks, promises w !! d = Some (Pending ks) →
              ∃ N ev, trace (run_jobs N (resolve d c w')) =
                      trace w ++ ev ++ [EvProcess c pid newName])).
Proof.
  split.
  - intros o this newName w Ho. cbn zeta.
    unfold FlatSessionLauncher.set_name. rewrite Ho.
    set (w1 := set_objects _ w). split_and!.
    + by rewrite then_trace.
    + intros c Hc. by apply (then_dap_fulfilled _ c _ _ w1).
    + intros c ks Hp. by apply (then_dap_pending _ c ks _ _ w1).
  - intros o this newName w Ho. cbn zeta.
    unfold Part000.set_name. rewrite Ho. split_and!.
    + by rewrite then_trace.
    + intros c Hc. by apply then_dap_fulfilled.
    + intros c ks Hp. by apply (then_dap_pending _ c ks).
Qed.

(** The root session of a started manager is renamed. *)
Lemma C5_witness :
  ∃ N ev,
    trace (run_jobs N (FlatSessionLauncher.set_name 0 "renamed" flat_started)) =
    trace flat_started ++ ev ++
    [EvProcess (ChildConnection.mk root0 None) 1 "renamed"].
Proof.
  apply (proj1 (proj2 (proj1 C5_process_notification_on_assignment 0%nat
                         (VSDebugSession.mk "root" "rootSession" 0 1)
                         "renamed" flat_started eq_refl))
           (ChildConnection.mk root0 None)).
  reflexivity.
Defined.

(** ** C6: the merged child configuration *)

(** C6: the child configuration is the launcher's [config] with the field
    [sessionId] set to the target's id, whatever [config] held there, and
    every other field as it was. This one object is passed to
    [createSession] and handed to the session manager; when the launch goes
    through it is registered with the new session and it is the value of
    [arguments.config] in the [attachedChildSession] message. *)
Theorem C6_merged_configuration :
  (∀ (config : Config) id k,
     spread_with_sessionId config id !! k =
     if decide ("sessionId" = k) then Some (JStr id) else config !! k) ∧
  (∀ merged : Config,
     ∃ fields args : gmap string JsVal,
       attachedChildSession merged = JObj fields ∧
       fields !! "arguments" = Some (JObj args) ∧
       dom args = ({["config"]} : gset string) ∧
       args !! "config" = Some (JObj merged)) ∧
  (∀ parentSession target config (w : FlatSessionLauncher.W),
     let merged := spread_with_sessionId config (Target.id target) in
     let launched :=
       FlatSessionLauncher.buildVSSessionLauncher parentSession target
         config w in
     ∃ o strat rest,
       trace launched.2 =
         trace w ++
         EvCreateSession (Some (Target.id target)) (Target.name target)
           merged ::
         EvCreateNewSession o merged strat :: rest ∧
       (Some (Target.id target) ∉ FlatSessionLauncher.registered w →
        ∃ d conn,
          rest =
            [EvResolve d conn;
             EvSend (Session.connection parentSession)
               (attachedChildSession merged)] ∧
          sessions launched.2 = sessions w ++ [Session.mk o merged strat conn]) ∧
       (Some (Target.id target) ∈ FlatSessionLauncher.registered w →
        rest = [] ∧ sessions launched.2 = sessions w)) ∧
  (∀ parentSession target config (w : Part000.W),
     let merged := spread_with_sessionId config (Target.id target) in
     let launched :=
       Part000.buildVSSessionLauncher parentSession target config w in
     ∃ o strat rest,
       trace launched.2 =
         trace w ++
         EvCreateSession (Some (Target.id target)) (Target.name target)
           merged ::
         EvCreateNewSession o merged strat :: rest ∧
       (Some (Target.id target) ∉ Part000.registered w →
        ∃ d conn,
          rest = [EvResolve d conn] ∧
          sessions launched.2 = sessions w ++ [Session.mk o merged strat d] ∧
          (∀ c,
             promises w !! Session.connection parentSession
               = Some (Fulfilled c) →
             jobs launched.2 =
               jobs w ++ [JConn c (ThenSend (attachedChildSession merged))])) ∧
       (Some (Target.id target) ∈ Part000.registered w →
        rest = [] ∧ sessions launched.2 = sessions w ∧
        jobs launched.2 = jobs w)).
Proof.
  split_and!.
  - intros config id k. apply lookup_insert.
  - intros merged. do 2 eexists. split_and!; [reflexivity|reflexivity| |].
    + by rewrite dom_singleton_L.
    + apply lookup_singleton_eq.
  - intros parentSession target config w. cbn zeta. do 3 eexists.
    split_and!.
    + destruct (decide (Some (Target.id target)
                          ∈ FlatSessionLauncher.registered w)) as [Hd|Hd].
      * rewrite Flat_launcher_duplicate, Flat_createSession_duplicate
          by done.
        cbn [snd trace app].
        instantiate (1 :=
          if decide (Some (Target.id target)
                       ∈ FlatSessionLauncher.registered w)
          then []
          else [EvResolve (length (promises w))
                  (ChildConnection.mk (rootConnection w)
                     (Some (Target.id target)));
                EvSend (Session.connection parentSession)
                  (attachedChildSession
                     (spread_with_sessionId config (Target.id target)))]).
        by rewrite decide_True.
      * rewrite Flat_launcher_fresh, Flat_createSession_fresh by done.
        cbn [snd trace app emit]. rewrite decide_False by done.
        by rewrite <- app_assoc.
    + intros Hd. rewrite decide_False by done. do 2 eexists.
      split; [reflexivity|].
      by rewrite Flat_launcher_fresh, Flat_createSession_fresh.
    + intros Hd. rewrite decide_True by done. split; [done|].
      by rewrite Flat_launcher_duplicate, Flat_createSession_duplicate.
  - intros parentSession target config w. cbn zeta. do 3 eexists.
    split_and!.
    + destruct (decide (Some (Target.id target) ∈ Part000.registered w))
        as [Hd|Hd].
      * rewrite Part000_launcher_duplicate, Part000_createSession_duplicate
          by done.
        cbn [snd trace app].
        instantiate (1 :=
          if decide (Some (Target.id target) ∈ Part000.registered w)
          then []
          else [EvResolve (length (promises w))
                  (ChildConnection.mk (rootConnection w)
                     (Some (Target.id target)))]).
        by rewrite decide_True.
      * rewrite Part000_launcher_fresh by done. cbn zeta. cbn [snd].
        rewrite then_trace, Part000_createSession_fresh by done.
        cbn [snd trace app]. by rewrite decide_False.
    + intros Hd. rewrite decide_False by done. do 2 eexists.
      rewrite Part000_launcher_fresh by done. cbn zeta. cbn [snd].
      rewrite then_sessions, Part000_createSession_fresh by done.
      split_and!; [reflexivity|reflexivity|].
      intros c Hc. rewrite (then_fulfilled _ c); [done|].
      cbn [promises snd]. rewrite lookup_app_l; [done|].
      by eapply lookup_lt_Some.
    + intros Hd. rewrite decide_True by done. split; [done|].
      by rewrite Part000_launcher_duplicate, Part000_createSession_duplicate.
Qed.

(** The root session of a started manager asks for the child [child1] with
    a configuration that holds a [sessionId] already: the announcement is
    queued with the merged configuration. *)
Lemma C6_witness :
  jobs (Part000.buildVSSessionLauncher part000_rootSession child1
          {["port" := JNum 9229; "sessionId" := JStr "stale"]}
          part000_started).2 =
  [JConn (ChildConnection.mk root0 (Some ""))
     (ThenSend (attachedChildSession
        (spread_with_sessionId
           {["port" := JNum 9229; "sessionId" := JStr "stale"]}
           "child-1")))].
Proof.
  destruct (proj2 (proj2 (proj2 C6_merged_configuration))
              part000_rootSession child1
              {["port" := JNum 9229; "sessionId" := JStr "stale"]}
              part000_started)
    as (o & strat & rest & _ & Hfresh & _).
  destruct Hfresh as (d & conn & _ & _ & Hjobs).
  { apply (bool_decide_unpack _). vm_compute. exact I. }
  apply (Hjobs (ChildConnection.mk root0 (Some ""))).
  reflexivity.
Defined.

(** ** C7: the deferred connection handle *)

(** C7, as stated, fails for a call of [createSession] whose session
    identifier is registered already: the session manager refuses the
    session, [createSession] ends before it reaches [resolve], and the
    handle of the session object stays pending. *)
Lemma C7_counterexample :
  ¬ Flat_created_handle_resolved_once (Some "child-1") "worker"
      (spread_with_sessionId ∅ "child-1") flat_child1_launched.
Proof.
  intros (conn & Hres & _). vm_compute in Hres. discriminate Hres.
Qed.

(** C7, amended: a call of [createSession] creates one handle. When the
    session identifier is not registered yet, the call resolves the handle
    once, itself, with the connection of the new session (the root
    connection and the session identifier of the call); the call of
    [resolve] comes after the session object holding the handle has been
    built and handed to the session manager, while the handle is still
    pending, and a later [resolve] changes neither the handle nor the queue.
    When the session identifier is registered already, the call ends
    abruptly: the session object exists, and its handle is pending and has
    seen no [resolve]. In every world that a manager can reach each handle
    has seen one [resolve] and holds the connection of that call, or has
    seen none and is pending. *)
Theorem C7_handle_resolved_once :
  (∀ sessionId name config (w : FlatSessionLauncher.W),
     let d := length (promises w) in
     let o := length (objects w) in
     let conn := ChildConnection.mk (rootConnection w) sessionId in
     let created := FlatSessionLauncher.createSession sessionId name config w in
     promises w !! d = None ∧
     (sessionId ∉ FlatSessionLauncher.registered w →
      created.1 = Normal ∧
      (∃ w1 this,
         promises w1 !! d = Some (Pending []) ∧
         objects w1 !! o = Some this ∧
         VSDebugSession.childConnection this = d ∧
         created.2 = resolve d conn w1) ∧
      promises created.2 !! d = Some (Fulfilled conn) ∧
      resolutions d (trace created.2) = resolutions d (trace w) ++ [conn] ∧
      (∀ c', promises (resolve d c' created.2) = promises created.2 ∧
             jobs (resolve d c' created.2) = jobs created.2)) ∧
     (sessionId ∈ FlatSessionLauncher.registered w →
      created.1 = Abrupt ∧
      (∃ this,
         objects created.2 !! o = Some this ∧
         VSDebugSession.childConnection this = d) ∧
      promises created.2 !! d = Some (Pending []) ∧
      resolutions d (trace created.2) = resolutions d (trace w))) ∧
  (∀ sessionId name config (w : Part000.W),
     let d := length (promises w) in
     let o := length (objects w) in
     let conn := ChildConnection.mk (rootConnection w) (Some sessionId) in
     let created := Part000.createSession sessionId name config w in
     promises w !! d = None ∧
     (Some sessionId ∉ Part000.registered w →
      created.1 = Normal ∧
      (∃ w1 this newSession,
         promises w1 !! d = Some (Pending []) ∧
         objects w1 !! o = Some this ∧
         VSDebugSession.childConnection this = d ∧
         created.2 =
           set_sessions (sessions w1 ++ [newSession]) (resolve d conn w1)) ∧
      promises created.2 !! d = Some (Fulfilled conn) ∧
      resolutions d (trace created.2) = resolutions d (trace w) ++ [conn] ∧
      (∀ c', promises (resolve d c' created.2) = promises created.2 ∧
             jobs (resolve d c' created.2) = jobs created.2)) ∧
     (Some sessionId ∈ Part000.registered w →
      created.1 = Abrupt ∧
      (∃ this,
         objects created.2 !! o = Some this ∧
         VSDebugSession.childConnection this = d) ∧
      promises created.2 !! d = Some (Pending []) ∧
      resolutions d (trace created.2) = resolutions d (trace w))) ∧
  (∀ root inputStream outputStream ops,
     handles_resolved_at_most_once
       (FlatSessionLauncher.run ops
          (FlatSessionLauncher.constructor root inputStream outputStream))) ∧
  (∀ root inputStream outputStream ops,
     handles_resolved_at_most_once
       (Part000.run ops (Part000.constructor root inputStream outputStream))).
Proof.
  split_and!.
  - intros sessionId name config w. cbn zeta.
    split; [by apply lookup_ge_None_2|]. split; intros Hd.
    + assert (promises
                (FlatSessionLauncher.createSession sessionId name config w).2
              !! length (promises w)
              = Some (Fulfilled
                        (ChildConnection.mk (rootConnection w) sessionId)))
        as Hfull.
      { rewrite Flat_createSession_fresh by done. cbn [snd promises].
        apply lookup_fresh. }
      split_and!.
      * by rewrite Flat_createSession_fresh.
      * pose proof (Flat_createSession_resolve sessionId name config w Hd)
          as Heq.
        cbn zeta in Heq. do 2 eexists.
        split_and!; [| | |exact Heq];
          [apply lookup_fresh|apply lookup_fresh|done].
      * exact Hfull.
      * rewrite Flat_createSession_fresh by done. cbn [snd trace].
        rewrite resolutions_app. cbn. by rewrite decide_True.
      * intros c'. by rewrite (resolve_fulfilled _ _ _ _ Hfull).
    + rewrite Flat_createSession_duplicate by done.
      cbn [fst snd objects promises trace]. split_and!.
      * done.
      * eexists. split; [apply lookup_fresh|done].
      * apply lookup_fresh.
      * rewrite resolutions_app. cbn. by rewrite app_nil_r.
  - intros sessionId name config w. cbn zeta.
    split; [by apply lookup_ge_None_2|]. split; intros Hd.
    + assert (promises (Part000.createSession sessionId name config w).2
              !! length (promises w)
              = Some (Fulfilled
                        (ChildConnection.mk (rootConnection w)
                           (Some sessionId))))
        as Hfull.
      { rewrite Part000_createSession_fresh by done. cbn [snd promises].
        apply lookup_fresh. }
      split_and!.
      * by rewrite Part000_createSession_fresh.
      * pose proof (Part000_createSession_resolve sessionId name config w Hd)
          as Heq.
        cbn zeta in Heq. do 3 eexists.
        split_and!; [| | |exact Heq];
          [apply lookup_fresh|apply lookup_fresh|done].
      * exact Hfull.
      * rewrite Part000_createSession_fresh by done. cbn [snd trace].
        rewrite resolutions_app. cbn. by rewrite decide_True.
      * intros c'. by rewrite (resolve_fulfilled _ _ _ _ Hfull).
    + rewrite Part000_createSession_duplicate by done.
      cbn [fst snd objects promises trace]. split_and!.
      * done.
      * eexists. split; [apply lookup_fresh|done].
      * apply lookup_fresh.
      * rewrite resolutions_app. cbn. by rewrite app_nil_r.
  - intros root inputStream outputStream ops.
    apply Flat_run_invariant; [apply Flat_handles_exec|].
    apply Flat_handles_started.
  - intros root inputStream outputStream ops.
    apply Part000_run_invariant; [apply Part000_handles_exec|].
    apply Part000_handles_started.
Qed.

(** The root session of a started manager is given the child ["child-1"]:
    its handle is fulfilled with the connection of that identifier. *)
Lemma C7_witness :
  promises
    (FlatSessionLauncher.createSession (Some "child-1") "worker"
       (spread_with_sessionId ∅ "child-1") flat_started).2 !! 1%nat =
  Some (Fulfilled (ChildConnection.mk root0 (Some "child-1"))).
Proof.
  destruct (proj1 C7_handle_resolved_once (Some "child-1") "worker"
              (spread_with_sessionId ∅ "child-1") flat_started)
    as (_ & Hfresh & _).
  destruct Hfresh as (_ & _ & Hfull & _).
  { apply (bool_decide_unpack _). vm_compute. exact I. }
  exact Hfull.
Defined.

(** ** C8: order of the launcher's two duties *)

(** C8: in the launcher callback the call of [createSession] for the child
    is complete before the [attachedChildSession] message is sent on the
    parent's connection. In [flatSessionLauncher.ts] the message is the next
    event after those of [createSession]; in the earlier revision the
    callback itself sends nothing, and the microtask that it queues sends
    the message later. When [createSession] ends abruptly, which it does
    exactly when the identifier is registered already, the callback ends
    with it and nothing follows. *)
Theorem C8_createSession_before_notification :
  (∀ parentSession target config (w : FlatSessionLauncher.W),
     let merged := spread_with_sessionId config (Target.id target) in
     let created :=
       FlatSessionLauncher.createSession (Some (Target.id target))
         (Target.name target) merged w in
     let launched :=
       FlatSessionLauncher.buildVSSessionLauncher parentSession target
         config w in
     created.1 =
       (if decide (Some (Target.id target)
                     ∈ FlatSessionLauncher.registered w)
        then Abrupt else Normal) ∧
     launched.1 = created.1 ∧
     trace launched.2 =
       trace created.2 ++
       match created.1 with
       | Normal =>
           [EvSend (Session.connection parentSession)
              (attachedChildSession merged)]
       | Abrupt => []
       end ∧
     ∃ rest,
       trace created.2 =
         trace w ++
         EvCreateSession (Some (Target.id target)) (Target.name target)
           merged :: rest ∧
       sent rest = []) ∧
  (∀ parentSession target config (w : Part000.W),
     let merged := spread_with_sessionId config (Target.id target) in
     let created :=
       Part000.createSession (Target.id target) (Target.name target)
         merged w in
     let launched :=
       Part000.buildVSSessionLauncher parentSession target config w in
     created.1 =
       (if decide (Some (Target.id target) ∈ Part000.registered w)
        then Abrupt else Normal) ∧
     launched.1 = created.1 ∧
     trace launched.2 = trace created.2 ∧
     (∃ rest,
        trace created.2 =
          trace w ++
          EvCreateSession (Some (Target.id target)) (Target.name target)
            merged :: rest ∧
        sent rest = []) ∧
     (∀ c,
        promises w !! Session.connection parentSession
          = Some (Fulfilled c) →
        match created.1 with
        | Normal =>
            ∃ ev,
              trace (run_jobs (Datatypes.S (length (jobs w))) launched.2) =
                trace created.2 ++ ev ++
                [EvSend c (attachedChildSession merged)]
        | Abrupt => jobs launched.2 = jobs w
        end)).
Proof.
  split.
  - intros parentSession target config w. cbn zeta.
    destruct (decide (Some (Target.id target)
                        ∈ FlatSessionLauncher.registered w)) as [Hd|Hd].
    + rewrite Flat_launcher_duplicate, Flat_createSession_duplicate by done.
      cbn [fst snd trace]. rewrite app_nil_r. split_and!; try done.
      eexists. split; [reflexivity|done].
    + rewrite Flat_launcher_fresh, Flat_createSession_fresh by done.
      cbn [fst snd trace emit]. split_and!; try done.
      eexists. split; [reflexivity|done].
  - intros parentSession target config w. cbn zeta.
    destruct (decide (Some (Target.id target) ∈ Part000.registered w))
      as [Hd|Hd].
    + rewrite Part000_launcher_duplicate, Part000_createSession_duplicate
        by done.
      cbn [fst snd trace jobs]. split_and!; try done.
      eexists. split; [reflexivity|done].
    + rewrite Part000_launcher_fresh by done. cbn zeta. cbn [fst snd].
      rewrite then_trace.
      assert ((Part000.createSession (Target.id target) (Target.name target)
                 (spread_with_sessionId config (Target.id target)) w).1
              = Normal) as Hnormal
        by by rewrite Part000_createSession_fresh.
      rewrite Hnormal. split_and!; try done.
      * rewrite Part000_createSession_fresh by done. cbn [snd trace].
        eexists. split; [reflexivity|done].
      * intros c Hc.
        set (msg := attachedChildSession _).
        set (w1 := (Part000.createSession _ _ _ w).2).
        assert (promises w1 !! Session.connection parentSession
                = Some (Fulfilled c)) as Hc1.
        { subst w1. rewrite Part000_createSession_fresh by done.
          cbn [snd promises].
          rewrite lookup_app_l; [done|]. by eapply lookup_lt_Some. }
        assert (jobs w1 = jobs w) as Hj1.
        { subst w1. by rewrite Part000_createSession_fresh. }
        rewrite (then_fulfilled _ _ _ _ Hc1). clearbody w1 msg.
        destruct (queue_runs (jobs w) (JConn c (ThenSend msg)) []
                    (set_jobs (jobs w1 ++ [JConn c (ThenSend msg)]) w1))
          as (ev & b' & _ & Ht).
        { cbn. by rewrite Hj1. }
        exists ev. by rewrite Ht.
Qed.

(** The root session of a started manager asks for the child [child1]; the
    queue is empty, so the message is sent by the next microtask. *)
Lemma C8_witness :
  ∃ ev,
    trace (run_jobs 1
             (Part000.buildVSSessionLauncher part000_rootSession child1 ∅
                part000_started).2) =
    trace (Part000.createSession "child-1" "worker"
             (spread_with_sessionId ∅ "child-1") part000_started).2 ++
    ev ++
    [EvSend (ChildConnection.mk root0 (Some ""))
       (attachedChildSession (spread_with_sessionId ∅ "child-1"))].
Proof.
  apply (proj2 (proj2 (proj2 (proj2
           (proj2 C8_createSession_before_notification
              part000_rootSession child1 ∅ part000_started))))
           (ChildConnection.mk root0 (Some ""))).
  reflexivity.
Defined.

(** ** C9: the surrogate process identifiers *)

Lemma counted_below_limit (len : Z) :
  len ≤ counter_limit →
  (λ k, Z.min k counter_limit) <$> seqZ 1 len = seqZ 1 len.
Proof.
  intros Hlen. apply list_eq. intros i. rewrite list_lookup_fmap.
  destruct (seqZ 1 len !! i) as [k|] eqn:Hk; [|done].
  apply lookup_seqZ in Hk as [-> Hlt]. cbn. f_equal. lia.
Qed.

(** Past the limit two session objects carry the limit. *)
Lemma counted_above_limit (len : Z) :
  counter_limit < len →
  ¬ NoDup ((λ k, Z.min k counter_limit) <$> seqZ 1 len).
Proof.
  intros Hlen Hnodup.
  assert (0 < counter_limit) as Hpos by (unfold counter_limit; lia).
  assert (∀ i : nat,
            counter_limit - 1 ≤ Z.of_nat i < len →
            ((λ k, Z.min k counter_limit) <$> seqZ 1 len) !! i
            = Some counter_limit) as Hat.
  { intros i Hi. rewrite list_lookup_fmap, lookup_seqZ_lt by lia.
    cbn. f_equal. lia. }
  pose proof (NoDup_lookup _ (Z.to_nat (counter_limit - 1))
                (Z.to_nat counter_limit) counter_limit Hnodup) as Heq.
  rewrite !Hat in Heq by lia. specialize (Heq eq_refl eq_refl). lia.
Qed.

Lemma surrogates_distinct {K S : Type} (w : World K S) :
  surrogates_counted w →
  let ids := VSDebugSession.mockProcessId <$> objects w in
  let len := Z.of_nat (length (objects w)) in
  (len ≤ counter_limit → ids = seqZ 1 len ∧ NoDup ids) ∧
  (counter_limit < len → ¬ NoDup ids).
Proof.
  intros [Hids Hn]. cbn zeta. rewrite Hids. split; intros Hlen.
  - rewrite counted_below_limit by done. split; [done|]. apply NoDup_seqZ.
  - by apply counted_above_limit.
Qed.

(** A manager can make any number of session objects: every launch makes
    one, also a launch that the session manager refuses. *)
Lemma Flat_launch_objects parentSession target config w :
  length (objects (FlatSessionLauncher.buildVSSessionLauncher parentSession
                     target config w).2) = Datatypes.S (length (objects w)) ∧
  (length (sessions w) ≤
   length (sessions (FlatSessionLauncher.buildVSSessionLauncher parentSession
                       target config w).2))%nat.
Proof.
  destruct (decide (Some (Target.id target)
                      ∈ FlatSessionLauncher.registered w)) as [Hd|Hd].
  - rewrite Flat_launcher_duplicate, Flat_createSession_duplicate by done.
    cbn [snd objects sessions]. rewrite length_app. cbn [length]. lia.
  - rewrite Flat_launcher_fresh, Flat_createSession_fresh by done.
    cbn [snd objects sessions emit]. rewrite !length_app. cbn [length]. lia.
Qed.

Lemma Part000_launch_objects parentSession target config w :
  length (objects (Part000.buildVSSessionLauncher parentSession target
                     config w).2) = Datatypes.S (length (objects w)) ∧
  (length (sessions w) ≤
   length (sessions (Part000.buildVSSessionLauncher parentSession target
                       config w).2))%nat.
Proof.
  destruct (decide (Some (Target.id target) ∈ Part000.registered w))
    as [Hd|Hd].
  - rewrite Part000_launcher_duplicate, Part000_createSession_duplicate
      by done.
    cbn [snd objects sessions]. rewrite length_app. cbn [length]. lia.
  - rewrite Part000_launcher_fresh by done. cbn zeta. cbn [snd].
    rewrite then_objects, then_sessions, Part000_createSession_fresh by done.
    cbn [snd objects sessions]. rewrite !length_app. cbn [length]. lia.
Qed.

Lemma Flat_launches_objects target config n :
  ∀ w : FlatSessionLauncher.W,
    (0 < length (sessions w))%nat →
    length (objects
              (FlatSessionLauncher.run
                 (replicate n (FlatSessionLauncher.OpLaunch 0 target config))
                 w)) = (length (objects w) + n)%nat.
Proof.
  unfold FlatSessionLauncher.run.
  induction n as [|n IH]; intros w Hs; cbn [replicate foldl]; [lia|].
  destruct (sessions w !! 0%nat) as [parentSession|] eqn:Hparent.
  - destruct (Flat_launch_objects parentSession target config w)
      as [Hobjects Hsessions].
    cbn [FlatSessionLauncher.exec]. rewrite Hparent, IH by lia. lia.
  - apply lookup_ge_None_1 in Hparent. lia.
Qed.

Lemma Part000_launches_objects target config n :
  ∀ w : Part000.W,
    (0 < length (sessions w))%nat →
    length (objects
              (Part000.run (replicate n (Part000.OpLaunch 0 target config))
                 w)) = (length (objects w) + n)%nat.
Proof.
  unfold Part000.run.
  induction n as [|n IH]; intros w Hs; cbn [replicate foldl]; [lia|].
  destruct (sessions w !! 0%nat) as [parentSession|] eqn:Hparent.
  - destruct (Part000_launch_objects parentSession target config w)
      as [Hobjects Hsessions].
    cbn [Part000.exec]. rewrite Hparent, IH by lia. lia.
  - apply lookup_ge_None_1 in Hparent. lia.
Qed.

(** C9, as stated, fails once the counter has reached 2^53: the counter is
    a JavaScript number, [2^53 + 1] is rounded back to [2^53], and the call
    of [createSession] leaves the counter where it was. *)
Lemma C9_counterexample :
  ¬ Flat_counter_strictly_increases (Some "child-1") "worker"
      (spread_with_sessionId ∅ "child-1") flat_saturated.
Proof.
  unfold Flat_counter_strictly_increases. intros H.
  vm_compute in H. discriminate H.
Qed.

(** C9, amended: within one manager the k-th session object created carries
    the surrogate identifier k, the root session's being 1, as long as k is
    at most 2^53, and these identifiers are pairwise distinct; every later
    session object carries 2^53, so that the identifiers of more than 2^53
    session objects are not distinct. Every call of [createSession] gives
    the current counter to the new session object, also when the session
    manager then refuses the session; it raises the counter by one while
    the counter is below 2^53 and leaves it at 2^53 from then on, which is
    what [x++] does to a JavaScript number. A manager can make any number of
    session objects. *)
Theorem C9_surrogate_identifiers :
  (∀ root inputStream outputStream ops,
     let w :=
       FlatSessionLauncher.run ops
         (FlatSessionLauncher.constructor root inputStream outputStream) in
     let ids := VSDebugSession.mockProcessId <$> objects w in
     let len := Z.of_nat (length (objects w)) in
     ids = (λ k, Z.min k counter_limit) <$> seqZ 1 len ∧
     mockProcessId w = Z.min (len + 1) counter_limit ∧
     (len ≤ counter_limit → ids = seqZ 1 len ∧ NoDup ids) ∧
     (counter_limit < len → ¬ NoDup ids)) ∧
  (∀ root inputStream outputStream ops,
     let w :=
       Part000.run ops (Part000.constructor root inputStream outputStream) in
     let ids := VSDebugSession.mockProcessId <$> objects w in
     let len := Z.of_nat (length (objects w)) in
     ids = (λ k, Z.min k counter_limit) <$> seqZ 1 len ∧
     mockProcessId w = Z.min (len + 1) counter_limit ∧
     (len ≤ counter_limit → ids = seqZ 1 len ∧ NoDup ids) ∧
     (counter_limit < len → ¬ NoDup ids)) ∧
  (∀ sessionId name config (w : FlatSessionLauncher.W),
     let w' := (FlatSessionLauncher.createSession sessionId name config w).2 in
     (∃ this, objects w' = objects w ++ [this] ∧
              VSDebugSession.mockProcessId this = mockProcessId w) ∧
     mockProcessId w' = js_increment (mockProcessId w) ∧
     (0 ≤ mockProcessId w < counter_limit →
      mockProcessId w' = mockProcessId w + 1) ∧
     (mockProcessId w = counter_limit → mockProcessId w' = counter_limit)) ∧
  (∀ sessionId name config (w : Part000.W),
     let w' := (Part000.createSession sessionId name config w).2 in
     (∃ this, objects w' = objects w ++ [this] ∧
              VSDebugSession.mockProcessId this = mockProcessId w) ∧
     mockProcessId w' = js_increment (mockProcessId w) ∧
     (0 ≤ mockProcessId w < counter_limit →
      mockProcessId w' = mockProcessId w + 1) ∧
     (mockProcessId w = counter_limit → mockProcessId w' = counter_limit)) ∧
  (∀ root inputStream outputStream target config n,
     length (objects
               (FlatSessionLauncher.run
                  (replicate n (FlatSessionLauncher.OpLaunch 0 target config))
                  (FlatSessionLauncher.constructor root inputStream
                     outputStream))) = Datatypes.S n ∧
     length (objects
               (Part000.run
                  (replicate n (Part000.OpLaunch 0 target config))
                  (Part000.constructor root inputStream outputStream)))
       = Datatypes.S n) ∧
  (∀ n, 0 ≤ n ≤ counter_limit → js_increment n = round_to_double (n + 1)).
Proof.
  assert (∀ {K S : Type} (w w' : World K S) this,
            objects w' = objects w ++ [this] →
            VSDebugSession.mockProcessId this = mockProcessId w →
            mockProcessId w' = js_increment (mockProcessId w) →
            (∃ this, objects w' = objects w ++ [this] ∧
                     VSDebugSession.mockProcessId this = mockProcessId w) ∧
            mockProcessId w' = js_increment (mockProcessId w) ∧
            (0 ≤ mockProcessId w < counter_limit →
             mockProcessId w' = mockProcessId w + 1) ∧
            (mockProcessId w = counter_limit →
             mockProcessId w' = counter_limit)) as Hcall.
  { intros K S w w' this Ho Hpid Hn. split_and!; [by eexists|done| |].
    - intros Hlt. by rewrite Hn, js_increment_below.
    - intros Heq. by rewrite Hn, Heq, js_increment_limit. }
  split_and!.
  - intros root inputStream outputStream ops. cbn zeta.
    pose proof (Flat_run_invariant surrogates_counted Flat_surrogates_exec ops
                  _ (Flat_surrogates_started root inputStream outputStream))
      as Hinv.
    destruct (surrogates_distinct _ Hinv) as [Hbelow Habove].
    destruct Hinv as [Hids Hn]. by split_and!.
  - intros root inputStream outputStream ops. cbn zeta.
    pose proof (Part000_run_invariant surrogates_counted
                  Part000_surrogates_exec ops
                  _ (Part000_surrogates_started root inputStream outputStream))
      as Hinv.
    destruct (surrogates_distinct _ Hinv) as [Hbelow Habove].
    destruct Hinv as [Hids Hn]. by split_and!.
  - intros sessionId name config w. cbn zeta.
    destruct (decide (sessionId ∈ FlatSessionLauncher.registered w))
      as [Hd|Hd].
    + rewrite Flat_createSession_duplicate by done. by eapply Hcall.
    + rewrite Flat_createSession_fresh by done. by eapply Hcall.
  - intros sessionId name config w. cbn zeta.
    destruct (decide (Some sessionId ∈ Part000.registered w)) as [Hd|Hd].
    + rewrite Part000_createSession_duplicate by done. by eapply Hcall.
    + rewrite Part000_createSession_fresh by done. by eapply Hcall.
  - intros root inputStream outputStream target config n. split.
    + rewrite Flat_launches_objects; rewrite Flat_constructor_eq; cbn; lia.
    + rewrite Part000_launches_objects; rewrite Part000_constructor_eq; cbn;
        lia.
  - apply js_increment_counter.
Qed.

(** The first child of a started manager: the counter goes from 2 to 3. *)
Lemma C9_witness :
  mockProcessId
    (FlatSessionLauncher.createSession (Some "child-1") "worker"
       (spread_with_sessionId ∅ "child-1") flat_started).2 =
  mockProcessId flat_started + 1.
Proof.
  apply (proj1 (proj2 (proj2
           (proj1 (proj2 (proj2 C9_surrogate_identifiers))
              (Some "child-1") "worker" (spread_with_sessionId ∅ "child-1")
              flat_started)))).
  vm_compute. split; [discriminate|reflexivity].
Defined.

(** ** C10: one session identifier *)




(** * Further properties *)

(** ** Microtasks *)

Section MicrotaskFacts.
Context {K S : Type}.
Implicit Types (w : World K S).

Lemma queue_weight_cons j js :
  queue_weight (j :: js) = (job_weight j + queue_weight js)%nat.
Proof. done. Qed.

Lemma queue_weight_app js1 js2 :
  queue_weight (js1 ++ js2) = (queue_weight js1 + queue_weight js2)%nat.
Proof.
  induction js1 as [|j js1 IH]; [done|].
  rewrite <- app_comm_cons, !queue_weight_cons, IH. lia.
Qed.

Lemma queue_weight_bound js : (queue_weight js ≤ 2 * length js)%nat.
Proof.
  induction js as [|j js IH]; [done|].
  rewrite queue_weight_cons. cbn [length].
  assert (job_weight j ≤ 2)%nat by (destruct j as [c [k|msg]|c k]; cbn; lia).
  lia.
Qed.

Lemma job_weight_spawn j :
  job_weight j = Datatypes.S (queue_weight (job_spawn j)).
Proof. by destruct j as [c [[pid n]|msg]|c [pid n]]. Qed.

Lemma tick_empty w : jobs w = [] → tick w = w.
Proof. intros Hj. unfold tick. by rewrite Hj. Qed.

Lemma run_jobs_empty n w : jobs w = [] → run_jobs n w = w.
Proof.
  intros Hj. induction n as [|n IH]; [done|]. cbn. by rewrite tick_empty.
Qed.

Lemma run_jobs_weight n w :
  (queue_weight (jobs w) ≤ n)%nat → jobs (run_jobs n w) = [].
Proof.
  revert w. induction n as [|n IH]; intros w Hn.
  - cbn. destruct (jobs w) as [|j js]; [done|].
    rewrite queue_weight_cons, job_weight_spawn in Hn. lia.
  - cbn [run_jobs]. destruct (jobs w) as [|j js] eqn:Hj.
    + rewrite tick_empty by done. apply IH. rewrite Hj. cbn. lia.
    + apply IH. destruct (tick_cons j js w Hj) as [Hq _].
      rewrite Hq, queue_weight_app.
      rewrite queue_weight_cons, job_weight_spawn in Hn. lia.
Qed.

Lemma tick_trace_prefix w : trace w `prefix_of` trace (tick w).
Proof.
  destruct (jobs w) as [|j js] eqn:Hj.
  - by rewrite tick_empty.
  - destruct (tick_cons j js w Hj) as [_ Ht]. rewrite Ht. by apply prefix_app_r.
Qed.

Lemma run_jobs_frame n w :
  promises (run_jobs n w) = promises w ∧
  objects (run_jobs n w) = objects w ∧
  sessions (run_jobs n w) = sessions w ∧
  mockProcessId (run_jobs n w) = mockProcessId w ∧
  rootConnection (run_jobs n w) = rootConnection w ∧
  trace w `prefix_of` trace (run_jobs n w).
Proof.
  revert w. induction n as [|n IH]; intros w; [done|]. cbn [run_jobs].
  destruct (IH (tick w)) as (Hp & Ho & Hs & Hn & Hr & Ht).
  rewrite Hp, Ho, Hs, Hn, Hr, tick_promises, tick_objects, tick_sessions,
    tick_mockProcessId, tick_rootConnection.
  split_and!; try done. etransitivity; [apply tick_trace_prefix|done].
Qed.

End MicrotaskFacts.

(** X1: the microtask queue always drains. Whatever is queued, after twice
    as many steps as there are microtasks the queue is empty, and further
    steps change nothing; the steps leave handles, session objects,
    sessions and the counter alone and only extend the trace. *)
Theorem X1_queue_drains {K S : Type} (w : World K S) (n : nat) :
  (2 * length (jobs w) ≤ n)%nat →
  jobs (run_jobs n w) = [] ∧
  (∀ m, run_jobs m (run_jobs n w) = run_jobs n w) ∧
  promises (run_jobs n w) = promises w ∧
  objects (run_jobs n w) = objects w ∧
  sessions (run_jobs n w) = sessions w ∧
  mockProcessId (run_jobs n w) = mockProcessId w ∧
  trace w `prefix_of` trace (run_jobs n w).
Proof.
  intros Hn.
  assert (jobs (run_jobs n w) = []) as Hempty.
  { apply run_jobs_weight. pose proof (queue_weight_bound (jobs w)). lia. }
  destruct (run_jobs_frame n w) as (Hp & Ho & Hs & Hc & _ & Ht).
  split_and!; try done. intros m. by apply run_jobs_empty.
Qed.

(** A child is launched and the root session renamed: two microtasks are
    queued, four steps drain them. *)
Lemma X1_witness :
  let w :=
    Part000.set_name 0 "renamed"
      (Part000.buildVSSessionLauncher part000_rootSession child1 ∅
         part000_started).2 in
  jobs (run_jobs 4 w) = [] ∧
  (∀ m, run_jobs m (run_jobs 4 w) = run_jobs 4 w) ∧
  promises (run_jobs 4 w) = promises w ∧
  objects (run_jobs 4 w) = objects w ∧
  sessions (run_jobs 4 w) = sessions w ∧
  mockProcessId (run_jobs 4 w) = mockProcessId w ∧
  trace w `prefix_of` trace (run_jobs 4 w).
Proof.
  apply (X1_queue_drains
           (Part000.set_name 0 "renamed"
              (Part000.buildVSSessionLauncher part000_rootSession child1 ∅
                 part000_started).2) 4).
  vm_compute. lia.
Defined.

(** ** Session objects over time *)

Lemma Flat_exec_objects w op o this :
  objects w !! o = Some this →
  ∃ this',
    objects (FlatSessionLauncher.exec w op) !! o = Some this' ∧
    VSDebugSession.id this' = VSDebugSession.id this ∧
    VSDebugSession.childConnection this' = VSDebugSession.childConnection this ∧
    VSDebugSession.mockProcessId this' = VSDebugSession.mockProcessId this.
Proof.
  intros Ho. assert (o < length (objects w))%nat by by eapply lookup_lt_Some.
  destruct op as [parent target config|o' newName|]; cbn.
  - destruct (sessions w !! parent) as [parentSession|]; [|by eexists].
    exists this. split; [|done].
    destruct (decide (Some (Target.id target)
                        ∈ FlatSessionLauncher.registered w)) as [Hd|Hd].
    + rewrite Flat_launcher_duplicate, Flat_createSession_duplicate by done.
      cbn [snd objects]. by rewrite lookup_app_l.
    + rewrite Flat_launcher_fresh, Flat_createSession_fresh by done.
      cbn [snd objects emit]. by rewrite lookup_app_l.
  - unfold FlatSessionLauncher.set_name.
    destruct (objects w !! o') as [that|] eqn:Ho'; [|by eexists].
    rewrite then_objects. cbn [objects set_objects].
    destruct (decide (o' = o)) as [->|Hne].
    + rewrite list_lookup_insert_eq by done. eexists. split; [done|].
      by simplify_eq.
    + rewrite list_lookup_insert_ne by done. by eexists.
  - rewrite tick_objects. by eexists.
Qed.

Lemma Part000_exec_objects w op o this :
  objects w !! o = Some this → objects (Part000.exec w op) !! o = Some this.
Proof.
  intros Ho. assert (o < length (objects w))%nat by by eapply lookup_lt_Some.
  destruct op as [parent target config|o' newName|]; cbn.
  - destruct (sessions w !! parent) as [parentSession|]; [|done].
    destruct (decide (Some (Target.id target) ∈ Part000.registered w))
      as [Hd|Hd].
    + rewrite Part000_launcher_duplicate, Part000_createSession_duplicate
        by done.
      cbn [snd objects]. by rewrite lookup_app_l.
    + rewrite Part000_launcher_fresh by done. cbn [snd].
      rewrite then_objects, Part000_createSession_fresh by done.
      cbn [snd objects]. by rewrite lookup_app_l.
  - unfold Part000.set_name.
    destruct (objects w !! o') as [that|]; [|done]. by rewrite then_objects.
  - by rewrite tick_objects.
Qed.

(** X2: a session object keeps its identifier, its handle and its
    surrogate identifier for good: whatever launches, renames and microtask
    steps follow, the object is still at the same reference with the same
    three fields. In [flatSessionLauncher.ts] only its name can differ; in
    the earlier revision the object is never written again at all. *)
Theorem X2_session_objects_keep_identity :
  (∀ ops (w : FlatSessionLauncher.W) o this,
     objects w !! o = Some this →
     ∃ this',
       objects (FlatSessionLauncher.run ops w) !! o = Some this' ∧
       VSDebugSession.id this' = VSDebugSession.id this ∧
       VSDebugSession.childConnection this'
         = VSDebugSession.childConnection this ∧
       VSDebugSession.mockProcessId this'
         = VSDebugSession.mockProcessId this) ∧
  (∀ ops (w : Part000.W) o this,
     objects w !! o = Some this →
     objects (Part000.run ops w) !! o = Some this).
Proof.
  split.
  - intros ops. unfold FlatSessionLauncher.run.
    induction ops as [|op ops IH]; intros w o this Ho; cbn [foldl].
    + by eexists.
    + destruct (Flat_exec_objects w op o this Ho)
        as (this1 & Ho1 & Hid1 & Hcc1 & Hpid1).
      destruct (IH _ o this1 Ho1) as (this' & Ho' & Hid' & Hcc' & Hpid').
      exists this'. split; [done|]. by rewrite Hid', Hcc', Hpid'.
  - intros ops. unfold Part000.run.
    induction ops as [|op ops IH]; intros w o this Ho; cbn [foldl]; [done|].
    apply IH. by apply Part000_exec_objects.
Qed.

(** The root session object of a started manager, after a launch, a rename
    and two microtask steps. *)
Lemma X2_witness :
  ∃ this',
    objects
      (FlatSessionLauncher.run
         [FlatSessionLauncher.OpLaunch 0 child1 ∅;
          FlatSessionLauncher.OpSetName 0 "renamed";
          FlatSessionLauncher.OpTick; FlatSessionLauncher.OpTick]
         flat_started) !! 0%nat = Some this' ∧
    VSDebugSession.id this' = "root" ∧
    VSDebugSession.childConnection this' = 0%nat ∧
    VSDebugSession.mockProcessId this' = 1.
Proof.
  apply (proj1 X2_session_objects_keep_identity
           [FlatSessionLauncher.OpLaunch 0 child1 ∅;
            FlatSessionLauncher.OpSetName 0 "renamed";
            FlatSessionLauncher.OpTick; FlatSessionLauncher.OpTick]
           flat_started 0%nat
           (VSDebugSession.mk "root" "rootSession" 0 1)).
  reflexivity.
Defined.

(** ** Sessions, session objects and handles line up *)

Lemma then_fulfilled_inv {K S : Type} d d' c k (w : World K S) :
  promises (then_ d' k w) !! d = Some (Fulfilled c) →
  promises w !! d = Some (Fulfilled c).
Proof.
  unfold then_.
  destruct (promises w !! d') as [[ks|c']|] eqn:Hd'; cbn; try done.
  destruct (decide (d' = d)) as [->|Hne].
  - rewrite list_lookup_insert_eq by (by eapply lookup_lt_Some). done.
  - by rewrite list_lookup_insert_ne.
Qed.

Lemma seq_snoc n : seq 0 (n + 1) = seq 0 n ++ [n].
Proof. by rewrite Nat.add_1_r, seq_S. Qed.

(** Distinct numbers below [n] are at most [n]. *)
Lemma NoDup_below_length (l : list nat) n :
  NoDup l → (∀ x, x ∈ l → (x < n)%nat) → (length l ≤ n)%nat.
Proof.
  intros Hnodup Hlt.
  assert (l ⊆+ seq 0 n) as Hsub.
  { apply NoDup_submseteq; [done|].
    intros x Hx. apply elem_of_seq. specialize (Hlt x Hx). lia. }
  apply submseteq_length in Hsub. by rewrite length_seq in Hsub.
Qed.

(** A step that registers nothing, makes no session object and fulfils no
    handle. *)
Lemma Flat_aligned_frame (w w' : FlatSessionLauncher.W) :
  Flat_aligned w →
  sessions w' = sessions w →
  VSDebugSession.childConnection <$> objects w' =
    VSDebugSession.childConnection <$> objects w →
  length (promises w') = length (promises w) →
  (∀ d c, promises w' !! d = Some (Fulfilled c) ↔
          promises w !! d = Some (Fulfilled c)) →
  Flat_aligned w'.
Proof.
  intros (Ho & Hlen & Hreg & Hds & Hful & Honly) Hs Hobj Hplen Hiff.
  assert (length (objects w') = length (objects w)) as Holen.
  { by rewrite <- (length_fmap VSDebugSession.childConnection), Hobj,
      length_fmap. }
  unfold Flat_aligned, FlatSessionLauncher.registered.
  rewrite Hs, Hobj, Holen, Hplen. split_and!; try done.
  - eapply Forall_impl; [exact Hful|]. intros s Hsf. cbn. by apply Hiff.
  - intros d c Hd. apply (Honly d c). by apply Hiff.
Qed.

Lemma Flat_aligned_launcher parentSession target config w :
  Flat_aligned w →
  Flat_aligned
    (FlatSessionLauncher.buildVSSessionLauncher parentSession target config
       w).2.
Proof.
  intros (Ho & Hlen & Hreg & Hds & Hful & Honly).
  assert (∀ x, x ∈ Session.debugSession <$> sessions w →
               (x < length (objects w))%nat) as Hbelow.
  { intros x Hx. apply list_elem_of_fmap in Hx as (s & -> & Hs).
    rewrite Forall_forall in Hful. rewrite <- Hlen.
    eapply lookup_lt_Some. by apply Hful. }
  destruct (decide (Some (Target.id target)
                      ∈ FlatSessionLauncher.registered w)) as [Hd|Hd].
  - rewrite Flat_launcher_duplicate, Flat_createSession_duplicate by done.
    unfold Flat_aligned, FlatSessionLauncher.registered.
    cbn [snd sessions objects promises].
    rewrite fmap_app, !length_app, seq_snoc, Ho. cbn [length fmap list_fmap].
    split_and!; try done.
    + cbn. by rewrite Hlen.
    + lia.
    + eapply Forall_impl; [exact Hful|]. intros s Hs. cbn in Hs |- *.
      rewrite lookup_app_l; [done|]. by eapply lookup_lt_Some.
    + intros d c Hl. apply lookup_snoc_Some in Hl as [[_ Hl]|[_ Hl]];
        [by eapply Honly|done].
  - rewrite Flat_launcher_fresh, Flat_createSession_fresh by done.
    unfold Flat_aligned, FlatSessionLauncher.registered.
    cbn [snd sessions objects promises emit].
    rewrite !fmap_app, !length_app, seq_snoc, Ho. cbn [length fmap list_fmap].
    split_and!.
    + cbn. by rewrite Hlen.
    + lia.
    + apply NoDup_app. split_and!; [done| |apply NoDup_singleton].
      intros x Hx Hin. apply list_elem_of_singleton in Hin. by subst x.
    + apply NoDup_app. split_and!; [done| |apply NoDup_singleton].
      intros x Hx Hin. apply list_elem_of_singleton in Hin.
      specialize (Hbelow x Hx). cbn in Hin. lia.
    + apply Forall_app. split.
      * eapply Forall_impl; [exact Hful|]. intros s Hs. cbn in Hs |- *.
        rewrite lookup_app_l; [done|]. by eapply lookup_lt_Some.
      * apply Forall_singleton. cbn. rewrite <- Hlen. apply lookup_fresh.
    + intros d c Hl. apply elem_of_app.
      apply lookup_snoc_Some in Hl as [[_ Hl]|[-> _]].
      * left. by eapply Honly.
      * right. apply list_elem_of_singleton. by cbn.
Qed.

Lemma Flat_aligned_exec w op :
  Flat_aligned w → Flat_aligned (FlatSessionLauncher.exec w op).
Proof.
  intros Hal. destruct op as [parent target config|o newName|]; cbn.
  - destruct (sessions w !! parent) as [parentSession|]; [|done].
    by apply Flat_aligned_launcher.
  - unfold FlatSessionLauncher.set_name.
    destruct (objects w !! o) as [this|] eqn:Hthis; [|done].
    apply (Flat_aligned_frame w); [done| | | |].
    + by rewrite then_sessions.
    + rewrite then_objects. cbn [objects set_objects].
      rewrite list_fmap_insert. apply list_insert_id.
      by rewrite list_lookup_fmap, Hthis.
    + by rewrite then_length.
    + intros d c. split.
      * intros Hd. by apply then_fulfilled_inv in Hd.
      * intros Hd. by apply then_keeps_fulfilled.
  - apply (Flat_aligned_frame w); [done| | | |].
    + by rewrite tick_sessions.
    + by rewrite tick_objects.
    + by rewrite tick_promises.
    + intros d c. by rewrite tick_promises.
Qed.

Lemma Flat_aligned_started root inputStream outputStream :
  Flat_aligned (FlatSessionLauncher.constructor root inputStream outputStream).
Proof.
  rewrite Flat_constructor_eq. unfold Flat_aligned. cbn.
  split_and!; try done.
  - apply NoDup_singleton.
  - apply NoDup_singleton.
  - by apply Forall_singleton.
  - intros [|d] c Hd; [|done]. by apply list_elem_of_singleton.
Qed.

Lemma Part000_aligned_frame (w w' : Part000.W) :
  Part000_aligned w →
  rootConnection w' = rootConnection w →
  sessions w' = sessions w →
  VSDebugSession.childConnection <$> objects w' =
    VSDebugSession.childConnection <$> objects w →
  length (promises w') = length (promises w) →
  (∀ d c, promises w' !! d = Some (Fulfilled c) ↔
          promises w !! d = Some (Fulfilled c)) →
  Part000_aligned w'.
Proof.
  intros (Ho & Hlen & Hreg & Hds & Hful & Honly) Hroot Hs Hobj Hplen Hiff.
  assert (length (objects w') = length (objects w)) as Holen.
  { by rewrite <- (length_fmap VSDebugSession.childConnection), Hobj,
      length_fmap. }
  unfold Part000_aligned, Part000.registered.
  rewrite Hroot, Hs, Hobj, Holen, Hplen. split_and!; try done.
  - eapply Forall_impl; [exact Hful|]. intros s (Hc & Hdc & Hsf). cbn.
    split_and!; [done|done|]. by apply Hiff.
  - intros d c Hd. apply (Honly d c). by apply Hiff.
Qed.

Lemma Part000_aligned_createSession sessionId name config w :
  Part000_aligned w →
  Part000_aligned (Part000.createSession sessionId name config w).2.
Proof.
  intros (Ho & Hlen & Hreg & Hds & Hful & Honly).
  assert (∀ x, x ∈ Session.debugSession <$> sessions w →
               (x < length (objects w))%nat) as Hbelow.
  { intros x Hx. apply list_elem_of_fmap in Hx as (s & -> & Hs).
    rewrite Forall_forall in Hful. rewrite <- Hlen.
    destruct (Hful s Hs) as (_ & _ & Hl). by eapply lookup_lt_Some. }
  destruct (decide (Some sessionId ∈ Part000.registered w)) as [Hd|Hd].
  - rewrite Part000_createSession_duplicate by done.
    unfold Part000_aligned, Part000.registered.
    cbn [snd sessions objects promises rootConnection].
    rewrite fmap_app, !length_app, seq_snoc, Ho. cbn [length fmap list_fmap].
    split_and!; try done.
    + cbn. by rewrite Hlen.
    + lia.
    + eapply Forall_impl; [exact Hful|]. intros s (Hc & Hdc & Hs).
      cbn in Hs |- *. split_and!; [done|done|].
      rewrite lookup_app_l; [done|]. by eapply lookup_lt_Some.
    + intros d c Hl. apply lookup_snoc_Some in Hl as [[_ Hl]|[_ Hl]];
        [by eapply Honly|done].
  - rewrite Part000_createSession_fresh by done.
    unfold Part000_aligned, Part000.registered.
    cbn [snd sessions objects promises rootConnection].
    rewrite !fmap_app, !length_app, seq_snoc, Ho. cbn [length fmap list_fmap].
    split_and!.
    + cbn. by rewrite Hlen.
    + lia.
    + apply NoDup_app. split_and!; [done| |apply NoDup_singleton].
      intros x Hx Hin. apply list_elem_of_singleton in Hin. by subst x.
    + apply NoDup_app. split_and!; [done| |apply NoDup_singleton].
      intros x Hx Hin. apply list_elem_of_singleton in Hin.
      specialize (Hbelow x Hx). cbn in Hin. lia.
    + apply Forall_app. split.
      * eapply Forall_impl; [exact Hful|]. intros s (Hc & Hdc & Hs).
        cbn in Hs |- *. split_and!; [done|done|].
        rewrite lookup_app_l; [done|]. by eapply lookup_lt_Some.
      * apply Forall_singleton. cbn. split_and!; [done|done|].
        rewrite <- Hlen. apply lookup_fresh.
    + intros d c Hl. apply elem_of_app.
      apply lookup_snoc_Some in Hl as [[_ Hl]|[-> _]].
      * left. by eapply Honly.
      * right. apply list_elem_of_singleton. by cbn.
Qed.

Lemma Part000_aligned_then d k w :
  Part000_aligned w → Part000_aligned (then_ d k w).
Proof.
  intros Hal. apply (Part000_aligned_frame w); [done| | | | |].
  - by rewrite then_rootConnection.
  - by rewrite then_sessions.
  - by rewrite then_objects.
  - by rewrite then_length.
  - intros d' c. split.
    + apply then_fulfilled_inv.
    + intros Hd. by apply then_keeps_fulfilled.
Qed.

Lemma Part000_aligned_exec w op :
  Part000_aligned w → Part000_aligned (Part000.exec w op).
Proof.
  intros Hal. destruct op as [parent target config|o newName|]; cbn.
  - destruct (sessions w !! parent) as [parentSession|]; [|done].
    destruct (decide (Some (Target.id target) ∈ Part000.registered w))
      as [Hd|Hd].
    + rewrite Part000_launcher_duplicate by done.
      by apply Part000_aligned_createSession.
    + rewrite Part000_launcher_fresh by done. cbn [snd].
      by apply Part000_aligned_then, Part000_aligned_createSession.
  - unfold Part000.set_name.
    destruct (objects w !! o) as [this|]; [|done].
    by apply Part000_aligned_then.
  - apply (Part000_aligned_frame w); [done| | | | |].
    + by rewrite tick_rootConnection.
    + by rewrite tick_sessions.
    + by rewrite tick_objects.
    + by rewrite tick_promises.
    + intros d c. by rewrite tick_promises.
Qed.

Lemma Part000_aligned_started root inputStream outputStream :
  Part000_aligned (Part000.constructor root inputStream outputStream).
Proof.
  rewrite Part000_constructor_eq. unfold Part000_aligned. cbn.
  split_and!; try done.
  - apply NoDup_singleton.
  - apply NoDup_singleton.
  - by apply Forall_singleton.
  - intros [|d] c Hd; [|done]. by apply list_elem_of_singleton.
Qed.

(** X3: in every world that a manager can reach, session objects, handles
    and sessions line up. The i-th session object holds the i-th handle, and
    there are as many handles as session objects. The registered sessions
    have pairwise distinct session identifiers and wrap pairwise distinct
    session objects, so there are at most as many sessions as session
    objects. The handle of a registered session's object is fulfilled with
    the session's connection (in the earlier revision the session's
    [connection] is that handle, and it is fulfilled with the connection of
    the strategy's session identifier on the manager's root connection); the
    handle of a session object that was refused is pending. *)
Theorem X3_sessions_objects_handles_aligned :
  (∀ root inputStream outputStream ops,
     let w :=
       FlatSessionLauncher.run ops
         (FlatSessionLauncher.constructor root inputStream outputStream) in
     Flat_aligned w ∧
     (length (sessions w) ≤ length (objects w))%nat ∧
     (∀ o this,
        objects w !! o = Some this →
        o ∉ Session.debugSession <$> sessions w →
        ∃ ks, promises w !! VSDebugSession.childConnection this
              = Some (Pending ks))) ∧
  (∀ root inputStream outputStream ops,
     let w :=
       Part000.run ops (Part000.constructor root inputStream outputStream) in
     Part000_aligned w ∧
     (length (sessions w) ≤ length (objects w))%nat ∧
     (∀ o this,
        objects w !! o = Some this →
        o ∉ Session.debugSession <$> sessions w →
        ∃ ks, promises w !! VSDebugSession.childConnection this
              = Some (Pending ks))).
Proof.
  assert (∀ {K S : Type} (w : World K S),
            VSDebugSession.childConnection <$> objects w
              = seq 0 (length (objects w)) →
            length (promises w) = length (objects w) →
            (∀ d c, promises w !! d = Some (Fulfilled c) →
                    d ∈ Session.debugSession <$> sessions w) →
            ∀ o this,
              objects w !! o = Some this →
              o ∉ Session.debugSession <$> sessions w →
              ∃ ks, promises w !! VSDebugSession.childConnection this
                    = Some (Pending ks)) as Hpending.
  { intros K S w Ho Hlen Honly o this Hthis Hnot.
    assert (VSDebugSession.childConnection this = o) as ->.
    { assert ((VSDebugSession.childConnection <$> objects w) !! o
              = Some (VSDebugSession.childConnection this)) as Hl
        by by rewrite list_lookup_fmap, Hthis.
      rewrite Ho in Hl. apply lookup_seq in Hl. by destruct Hl. }
    assert (o < length (promises w))%nat as Hlt.
    { rewrite Hlen. by eapply lookup_lt_Some. }
    destruct (lookup_lt_is_Some_2 _ _ Hlt) as [[ks|c] Hp]; [by eexists|].
    by destruct (Hnot (Honly o c Hp)). }
  split.
  - intros root inputStream outputStream ops. cbn zeta.
    pose proof (Flat_run_invariant Flat_aligned Flat_aligned_exec ops _
                  (Flat_aligned_started root inputStream outputStream))
      as Hal.
    split; [done|]. destruct Hal as (Ho & Hlen & Hreg & Hds & Hful & Honly).
    split; [|by apply Hpending].
    rewrite <- (length_fmap Session.debugSession).
    apply NoDup_below_length; [done|].
    intros x Hx. apply list_elem_of_fmap in Hx as (s & -> & Hs).
    rewrite Forall_forall in Hful. rewrite <- Hlen.
    eapply lookup_lt_Some. by apply Hful.
  - intros root inputStream outputStream ops. cbn zeta.
    pose proof (Part000_run_invariant Part000_aligned Part000_aligned_exec ops
                  _ (Part000_aligned_started root inputStream outputStream))
      as Hal.
    split; [done|]. destruct Hal as (Ho & Hlen & Hreg & Hds & Hful & Honly).
    split; [|by apply Hpending].
    rewrite <- (length_fmap Session.debugSession).
    apply NoDup_below_length; [done|].
    intros x Hx. apply list_elem_of_fmap in Hx as (s & -> & Hs).
    rewrite Forall_forall in Hful. rewrite <- Hlen.
    destruct (Hful s Hs) as (_ & _ & Hl). by eapply lookup_lt_Some.
Qed.

(** The session [child1] is launched twice: two sessions, three session
    objects, and the handle of the third is pending. *)
Lemma X3_witness :
  ∃ ks,
    promises
      (FlatSessionLauncher.run
         [FlatSessionLauncher.OpLaunch 0 child1 ∅;
          FlatSessionLauncher.OpLaunch 0 child1 ∅] flat_started) !! 2%nat =
    Some (Pending ks).
Proof.
  apply (proj2 (proj2 (proj1 X3_sessions_objects_handles_aligned
                         root0 stdin stdout
                         [FlatSessionLauncher.OpLaunch 0 child1 ∅;
                          FlatSessionLauncher.OpLaunch 0 child1 ∅]))
           2%nat (VSDebugSession.mk "child-1" "worker" 2 3)).
  - reflexivity.
  - apply (bool_decide_unpack _). vm_compute. exact I.
Defined.

Lemma aligned_object_lookup {K S : Type} (w : World K S) i :
  VSDebugSession.childConnection <$> objects w = seq 0 (length (objects w)) →
  surrogates_counted w →
  (i < length (objects w))%nat →
  ∃ this,
    objects w !! i = Some this ∧
    VSDebugSession.childConnection this = i ∧
    VSDebugSession.mockProcessId this = Z.min (Z.of_nat i + 1) counter_limit.
Proof.
  intros Ho [Hids _] Hi.
  destruct (lookup_lt_is_Some_2 (objects w) i Hi) as [this Hthis].
  exists this. split; [done|]. split.
  - assert ((VSDebugSession.childConnection <$> objects w) !! i
            = Some (VSDebugSession.childConnection this)) as Hl.
    { by rewrite list_lookup_fmap, Hthis. }
    rewrite Ho, lookup_seq_lt in Hl by done. by simplify_eq.
  - assert ((VSDebugSession.mockProcessId <$> objects w) !! i
            = Some (VSDebugSession.mockProcessId this)) as Hl.
    { by rewrite list_lookup_fmap, Hthis. }
    rewrite Hids, list_lookup_fmap, lookup_seqZ_lt in Hl by lia.
    cbn [fmap option_fmap option_map] in Hl. injection Hl as <-.
    f_equal. lia.
Qed.

(** X4: renaming a registered session of a running manager is announced on
    that session's own connection, under the surrogate identifier of the
    session's object, which is the number of the object in the order of
    creation (counted from 1, and 2^53 past that number): no hypothesis on
    handles is needed, because the handle of every registered session is
    fulfilled with the session's connection. *)
Theorem X4_rename_announced_on_own_connection :
  (∀ root inputStream outputStream ops i s newName,
     let w :=
       FlatSessionLauncher.run ops
         (FlatSessionLauncher.constructor root inputStream outputStream) in
     let pid :=
       Z.min (Z.of_nat (Session.debugSession s) + 1) counter_limit in
     sessions w !! i = Some s →
     (∃ this, objects w !! Session.debugSession s = Some this ∧
              VSDebugSession.mockProcessId this = pid) ∧
     ∃ N ev,
       trace (run_jobs N
                (FlatSessionLauncher.set_name (Session.debugSession s)
                   newName w)) =
       trace w ++ ev ++ [EvProcess (Session.connection s) pid newName]) ∧
  (∀ root inputStream outputStream ops i s newName,
     let w :=
       Part000.run ops (Part000.constructor root inputStream outputStream) in
     let pid :=
       Z.min (Z.of_nat (Session.debugSession s) + 1) counter_limit in
     sessions w !! i = Some s →
     (∃ this, objects w !! Session.debugSession s = Some this ∧
              VSDebugSession.mockProcessId this = pid) ∧
     ∃ N ev,
       trace (run_jobs N
                (Part000.set_name (Session.debugSession s) newName w)) =
       trace w ++ ev ++
       [EvProcess
          (ChildConnection.mk root
             (Part000.VSConnectionStrategy.sessionId (Session.strategy s)))
          pid newName]).
Proof.
  split.
  - intros root inputStream outputStream ops i s newName w pid Hs.
    pose proof (Flat_run_invariant Flat_aligned Flat_aligned_exec ops _
                  (Flat_aligned_started root inputStream outputStream))
      as (Ho & Hlen & Hreg & Hds & Hful & Honly).
    pose proof (Flat_run_invariant surrogates_counted Flat_surrogates_exec ops
                  _ (Flat_surrogates_started root inputStream outputStream))
      as Hsur.
    fold w in Ho, Hlen, Hful, Hsur.
    pose proof (Forall_lookup_1 _ _ _ _ Hful Hs) as Hconn. cbn in Hconn.
    assert (Session.debugSession s < length (objects w))%nat as Hlt.
    { rewrite <- Hlen. by eapply lookup_lt_Some. }
    destruct (aligned_object_lookup w _ Ho Hsur Hlt)
      as (this & Hthis & Hcc & Hpid).
    split; [by exists this|].
    unfold FlatSessionLauncher.set_name. rewrite Hthis, Hcc, Hpid.
    set (w1 := set_objects _ w).
    by apply (then_dap_fulfilled (Session.debugSession s)
                (Session.connection s) _ newName w1).
  - intros root inputStream outputStream ops i s newName w pid Hs.
    pose proof (Part000_run_invariant Part000_aligned Part000_aligned_exec ops
                  _ (Part000_aligned_started root inputStream outputStream))
      as (Ho & Hlen & Hreg & Hds & Hful & Honly).
    pose proof (Part000_run_invariant surrogates_counted
                  Part000_surrogates_exec ops
                  _ (Part000_surrogates_started root inputStream outputStream))
      as Hsur.
    pose proof (Part000_run_invariant (Part000_one_root root)
                  (Part000_one_root_exec root) ops _
                  (Part000_one_root_started root inputStream outputStream))
      as [Hroot _].
    fold w in Ho, Hlen, Hful, Hsur, Hroot.
    destruct (Forall_lookup_1 _ _ _ _ Hful Hs) as (_ & _ & Hconn).
    rewrite Hroot in Hconn.
    assert (Session.debugSession s < length (objects w))%nat as Hlt.
    { rewrite <- Hlen. by eapply lookup_lt_Some. }
    destruct (aligned_object_lookup w _ Ho Hsur Hlt)
      as (this & Hthis & Hcc & Hpid).
    split; [by exists this|].
    unfold Part000.set_name. rewrite Hthis, Hcc, Hpid.
    by apply then_dap_fulfilled.
Qed.

(** The child registered second by a manager that launched [child1] is
    renamed. *)
Lemma X4_witness :
  ∃ N ev,
    trace (run_jobs N
             (FlatSessionLauncher.set_name 1 "service worker"
                flat_child1_launched)) =
    trace flat_child1_launched ++ ev ++
    [EvProcess (ChildConnection.mk root0 (Some "child-1")) 2
       "service worker"].
Proof.
  apply (proj2 (proj1 X4_rename_announced_on_own_connection root0 stdin stdout
                  [FlatSessionLauncher.OpLaunch 0 child1 ∅] 1%nat
                  (Session.mk 1%nat (spread_with_sessionId ∅ "child-1")
                     (FlatSessionLauncher.VSConnectionStrategy.mk root0
                        (Some "child-1"))
                     (ChildConnection.mk root0 (Some "child-1")))
                  "service worker" eq_refl)).
Defined.

(** ** Notifications come in the order of the assignments *)

Section Chains.
Context {K S : Type}.
Implicit Types (w : World K S).

Lemma run_dap_jobs_any (ys : list (ChildConnection.t * Z * string)) w :
  jobs w = dap_job <$> ys →
  jobs (run_jobs (length ys) w) = [] ∧
  trace (run_jobs (length ys) w) = trace w ++ (process_event <$> ys).
Proof.
  revert w. induction ys as [|[[c pid] n] ys IH]; intros w Hj.
  - cbn. by rewrite app_nil_r.
  - cbn [length run_jobs]. cbn in Hj.
    destruct (tick_cons _ _ _ Hj) as [Hq Ht]. cbn in Hq, Ht.
    rewrite app_nil_r in Hq. destruct (IH _ Hq) as [Hq' Ht'].
    rewrite Hq', Ht', Ht. split; [done|]. by rewrite <- app_assoc.
Qed.

Lemma run_chain_jobs (xs ys : list (ChildConnection.t * Z * string)) w :
  jobs w = (chain_job <$> xs) ++ (dap_job <$> ys) →
  jobs (run_jobs (2 * length xs + length ys) w) = [] ∧
  trace (run_jobs (2 * length xs + length ys) w) =
    trace w ++ (process_event <$> (ys ++ xs)).
Proof.
  revert ys w. induction xs as [|[[c pid] n] xs IH]; intros ys w Hj.
  - cbn in Hj. cbn [length Nat.mul Nat.add]. rewrite app_nil_r.
    by apply run_dap_jobs_any.
  - replace (2 * length ((c, pid, n) :: xs) + length ys)%nat
      with (Datatypes.S (2 * length xs + length (ys ++ [(c, pid, n)])))
      by (rewrite length_app; cbn [length]; lia).
    cbn [run_jobs]. cbn in Hj.
    destruct (tick_cons _ _ _ Hj) as [Hq Ht]. cbn in Hq, Ht.
    rewrite app_nil_r in Ht.
    assert (jobs (tick w) =
              (chain_job <$> xs) ++ (dap_job <$> (ys ++ [(c, pid, n)])))
      as Hq'.
    { by rewrite Hq, fmap_app, <- app_assoc. }
    destruct (IH _ _ Hq') as [Hq'' Ht''].
    rewrite Hq'', Ht'', Ht. split; [done|]. by rewrite <- app_assoc.
Qed.

Lemma processes_process_events (xs : list (ChildConnection.t * Z * string)) :
  processes (S := S) (process_event <$> xs) = xs.
Proof.
  induction xs as [|[[c pid] n] xs IH]; [done|]. cbn. f_equal. exact IH.
Qed.

Lemma sent_process_events (xs : list (ChildConnection.t * Z * string)) :
  sent (S := S) (process_event <$> xs) = [].
Proof. induction xs as [|[[c pid] n] xs IH]; [done|]. exact IH. Qed.

(** [then] changes no handle from or to fulfilled, so it changes no
    notification. *)
Lemma notification_then d k w r :
  notification (then_ d k w) r = notification w r.
Proof.
  unfold notification. rewrite then_objects.
  destruct (objects w !! r.1) as [this|]; [|done].
  unfold then_. destruct (promises w !! d) as [[ks|c]|] eqn:Hd; try done.
  cbn [promises set_promises].
  destruct (decide (d = VSDebugSession.childConnection this)) as [<-|Hne].
  - rewrite Hd, list_lookup_insert_eq; [done|]. by eapply lookup_lt_Some.
  - by rewrite list_lookup_insert_ne.
Qed.

(** What [then] with a notification chain does to the queue: one chain if
    the handle is fulfilled, nothing otherwise. *)
Lemma then_dap_jobs d pid n w :
  jobs (then_ d (ThenDap (DapProcess pid n)) w) =
    jobs w ++
    (chain_job <$>
       match promises w !! d with
       | Some (Fulfilled c) => [(dap c, pid, n)]
       | _ => []
       end).
Proof.
  unfold then_. destruct (promises w !! d) as [[ks|c]|]; cbn;
    by rewrite ?app_nil_r.
Qed.

End Chains.

Lemma Flat_set_name_notification o n (w : FlatSessionLauncher.W) r :
  notification (FlatSessionLauncher.set_name o n w) r = notification w r.
Proof.
  unfold FlatSessionLauncher.set_name.
  destruct (objects w !! o) as [this|] eqn:Ho; [|done].
  rewrite notification_then. unfold notification.
  cbn [objects promises set_objects].
  destruct (decide (o = r.1)) as [<-|Hne].
  - rewrite list_lookup_insert_eq by by eapply lookup_lt_Some.
    by rewrite Ho.
  - by rewrite list_lookup_insert_ne.
Qed.

Lemma Flat_set_name_jobs o n (w : FlatSessionLauncher.W) :
  jobs (FlatSessionLauncher.set_name o n w) =
    jobs w ++ (chain_job <$> omap (notification w) [(o, n)]) ∧
  trace (FlatSessionLauncher.set_name o n w) = trace w.
Proof.
  unfold FlatSessionLauncher.set_name, notification. cbn [omap fst snd].
  destruct (objects w !! o) as [this|] eqn:Ho; cbn.
  - rewrite then_trace, then_dap_jobs. cbn [promises jobs set_objects].
    split; [|done]. rewrite ?Ho. by destruct (promises w !! _) as [[?|?]|].
  - rewrite ?Ho. by rewrite app_nil_r.
Qed.

Lemma Part000_set_name_notification o n (w : Part000.W) r :
  notification (Part000.set_name o n w) r = notification w r.
Proof.
  unfold Part000.set_name.
  destruct (objects w !! o) as [this|]; [|done]. apply notification_then.
Qed.

Lemma Part000_set_name_jobs o n (w : Part000.W) :
  jobs (Part000.set_name o n w) =
    jobs w ++ (chain_job <$> omap (notification w) [(o, n)]) ∧
  trace (Part000.set_name o n w) = trace w.
Proof.
  unfold Part000.set_name, notification. cbn [omap fst snd].
  destruct (objects w !! o) as [this|] eqn:Ho; cbn.
  - rewrite then_trace, then_dap_jobs.
    split; [|done]. rewrite ?Ho. by destruct (promises w !! _) as [[?|?]|].
  - rewrite ?Ho. by rewrite app_nil_r.
Qed.

Lemma omap_pointwise {A B : Type} (f g : A → option B) (l : list A) :
  (∀ x, f x = g x) → omap f l = omap g l.
Proof.
  intros Hfg. induction l as [|x l IH]; [done|]. cbn. by rewrite Hfg, IH.
Qed.

Lemma omap_length_le {A B : Type} (f : A → option B) (l : list A) :
  (length (omap f l) ≤ length l)%nat.
Proof.
  induction l as [|x l IH]; [done|]. cbn. destruct (f x); cbn; lia.
Qed.

(** Any sequence of renames queues one chain per rename whose handle is
    fulfilled, in order. *)
Lemma renames_jobs {K S : Type}
    (set_name : nat → string → World K S → World K S) :
  (∀ o n w r, notification (set_name o n w) r = notification w r) →
  (∀ o n w,
     jobs (set_name o n w) =
       jobs w ++ (chain_job <$> omap (notification w) [(o, n)]) ∧
     trace (set_name o n w) = trace w) →
  ∀ renames w,
    let w' := foldl (λ w (r : nat * string), set_name r.1 r.2 w) w renames in
    jobs w' = jobs w ++ (chain_job <$> omap (notification w) renames) ∧
    trace w' = trace w.
Proof.
  intros Hnot Hjobs renames.
  induction renames as [|[o n] renames IH]; intros w; cbn zeta.
  - cbn. by rewrite app_nil_r.
  - cbn [foldl fst snd]. destruct (IH (set_name o n w)) as [Hj Ht].
    destruct (Hjobs o n w) as [Hj1 Ht1].
    rewrite Hj, Ht, Hj1, Ht1. split; [|done].
    rewrite <- app_assoc, <- fmap_app. do 2 f_equal.
    change ((o, n) :: renames) with ([(o, n)] ++ renames).
    rewrite omap_app. f_equal. apply omap_pointwise. intros r. apply Hnot.
Qed.

Lemma renames_processes {K S : Type}
    (set_name : nat → string → World K S → World K S) :
  (∀ o n w r, notification (set_name o n w) r = notification w r) →
  (∀ o n w,
     jobs (set_name o n w) =
       jobs w ++ (chain_job <$> omap (notification w) [(o, n)]) ∧
     trace (set_name o n w) = trace w) →
  ∀ renames w,
    jobs w = [] →
    let w' :=
      run_jobs (2 * length renames)
        (foldl (λ w (r : nat * string), set_name r.1 r.2 w) w renames) in
    jobs w' = [] ∧
    processes (trace w') =
      processes (trace w) ++ omap (notification w) renames ∧
    sent (trace w') = sent (trace w).
Proof.
  intros Hnot Hjobs renames w Hempty. cbn zeta.
  destruct (renames_jobs set_name Hnot Hjobs renames w) as [Hj Ht].
  rewrite Hempty in Hj. cbn [app] in Hj.
  set (xs := omap (notification w) renames) in *.
  assert (length xs ≤ length renames)%nat as Hlen by apply omap_length_le.
  replace (2 * length renames)%nat
    with (2 * length xs + length (@nil (ChildConnection.t * Z * string))
          + (2 * length renames - 2 * length xs))%nat by (cbn; lia).
  rewrite run_jobs_add.
  destruct (run_chain_jobs xs [] _ (eq_trans Hj (eq_sym (app_nil_r _))))
    as [Hq Htr].
  rewrite (run_jobs_empty _ _ Hq), Hq, Htr, Ht.
  cbn [app]. rewrite processes_app, sent_app, processes_process_events,
    sent_process_events, app_nil_r. done.
Qed.

(** X5: notifications leave in the order of the assignments, across
    sessions. Starting from an empty queue, any sequence of renames followed
    by twice as many microtask steps empties the queue again, has emitted
    exactly one [process] notification for each rename of an existing
    session whose handle is fulfilled, in the order of the renames, and has
    sent no message. A rename of a missing object or of a session whose
    handle is pending contributes nothing yet. *)
Theorem X5_notifications_in_assignment_order :
  (∀ renames (w : FlatSessionLauncher.W),
     jobs w = [] →
     let w' :=
       run_jobs (2 * length renames)
         (foldl (λ w (r : nat * string),
                   FlatSessionLauncher.set_name r.1 r.2 w) w renames) in
     jobs w' = [] ∧
     processes (trace w') =
       processes (trace w) ++ omap (notification w) renames ∧
     sent (trace w') = sent (trace w)) ∧
  (∀ renames (w : Part000.W),
     jobs w = [] →
     let w' :=
       run_jobs (2 * length renames)
         (foldl (λ w (r : nat * string), Part000.set_name r.1 r.2 w)
            w renames) in
     jobs w' = [] ∧
     processes (trace w') =
       processes (trace w) ++ omap (notification w) renames ∧
     sent (trace w') = sent (trace w)).
Proof.
  split.
  - apply (renames_processes FlatSessionLauncher.set_name).
    + apply Flat_set_name_notification.
    + apply Flat_set_name_jobs.
  - apply (renames_processes Part000.set_name).
    + apply Part000_set_name_notification.
    + apply Part000_set_name_jobs.
Qed.

(** A manager with one child: the child, the root session, a session that
    does not exist, and the child again are renamed. *)
Lemma X5_witness :
  let w :=
    run_jobs 1
      (Part000.buildVSSessionLauncher part000_rootSession child1 ∅
         part000_started).2 in
  let renames :=
    [(1%nat, "worker A"); (0%nat, "main"); (7%nat, "nobody");
     (1%nat, "worker B")] in
  let w' :=
    run_jobs 8
      (foldl (λ w (r : nat * string), Part000.set_name r.1 r.2 w) w renames) in
  jobs w' = [] ∧
  processes (trace w') =
    processes (trace w) ++
    [(ChildConnection.mk root0 (Some "child-1"), 2, "worker A");
     (ChildConnection.mk root0 (Some ""), 1, "main");
     (ChildConnection.mk root0 (Some "child-1"), 2, "worker B")] ∧
  sent (trace w') = sent (trace w).
Proof.
  apply (proj2 X5_notifications_in_assignment_order
           [(1%nat, "worker A"); (0%nat, "main"); (7%nat, "nobody");
            (1%nat, "worker B")]
           (run_jobs 1
              (Part000.buildVSSessionLauncher part000_rootSession child1 ∅
                 part000_started).2)).
  reflexivity.
Defined.

(** ** Every child is announced once *)

Lemma queued_sends_app js1 js2 :
  queued_sends (js1 ++ js2) = queued_sends js1 ++ queued_sends js2.
Proof. apply omap_app. Qed.

Lemma announcements_snoc {K S : Type} (ss : list (Session.t K S)) s :
  (1 ≤ length ss)%nat →
  (λ s, attachedChildSession (Session.config s)) <$> drop 1 (ss ++ [s]) =
  ((λ s, attachedChildSession (Session.config s)) <$> drop 1 ss) ++
  [attachedChildSession (Session.config s)].
Proof. intros Hlen. by rewrite drop_app_le, fmap_app. Qed.

(** One microtask moves its message, if it has one, from the queue to the
    trace. *)
Lemma tick_sends {K S : Type} (w : World K S) :
  (sent (trace (tick w))).*2 ++ queued_sends (jobs (tick w)) =
  (sent (trace w)).*2 ++ queued_sends (jobs w).
Proof.
  destruct (jobs w) as [|j js] eqn:Hj.
  - by rewrite tick_empty, Hj.
  - destruct (tick_cons j js w Hj) as [Hq Ht].
    rewrite Hq, Ht, sent_app, fmap_app, queued_sends_app.
    destruct j as [c [[pid n]|msg]|c [pid n]]; cbn;
      by rewrite ?app_nil_r, <- ?app_assoc.
Qed.

Lemma Part000_run_ticks n (w : Part000.W) :
  Part000.run (replicate n Part000.OpTick) w = run_jobs n w.
Proof.
  revert w. induction n as [|n IH]; intros w; [done|]. cbn. apply IH.
Qed.

Lemma Flat_announced_exec w op :
  ((1 ≤ length (sessions w))%nat ∧
   queued_sends (jobs w) = [] ∧
   (sent (trace w)).*2 = announcements w ∧
   Forall (λ c, c ∈ Session.connection <$> sessions w) (sent (trace w)).*1) →
  let w' := FlatSessionLauncher.exec w op in
  (1 ≤ length (sessions w'))%nat ∧
  queued_sends (jobs w') = [] ∧
  (sent (trace w')).*2 = announcements w' ∧
  Forall (λ c, c ∈ Session.connection <$> sessions w') (sent (trace w')).*1.
Proof.
  intros (Hlen & Hq & Hs & Hc). cbn zeta.
  destruct op as [parent target config|o newName|]; cbn.
  - destruct (sessions w !! parent) as [parentSession|] eqn:Hparent; [|done].
    destruct (decide (Some (Target.id target)
                        ∈ FlatSessionLauncher.registered w)) as [Hd|Hd].
    + rewrite Flat_launcher_duplicate, Flat_createSession_duplicate by done.
      unfold announcements. cbn [snd sessions jobs trace].
      rewrite sent_app. cbn. rewrite app_nil_r. by split_and!.
    + rewrite Flat_launcher_fresh, Flat_createSession_fresh by done.
      unfold announcements. cbn [snd sessions jobs trace emit].
      rewrite announcements_snoc by done.
      rewrite !sent_app, !fmap_app, length_app. cbn. rewrite !app_nil_r.
      split_and!; [lia|done|by rewrite Hs|].
      apply Forall_app. split.
      * eapply Forall_impl; [exact Hc|]. intros c Hin.
        apply elem_of_app. by left.
      * apply Forall_singleton. apply elem_of_app. left.
        apply list_elem_of_fmap. exists parentSession. split; [done|].
        by eapply list_elem_of_lookup_2.
  - destruct (Flat_set_name_jobs o newName w) as [Hj Ht].
    assert (sessions (FlatSessionLauncher.set_name o newName w) = sessions w)
      as Hss.
    { unfold FlatSessionLauncher.set_name.
      destruct (objects w !! o); [|done]. by rewrite then_sessions. }
    unfold announcements. rewrite Hj, Ht, Hss, queued_sends_app, Hq.
    split_and!; try done. cbn.
    by destruct (notification w (o, newName)) as [[[c pid] n]|].
  - pose proof (tick_sends w) as Hts. rewrite Hq, app_nil_r in Hts.
    unfold announcements. rewrite tick_sessions.
    assert (queued_sends (jobs (tick w)) = [] ∧
            sent (trace (tick w)) = sent (trace w)) as [Hq' Hs'].
    { destruct (jobs w) as [|j js] eqn:Hj.
      - by rewrite tick_empty, Hj.
      - destruct (tick_cons j js w Hj) as [Hq' Ht'].
        rewrite Hq', Ht', sent_app, queued_sends_app.
        destruct j as [c [[pid n]|msg]|c [pid n]]; cbn in Hq |- *;
          try done; by rewrite ?Hq, ?app_nil_r. }
    by rewrite Hq', Hs'.
Qed.

(** X6: a manager of [flatSessionLauncher.ts] has, at every moment,
    announced exactly its children: the messages sent so far are the
    [attachedChildSession] messages of the sessions registered after the
    root session, one each, in the order of registration and with the
    configuration registered for the child; each went out on the connection
    of a registered session; and no message waits in the queue. Renames and
    microtasks never send. *)
Theorem X6_every_child_announced_once :
  ∀ root inputStream outputStream ops,
    let w :=
      FlatSessionLauncher.run ops
        (FlatSessionLauncher.constructor root inputStream outputStream) in
    (sent (trace w)).*2 = announcements w ∧
    length (sent (trace w)) = (length (sessions w) - 1)%nat ∧
    Forall (λ c, c ∈ Session.connection <$> sessions w) (sent (trace w)).*1 ∧
    queued_sends (jobs w) = [].
Proof.
  intros root inputStream outputStream ops. cbn zeta.
  pose proof (Flat_run_invariant _ Flat_announced_exec ops
                (FlatSessionLauncher.constructor root inputStream outputStream))
    as Hinv.
  destruct Hinv as (Hlen & Hq & Hs & Hc).
  { rewrite Flat_constructor_eq. cbn. split_and!; try done. }
  split_and!; try done.
  rewrite <- (length_fmap snd), Hs. unfold announcements.
  by rewrite length_fmap, length_drop.
Qed.

Lemma Part000_announced_exec root w op :
  (Part000_one_root root w ∧
   (1 ≤ length (sessions w))%nat ∧
   (sent (trace w)).*2 ++ queued_sends (jobs w) = announcements w) →
  let w' := Part000.exec w op in
  Part000_one_root root w' ∧
  (1 ≤ length (sessions w'))%nat ∧
  (sent (trace w')).*2 ++ queued_sends (jobs w') = announcements w'.
Proof.
  intros (Hroot & Hlen & Hs). cbn zeta.
  split; [by apply Part000_one_root_exec|].
  destruct op as [parent target config|o newName|]; cbn.
  - destruct (sessions w !! parent) as [parentSession|] eqn:Hparent; [|done].
    destruct Hroot as [_ Hall].
    destruct (Forall_lookup_1 _ _ _ _ Hall Hparent) as [_ Hc].
    destruct (decide (Some (Target.id target) ∈ Part000.registered w))
      as [Hd|Hd].
    + rewrite Part000_launcher_duplicate, Part000_createSession_duplicate
        by done.
      unfold announcements. cbn [snd sessions jobs trace].
      rewrite sent_app. cbn. rewrite app_nil_r. by split.
    + rewrite Part000_launcher_fresh by done. cbn [snd].
      rewrite (then_fulfilled _
                 (ChildConnection.mk root
                    (Part000.VSConnectionStrategy.sessionId
                       (Session.strategy parentSession)))).
      * rewrite Part000_createSession_fresh by done. unfold announcements.
        cbn [snd sessions jobs trace set_jobs].
        rewrite announcements_snoc by done.
        rewrite sent_app, fmap_app, queued_sends_app, length_app. cbn.
        rewrite app_nil_r, app_assoc, Hs. split; [lia|done].
      * rewrite Part000_createSession_fresh by done. cbn [snd promises].
        rewrite lookup_app_l; [done|]. by eapply lookup_lt_Some.
  - destruct (Part000_set_name_jobs o newName w) as [Hj Ht].
    assert (sessions (Part000.set_name o newName w) = sessions w) as Hss.
    { unfold Part000.set_name.
      destruct (objects w !! o); [|done]. by rewrite then_sessions. }
    unfold announcements in *. rewrite Hj, Ht, Hss, queued_sends_app.
    split; [done|]. rewrite <- Hs. f_equal.
    rewrite <- (app_nil_r (queued_sends (jobs w))) at 2. f_equal. cbn.
    by destruct (notification w (o, newName)) as [[[c pid] n]|].
  - unfold announcements. rewrite tick_sessions, tick_sends. done.
Qed.

(** X7: a manager of the earlier revision announces every child exactly
    once, possibly later: at every moment the messages sent so far followed
    by the messages of the queued callbacks are the [attachedChildSession]
    messages of the sessions registered after the root session, in the order
    of registration and with the registered configuration; and once the
    queue is drained all of them have been sent. *)
Theorem X7_every_child_announced_eventually :
  ∀ root inputStream outputStream ops,
    let w :=
      Part000.run ops (Part000.constructor root inputStream outputStream) in
    (sent (trace w)).*2 ++ queued_sends (jobs w) = announcements w ∧
    ∀ n, (2 * length (jobs w) ≤ n)%nat →
         (sent (trace (run_jobs n w))).*2 = announcements w.
Proof.
  intros root inputStream outputStream ops. cbn zeta.
  assert (∀ ops',
            let w' :=
              Part000.run ops'
                (Part000.constructor root inputStream outputStream) in
            (sent (trace w')).*2 ++ queued_sends (jobs w')
            = announcements w') as Hall.
  { intros ops'. cbn zeta.
    pose proof (Part000_run_invariant _ (Part000_announced_exec root) ops'
                  (Part000.constructor root inputStream outputStream)) as Hinv.
    destruct Hinv as (_ & _ & Hs); [|done].
    split; [apply Part000_one_root_started|].
    rewrite Part000_constructor_eq. by cbn. }
  split; [apply Hall|]. intros n Hn.
  set (w := Part000.run ops _) in *.
  pose proof (Hall (ops ++ replicate n Part000.OpTick)) as Hdrained.
  cbn zeta in Hdrained. unfold Part000.run in Hdrained.
  rewrite foldl_app in Hdrained. fold (Part000.run ops
    (Part000.constructor root inputStream outputStream)) in Hdrained.
  fold w in Hdrained.
  fold (Part000.run (replicate n Part000.OpTick) w) in Hdrained.
  rewrite Part000_run_ticks in Hdrained.
  rewrite run_jobs_weight, app_nil_r in Hdrained.
  - rewrite Hdrained. unfold announcements.
    by destruct (run_jobs_frame n w) as (_ & _ & -> & _).
  - pose proof (queue_weight_bound (jobs w)). lia.
Qed.

(** A started manager launches two children; nothing is sent before the
    microtasks run, both children are announced after four steps. *)
Lemma X7_witness :
  let w :=
    Part000.run
      [Part000.OpLaunch 0 child1 ∅;
       Part000.OpLaunch 1 (Target.mk "child-2" "worker") ∅]
      part000_started in
  (sent (trace (run_jobs 4 w))).*2 = announcements w.
Proof.
  apply (proj2 (X7_every_child_announced_eventually root0 stdin stdout
                  [Part000.OpLaunch 0 child1 ∅;
                   Part000.OpLaunch 1 (Target.mk "child-2" "worker") ∅])
           4%nat).
  vm_compute. lia.
Defined.

(** ** Launching the same target again *)

Lemma Flat_launched_registered parentSession target config w :
  Some (Target.id target) ∈
  FlatSessionLauncher.registered
    (FlatSessionLauncher.buildVSSessionLauncher parentSession target config
       w).2.
Proof.
  destruct (decide (Some (Target.id target)
                      ∈ FlatSessionLauncher.registered w)) as [Hd|Hd].
  - by rewrite Flat_launcher_duplicate, Flat_createSession_duplicate.
  - rewrite Flat_launcher_fresh, Flat_createSession_fresh by done.
    unfold FlatSessionLauncher.registered. cbn [snd sessions emit].
    rewrite fmap_app. apply elem_of_app. right.
    by apply list_elem_of_singleton.
Qed.

Lemma Part000_launched_registered parentSession target config w :
  Some (Target.id target) ∈
  Part000.registered
    (Part000.buildVSSessionLauncher parentSession target config w).2.
Proof.
  destruct (decide (Some (Target.id target) ∈ Part000.registered w))
    as [Hd|Hd].
  - by rewrite Part000_launcher_duplicate, Part000_createSession_duplicate.
  - rewrite Part000_launcher_fresh by done.
    unfold Part000.registered. cbn [snd].
    rewrite then_sessions, Part000_createSession_fresh by done.
    cbn [snd sessions]. rewrite fmap_app. apply elem_of_app. right.
    by apply list_elem_of_singleton.
Qed.

(** X8: a target is launched once. After a launch, whether it went through
    or not, the target's identifier is registered, so that launching the
    same target again ends abruptly: no session is registered, no message is
    sent or queued. The second launch still makes a session object, with the
    current counter as its surrogate identifier and a handle that stays
    pending, and still moves the counter. *)
Theorem X8_second_launch_refused :
  (∀ parent1 parent2 target config (w : FlatSessionLauncher.W),
     let w1 :=
       (FlatSessionLauncher.buildVSSessionLauncher parent1 target config
          w).2 in
     let second :=
       FlatSessionLauncher.buildVSSessionLauncher parent2 target config w1 in
     Some (Target.id target) ∈ FlatSessionLauncher.registered w1 ∧
     second.1 = Abrupt ∧
     sessions second.2 = sessions w1 ∧
     sent (trace second.2) = sent (trace w1) ∧
     jobs second.2 = jobs w1 ∧
     objects second.2 =
       objects w1 ++
       [VSDebugSession.mk
          (FlatSessionLauncher.or_root (Some (Target.id target)))
          (Target.name target) (length (promises w1)) (mockProcessId w1)] ∧
     promises second.2 = promises w1 ++ [Pending []] ∧
     mockProcessId second.2 = js_increment (mockProcessId w1)) ∧
  (∀ parent1 parent2 target config (w : Part000.W),
     let w1 :=
       (Part000.buildVSSessionLauncher parent1 target config w).2 in
     let second :=
       Part000.buildVSSessionLauncher parent2 target config w1 in
     Some (Target.id target) ∈ Part000.registered w1 ∧
     second.1 = Abrupt ∧
     sessions second.2 = sessions w1 ∧
     sent (trace second.2) = sent (trace w1) ∧
     jobs second.2 = jobs w1 ∧
     objects second.2 =
       objects w1 ++
       [VSDebugSession.mk (Target.id target) (Target.name target)
          (length (promises w1)) (mockProcessId w1)] ∧
     promises second.2 = promises w1 ++ [Pending []] ∧
     mockProcessId second.2 = js_increment (mockProcessId w1)).
Proof.
  split.
  - intros parent1 parent2 target config w. cbn zeta.
    pose proof (Flat_launched_registered parent1 target config w) as Hreg.
    split; [done|].
    rewrite (Flat_launcher_duplicate parent2), Flat_createSession_duplicate
      by done.
    cbn [fst snd sessions trace jobs objects promises mockProcessId].
    split_and!; try done. rewrite sent_app. cbn. by rewrite app_nil_r.
  - intros parent1 parent2 target config w. cbn zeta.
    pose proof (Part000_launched_registered parent1 target config w) as Hreg.
    split; [done|].
    rewrite (Part000_launcher_duplicate parent2),
      Part000_createSession_duplicate by done.
    cbn [fst snd sessions trace jobs objects promises mockProcessId].
    split_and!; try done. rewrite sent_app. cbn. by rewrite app_nil_r.
Qed.

(** ** Launching with a configuration that was merged before *)

(** X9: injecting the session identifier is last-write-wins. A launch with a
    configuration that already went through a launch (a child of a child)
    does exactly what the launch with the original configuration does: the
    earlier [sessionId] leaves no mark. *)
Theorem X9_nested_launch_replaces_sessionId :
  (∀ (config : Config) id1 id2,
     spread_with_sessionId (spread_with_sessionId config id1) id2 =
     spread_with_sessionId config id2) ∧
  (∀ parentSession target config id1 (w : FlatSessionLauncher.W),
     FlatSessionLauncher.buildVSSessionLauncher parentSession target
       (spread_with_sessionId config id1) w =
     FlatSessionLauncher.buildVSSessionLauncher parentSession target config w)
  ∧
  (∀ parentSession target config id1 (w : Part000.W),
     Part000.buildVSSessionLauncher parentSession target
       (spread_with_sessionId config id1) w =
     Part000.buildVSSessionLauncher parentSession target config w).
Proof.
  assert (∀ (config : Config) id1 id2,
            spread_with_sessionId (spread_with_sessionId config id1) id2 =
            spread_with_sessionId config id2) as Hlaw.
  { intros config id1 id2. apply insert_insert_eq. }
  split_and!; [done| |].
  - intros parentSession target config id1 w.
    unfold FlatSessionLauncher.buildVSSessionLauncher. by rewrite Hlaw.
  - intros parentSession target config id1 w.
    unfold Part000.buildVSSessionLauncher. by rewrite Hlaw.
Qed.

(** ** The script's last statement *)

Lemma connections_managers {K S : Type}
    (new_VSSessionManager :
       MessageEmitterConnection → Stream → Stream → World K S)
    port (sockets : list Stream) :
  foldl (connection new_VSSessionManager) (Listening port []) sockets =
  Listening port
    (imap (λ i socket, new_VSSessionManager (RootRef i) socket socket)
       sockets).
Proof.
  induction sockets as [|socket sockets IH] using rev_ind; [done|].
  rewrite foldl_app, IH, imap_app. cbn.
  by rewrite length_imap, Nat.add_0_r.
Qed.

(** X11: in server mode every accepted socket gets a manager of its own.
    The manager of the i-th socket reads from and writes to that socket, has
    a root connection that no other manager has, and starts counting at 1
    again: its only session is the root session with surrogate identifier
    1, so surrogate identifiers are unique within a manager only. *)
Theorem X11_one_manager_per_socket :
  (∀ port sockets i socket,
     sockets !! i = Some socket →
     ∃ m,
       managers (foldl (connection FlatSessionLauncher.constructor)
                   (Listening port []) sockets) !! i = Some m ∧
       m = FlatSessionLauncher.constructor (RootRef i) socket socket ∧
       rootConnection m = RootRef i ∧
       last (trace m) = Some (EvInit (RootRef i) socket socket) ∧
       VSDebugSession.mockProcessId <$> objects m = [1] ∧
       mockProcessId m = 2) ∧
  (∀ port sockets i socket,
     sockets !! i = Some socket →
     ∃ m,
       managers (foldl (connection Part000.constructor)
                   (Listening port []) sockets) !! i = Some m ∧
       m = Part000.constructor (RootRef i) socket socket ∧
       rootConnection m = RootRef i ∧
       last (trace m) = Some (EvInit (RootRef i) socket socket) ∧
       VSDebugSession.mockProcessId <$> objects m = [1] ∧
       mockProcessId m = 2) ∧
  (∀ {K S : Type}
     (new_VSSessionManager :
        MessageEmitterConnection → Stream → Stream → World K S)
     port sockets,
     length (managers (foldl (connection new_VSSessionManager)
                         (Listening port []) sockets)) = length sockets).
Proof.
  split_and!.
  - intros port sockets i socket Hi. rewrite connections_managers.
    cbn [managers]. rewrite list_lookup_imap, Hi. eexists.
    split; [reflexivity|]. by split_and!.
  - intros port sockets i socket Hi. rewrite connections_managers.
    cbn [managers]. rewrite list_lookup_imap, Hi. eexists.
    split; [reflexivity|]. by split_and!.
  - intros K S ctor port sockets. rewrite connections_managers.
    cbn [managers]. apply length_imap.
Qed.

(** Two sockets connect to a listening script. *)
Lemma X11_witness :
  ∃ m,
    managers (foldl (connection FlatSessionLauncher.constructor)
                (Listening (UnaryPlus "4711") [])
                [StreamRef 7; StreamRef 8]) !! 1%nat = Some m ∧
    m = FlatSessionLauncher.constructor (RootRef 1) (StreamRef 8)
          (StreamRef 8) ∧
    rootConnection m = RootRef 1 ∧
    last (trace m) = Some (EvInit (RootRef 1) (StreamRef 8) (StreamRef 8)) ∧
    VSDebugSession.mockProcessId <$> objects m = [1] ∧
    mockProcessId m = 2.
Proof.
  apply (proj1 X11_one_manager_per_socket (UnaryPlus "4711")
           [StreamRef 7; StreamRef 8] 1%nat (StreamRef 8)).
  reflexivity.
Defined.

(** ** The connection strategy of the earlier revision *)

(** X12: a callback attached to [getConnection()] before [init] waits and is
    queued by [init], once, on the connection of the strategy's root
    connection and session identifier; a second [init] queues nothing and
    leaves the promise as the first one made it. *)
Theorem X12_strategy_init_delivers_once :
  ∀ {K : Type} root sessionId k
    (w : World K Part000.VSConnectionStrategy.t),
    let strat := (Part000.VSConnectionStrategy.new root sessionId w).1 in
    let w1 := (Part000.VSConnectionStrategy.new root sessionId w).2 in
    let w2 := then_ (Part000.VSConnectionStrategy.getConnection strat) k w1 in
    let w3 := Part000.VSConnectionStrategy.init strat w2 in
    let w4 := Part000.VSConnectionStrategy.init strat w3 in
    let conn := ChildConnection.mk root sessionId in
    promises w1 !! Part000.VSConnectionStrategy.getConnection strat
      = Some (Pending []) ∧
    jobs w2 = jobs w ∧
    jobs w3 = jobs w ++ [JConn conn k] ∧
    promises w3 !! Part000.VSConnectionStrategy.getConnection strat
      = Some (Fulfilled conn) ∧
    jobs w4 = jobs w3 ∧
    promises w4 = promises w3.
Proof.
  intros K root sessionId k w. cbn zeta.
  unfold Part000.VSConnectionStrategy.new, Part000.VSConnectionStrategy.init,
    Part000.VSConnectionStrategy.getConnection, getDeferred.
  cbn [fst snd Part000.VSConnectionStrategy.deferredChildConnection
         Part000.VSConnectionStrategy.rootConnection
         Part000.VSConnectionStrategy.sessionId].
  set (d := length (promises w)).
  set (conn := ChildConnection.mk root sessionId).
  set (w1 := set_promises (promises w ++ [Pending []]) w).
  assert (promises w1 !! d = Some (Pending [])) as H1 by apply lookup_fresh.
  rewrite (then_pending _ _ _ _ H1). cbn [app].
  set (w2 := set_promises _ w1).
  assert (promises w2 !! d = Some (Pending [k])) as H2.
  { subst w2 w1. unfold d. cbn. rewrite insert_fresh. apply lookup_fresh. }
  rewrite (resolve_pending _ _ _ _ H2).
  set (w3 := mkWorld _ _ _ _ _ _ _).
  assert (promises w3 !! d = Some (Fulfilled conn)) as H3.
  { subst w3 w2 w1. unfold d. cbn. rewrite !insert_fresh. apply lookup_fresh. }
  rewrite (resolve_fulfilled _ _ _ _ H3).
  by split_and!.
Qed.

(** ** What a running manager never undoes *)

Lemma Flat_exec_grows w op :
  sessions w `prefix_of` sessions (FlatSessionLauncher.exec w op) ∧
  trace w `prefix_of` trace (FlatSessionLauncher.exec w op) ∧
  mockProcessId w ≤ mockProcessId (FlatSessionLauncher.exec w op) ∧
  rootConnection (FlatSessionLauncher.exec w op) = rootConnection w.
Proof.
  destruct op as [parent target config|o newName|]; cbn.
  - destruct (sessions w !! parent) as [parentSession|]; [|done].
    pose proof (js_increment_ge (mockProcessId w)) as Hge.
    destruct (decide (Some (Target.id target)
                        ∈ FlatSessionLauncher.registered w)) as [Hd|Hd].
    + rewrite Flat_launcher_duplicate, Flat_createSession_duplicate by done.
      cbn [snd sessions trace mockProcessId rootConnection].
      split_and!; [done|by apply prefix_app_r|done|done].
    + rewrite Flat_launcher_fresh, Flat_createSession_fresh by done.
      cbn [snd sessions trace mockProcessId rootConnection emit].
      split_and!; [by apply prefix_app_r| |done|done].
      rewrite <- app_assoc. by apply prefix_app_r.
  - unfold FlatSessionLauncher.set_name.
    destruct (objects w !! o) as [this|]; [|done].
    by rewrite then_sessions, then_trace, then_mockProcessId,
      then_rootConnection.
  - rewrite tick_sessions, tick_mockProcessId, tick_rootConnection.
    split_and!; try done. apply tick_trace_prefix.
Qed.

Lemma Part000_exec_grows w op :
  sessions w `prefix_of` sessions (Part000.exec w op) ∧
  trace w `prefix_of` trace (Part000.exec w op) ∧
  mockProcessId w ≤ mockProcessId (Part000.exec w op) ∧
  rootConnection (Part000.exec w op) = rootConnection w.
Proof.
  destruct op as [parent target config|o newName|]; cbn.
  - destruct (sessions w !! parent) as [parentSession|]; [|done].
    pose proof (js_increment_ge (mockProcessId w)) as Hge.
    destruct (decide (Some (Target.id target) ∈ Part000.registered w))
      as [Hd|Hd].
    + rewrite Part000_launcher_duplicate, Part000_createSession_duplicate
        by done.
      cbn [snd sessions trace mockProcessId rootConnection].
      split_and!; [done|by apply prefix_app_r|done|done].
    + rewrite Part000_launcher_fresh by done. cbn [snd].
      rewrite then_sessions, then_trace, then_mockProcessId,
        then_rootConnection, Part000_createSession_fresh by done.
      cbn [snd sessions trace mockProcessId rootConnection].
      split_and!; [by apply prefix_app_r|by apply prefix_app_r|done|done].
  - unfold Part000.set_name.
    destruct (objects w !! o) as [this|]; [|done].
    by rewrite then_sessions, then_trace, then_mockProcessId,
      then_rootConnection.
  - rewrite tick_sessions, tick_mockProcessId, tick_rootConnection.
    split_and!; try done. apply tick_trace_prefix.
Qed.

(** X13: a manager only ever adds. Over any sequence of launches, renames
    and microtask steps, from any world, the registered sessions stay
    registered in their places, the trace keeps what it had, the counter
    does not go down and the root connection is never replaced. *)
Theorem X13_manager_only_adds :
  (∀ ops (w : FlatSessionLauncher.W),
     sessions w `prefix_of` sessions (FlatSessionLauncher.run ops w) ∧
     trace w `prefix_of` trace (FlatSessionLauncher.run ops w) ∧
     mockProcessId w ≤ mockProcessId (FlatSessionLauncher.run ops w) ∧
     rootConnection (FlatSessionLauncher.run ops w) = rootConnection w) ∧
  (∀ ops (w : Part000.W),
     sessions w `prefix_of` sessions (Part000.run ops w) ∧
     trace w `prefix_of` trace (Part000.run ops w) ∧
     mockProcessId w ≤ mockProcessId (Part000.run ops w) ∧
     rootConnection (Part000.run ops w) = rootConnection w).
Proof.
  split.
  - intros ops. unfold FlatSessionLauncher.run.
    induction ops as [|op ops IH]; intros w; cbn [foldl]; [done|].
    destruct (Flat_exec_grows w op) as (Hs & Ht & Hn & Hr).
    destruct (IH (FlatSessionLauncher.exec w op)) as (Hs' & Ht' & Hn' & Hr').
    split_and!; [by etransitivity|by etransitivity|lia|by rewrite Hr'].
  - intros ops. unfold Part000.run.
    induction ops as [|op ops IH]; intros w; cbn [foldl]; [done|].
    destruct (Part000_exec_grows w op) as (Hs & Ht & Hn & Hr).
    destruct (IH (Part000.exec w op)) as (Hs' & Ht' & Hn' & Hr').
    split_and!; [by etransitivity|by etransitivity|lia|by rewrite Hr'].
Qed.
